(** * entiende_tu_derecho_backend: the document-analysis agent

    A shallow embedding of [app/agents/state.py], [app/agents/nodes.py]
    and [app/agents/graph.py], and the properties of the two pipeline
    stages, of their text parsers and of the routing between them.

    Python strings are sequences of Unicode code points: a character is
    its code point ([N]) and a [str] is a list of them, so that [len],
    slicing and indexing count code points as Python does. *)

From Stdlib Require Import List NArith ZArith QArith Bool Lia String Ascii.
Import ListNotations.
Local Open Scope nat_scope.

Set Implicit Arguments.

(* ===================================================================== *)
(** ** Text: code points and string literals *)
(* ===================================================================== *)

Definition char := N.
Definition str := list char.

Definition str_eq_dec : forall a b : str, {a = b} + {a <> b} :=
  list_eq_dec N.eq_dec.

Definition str_eqb (a b : str) : bool :=
  if str_eq_dec a b then true else false.

(** Python truthiness of a string: non-empty. *)
Definition truthy (s : str) : bool :=
  match s with [] => false | _ :: _ => true end.

Module Utf8.
(** The source file is UTF-8; its literals are decoded to code points. *)

Definition cont (b : N) : N := N.land b 63.

Fixpoint decode (bs : list N) : str :=
  match bs with
  | [] => []
  | b0 :: r0 =>
      if (b0 <? 128)%N then b0 :: decode r0
      else if (b0 <? 224)%N then
        match r0 with
        | b1 :: r1 =>
            N.lor (N.shiftl (N.land b0 31) 6) (cont b1) :: decode r1
        | [] => [b0]
        end
      else if (b0 <? 240)%N then
        match r0 with
        | b1 :: b2 :: r2 =>
            N.lor (N.shiftl (N.land b0 15) 12)
              (N.lor (N.shiftl (cont b1) 6) (cont b2)) :: decode r2
        | _ => [b0]
        end
      else
        match r0 with
        | b1 :: b2 :: b3 :: r3 =>
            N.lor (N.shiftl (N.land b0 7) 18)
              (N.lor (N.shiftl (cont b1) 12)
                 (N.lor (N.shiftl (cont b2) 6) (cont b3))) :: decode r3
        | _ => [b0]
        end
  end.

Fixpoint bytes (s : string) : list N :=
  match s with
  | EmptyString => []
  | String a s' => N_of_ascii a :: bytes s'
  end.

Definition lit (s : string) : str := decode (bytes s).
End Utf8.

Definition lit : string -> str := Utf8.lit.

(** Single characters used by the source. *)
Definition NL : char := 10%N.          (* "\n" *)
Definition SPACE : char := 32%N.
Definition UNDERSCORE : char := 95%N.
Definition BULLET : char := 8226%N.    (* U+2022 *)

(* ===================================================================== *)
(** ** Python's string built-ins *)
(* ===================================================================== *)

(** The part of Python's Unicode database beyond Latin-1 is not part of
    this repository; it is a parameter of the development.  Below U+0100
    the classes are written out. *)
Record UnicodeData : Type := {
  alnum_wide : char -> bool;   (* str.isalnum on a code point >= 256 *)
  digit_wide : char -> bool;   (* str.isdigit on a code point >= 256 *)
  lower_wide : str -> str      (* str.lower on a string leaving Latin-1 *)
}.

Definition in_range (lo hi c : N) : bool := ((lo <=? c) && (c <=? hi))%N.

(** [str.isspace] of one character, and the characters removed by
    [str.strip()] and separating words in [str.split()]. *)
Definition isspace (c : char) : bool :=
  in_range 9 13 c || in_range 28 32 c || (c =? 133)%N || (c =? 160)%N
  || (c =? 5760)%N || in_range 8192 8202 c || (c =? 8232)%N
  || (c =? 8233)%N || (c =? 8239)%N || (c =? 8287)%N || (c =? 12288)%N.

Definition ascii_digit (c : char) : bool := in_range 48 57 c.

Definition latin1_alnum (c : char) : bool :=
  ascii_digit c || in_range 65 90 c || in_range 97 122 c
  || (c =? 170)%N || (c =? 178)%N || (c =? 179)%N || (c =? 181)%N
  || (c =? 185)%N || (c =? 186)%N || in_range 188 190 c
  || in_range 192 214 c || in_range 216 246 c || in_range 248 255 c.

Definition latin1_digit (c : char) : bool :=
  ascii_digit c || (c =? 178)%N || (c =? 179)%N || (c =? 185)%N.

Definition latin1_lower (c : char) : char :=
  if in_range 65 90 c || in_range 192 214 c || in_range 216 222 c
  then (c + 32)%N else c.

Section Builtins.
Variable ucd : UnicodeData.

Definition isalnum (c : char) : bool :=
  if (c <? 256)%N then latin1_alnum c else alnum_wide ucd c.

Definition isdigit (c : char) : bool :=
  if (c <? 256)%N then latin1_digit c else digit_wide ucd c.

Definition lower (s : str) : str :=
  if forallb (fun c => (c <? 256)%N) s then map latin1_lower s
  else lower_wide ucd s.
End Builtins.

Fixpoint dropwhile (p : char -> bool) (s : str) : str :=
  match s with
  | [] => []
  | c :: s' => if p c then dropwhile p s' else s
  end.

Definition mem (c : char) (cs : str) : bool := existsb (N.eqb c) cs.

(** [s.lstrip()], [s.rstrip()], [s.strip()]. *)
Definition lstrip (s : str) : str := dropwhile isspace s.
Definition rstrip (s : str) : str := rev (dropwhile isspace (rev s)).
Definition strip (s : str) : str := rstrip (lstrip s).

(** [s.lstrip(chars)], [s.strip(chars)]. *)
Definition lstrip_chars (cs s : str) : str :=
  dropwhile (fun c => mem c cs) s.
Definition rstrip_chars (cs s : str) : str :=
  rev (dropwhile (fun c => mem c cs) (rev s)).
Definition strip_chars (cs s : str) : str :=
  rstrip_chars cs (lstrip_chars cs s).

(** [s.startswith(p)]. *)
Fixpoint startswith (p s : str) : bool :=
  match p, s with
  | [], _ => true
  | _ :: _, [] => false
  | a :: p', b :: s' => (a =? b)%N && startswith p' s'
  end.

(** [s.split()]: the maximal runs of non-whitespace characters. *)
Fixpoint split_ws_from (cur : str) (s : str) : list str :=
  match s with
  | [] => match cur with [] => [] | _ => [rev cur] end
  | c :: s' =>
      if isspace c then
        match cur with
        | [] => split_ws_from [] s'
        | _ => rev cur :: split_ws_from [] s'
        end
      else split_ws_from (c :: cur) s'
  end.

Definition split_ws (s : str) : list str := split_ws_from [] s.

(** [s.split(sep)] for a one-character separator: empty fields are kept
    and the result is never empty. *)
Fixpoint split_on (sep : char) (s : str) : list str :=
  match s with
  | [] => [[]]
  | c :: s' =>
      if (c =? sep)%N then [] :: split_on sep s'
      else match split_on sep s' with
           | w :: ws => (c :: w) :: ws
           | [] => [[c]]
           end
  end.

(** [s.replace(old, new)] for a non-empty [old]: occurrences are found
    left to right and do not overlap.  [skip] counts the characters of an
    occurrence still to be passed over. *)
Fixpoint replace_from (old new : str) (skip : nat) (s : str) : str :=
  match s with
  | [] => []
  | c :: s' =>
      match skip with
      | S k => replace_from old new k s'
      | O =>
          if startswith old s
          then new ++ replace_from old new (List.length old - 1) s'
          else c :: replace_from old new 0 s'
      end
  end.

Definition replace (old new s : str) : str := replace_from old new 0 s.

(** [sep.join(parts)]. *)
Fixpoint join (sep : str) (parts : list str) : str :=
  match parts with
  | [] => []
  | [p] => p
  | p :: ps => p ++ sep ++ join sep ps
  end.

(** [len(set(xs))]. *)
Definition distinct (xs : list str) : list str := nodup str_eq_dec xs.

(* ===================================================================== *)
(** ** [state.py]: the agent state *)
(* ===================================================================== *)

(** [AgentState] is a [TypedDict]: at run time a dictionary whose keys may
    be absent, which is why the nodes read it with [state.get(key,
    default)].  A field is [None] when its key is absent. *)
Record AgentState : Type := mkState {
  raw_text : option str;
  doc_type : option str;
  simplified_explanation : option str;
  identified_risks : option (list str);
  action_items : option (list str);
  confidence_score : option Q;
  language : option str;
  error_message : option str;
  thread_id : option str;
  user_token : option str
}.

(** [state.get(key, default)]. *)
Definition get {A} (field : option A) (default : A) : A :=
  match field with Some v => v | None => default end.

(** [{**state, key: v}], one definition per key the nodes write. *)
Definition set_doc_type (v : str) (s : AgentState) : AgentState :=
  mkState (raw_text s) (Some v) (simplified_explanation s)
    (identified_risks s) (action_items s) (confidence_score s)
    (language s) (error_message s) (thread_id s) (user_token s).

Definition set_simplified_explanation (v : str) (s : AgentState) :=
  mkState (raw_text s) (doc_type s) (Some v)
    (identified_risks s) (action_items s) (confidence_score s)
    (language s) (error_message s) (thread_id s) (user_token s).

Definition set_identified_risks (v : list str) (s : AgentState) :=
  mkState (raw_text s) (doc_type s) (simplified_explanation s)
    (Some v) (action_items s) (confidence_score s)
    (language s) (error_message s) (thread_id s) (user_token s).

Definition set_action_items (v : list str) (s : AgentState) :=
  mkState (raw_text s) (doc_type s) (simplified_explanation s)
    (identified_risks s) (Some v) (confidence_score s)
    (language s) (error_message s) (thread_id s) (user_token s).

Definition set_confidence_score (v : Q) (s : AgentState) :=
  mkState (raw_text s) (doc_type s) (simplified_explanation s)
    (identified_risks s) (action_items s) (Some v)
    (language s) (error_message s) (thread_id s) (user_token s).

Definition set_language (v : str) (s : AgentState) :=
  mkState (raw_text s) (doc_type s) (simplified_explanation s)
    (identified_risks s) (action_items s) (confidence_score s)
    (Some v) (error_message s) (thread_id s) (user_token s).

Definition set_error_message (v : str) (s : AgentState) :=
  mkState (raw_text s) (doc_type s) (simplified_explanation s)
    (identified_risks s) (action_items s) (confidence_score s)
    (language s) (Some v) (thread_id s) (user_token s).

Definition set_user_token (v : str) (s : AgentState) :=
  mkState (raw_text s) (doc_type s) (simplified_explanation s)
    (identified_risks s) (action_items s) (confidence_score s)
    (language s) (error_message s) (thread_id s) (Some v).

(** The initial state built by [analyze_document] in [api/v1/analyze.py]. *)
Definition initial_state (text thread token : str) : AgentState :=
  mkState (Some text) (Some []) (Some []) (Some []) (Some []) (Some 1%Q)
    (Some (lit "es")) (Some []) (Some thread) (Some token).

(* ===================================================================== *)
(** ** Effects: exceptions and the collaborators *)
(* ===================================================================== *)

(** A Python exception, with the text [str(e)] gives. *)
Inductive exn : Type :=
| ValueError (msg : str)
| CollaboratorError (msg : str).

Definition exn_str (e : exn) : str :=
  match e with ValueError m => m | CollaboratorError m => m end.

Inductive outcome (A : Type) : Type :=
| Return (a : A)
| Raised (e : exn).
Arguments Return {A} a.
Arguments Raised {A} e.

(** The Supabase client the analysis node obtains. *)
Inductive client : Type :=
| AuthenticatedClient (token : str)
| PlainClient.

(** The row inserted into [user_analyses]. *)
Record analysis_data : Type := mkRow {
  row_thread_id : str;
  row_user_id : option str;
  row_doc_type : str;
  row_simplified_explanation : str;
  row_identified_risks : list str;
  row_action_items : list str;
  row_confidence_score : Q;
  row_language : str;
  row_raw_text : option str
}.

(** The lines the nodes print; [LogInserting] stands for the three lines
    printed before the insertion (user, thread id, row). *)
Inductive log_line : Type :=
| LogAuthenticatedClient
| LogNoUserToken
| LogNoUserIdInThread (thread : str)
| LogInserting (user : option str) (thread : str) (row : analysis_data)
| LogUserIdIsNone
| LogInsertError (text : str).

(** What a run does to the outside world, in order; [RunNode] marks the
    start of a node of the graph. *)
Inductive event : Type :=
| ModelCall (model : string) (temperature : Q) (system human : str)
| ClientRequest (token : option str)
| Insert (c : client) (row : analysis_data)
| Print (l : log_line)
| RunNode (name : string).

(** The collaborators: the Groq chat model and Supabase.  Each answers a
    request with a value or raises. *)
Record World : Type := {
  (** [ChatGroq(model, temperature).ainvoke([system, human]).content] *)
  groq : string -> Q -> str -> str -> outcome str;
  (** [settings.supabase_url and settings.supabase_key] *)
  supabase_configured : bool;
  (** [create_client(url, key)] *)
  create_client : outcome unit;
  (** [client.table("user_analyses").insert(row).execute()] *)
  insert_execute : client -> analysis_data -> outcome unit
}.

(** A computation returns or raises, and leaves a trace of events. *)
Definition M (A : Type) : Type := (outcome A * list event)%type.

Definition ret {A} (a : A) : M A := (Return a, []).
Definition raise {A} (e : exn) : M A := (Raised e, []).
Definition emit (ev : event) : M unit := (Return tt, [ev]).

Definition bind {A B} (m : M A) (k : A -> M B) : M B :=
  match m with
  | (Return a, t) => let (r, t') := k a in (r, t ++ t')
  | (Raised e, t) => (Raised e, t)
  end.

(** [try: body except Exception as e: handler(e)] *)
Definition try_except {A} (body : M A) (handler : exn -> M A) : M A :=
  match body with
  | (Return a, t) => (Return a, t)
  | (Raised e, t) => let (r, t') := handler e in (r, t ++ t')
  end.

Definition lift {A} (o : outcome A) : M A := (o, []).

Declare Scope monad_scope.
Delimit Scope monad_scope with M.
Notation "x <- m ;; k" := (bind m (fun x => k))
  (at level 61, m at next level, right associativity) : monad_scope.
Notation "m ;; k" := (bind m (fun _ => k))
  (at level 61, right associativity) : monad_scope.
Local Open Scope monad_scope.

Definition trace {A} (m : M A) : list event := snd m.
Definition result {A} (m : M A) : outcome A := fst m.

Definition is_model_call (ev : event) : bool :=
  match ev with ModelCall _ _ _ _ => true | _ => false end.

Definition is_persistence (ev : event) : bool :=
  match ev with ClientRequest _ | Insert _ _ => true | _ => false end.

Definition is_insert (ev : event) : bool :=
  match ev with Insert _ _ => true | _ => false end.

(* ===================================================================== *)
(** ** [nodes.py]: constants *)
(* ===================================================================== *)

Definition GROQ_MODEL : string := "llama-3.1-8b-instant".
Definition GROQ_MODEL_LARGE : string := "llama-3.3-70b-versatile".
Definition MIN_TEXT_LENGTH : nat := 50.
Definition MIN_WORDS : nat := 10.

(** The five messages of the text checks, in the order of the checks, and
    the message of a failed classification. *)
Definition MSG_TOO_SHORT : str := Eval vm_compute in
  lit "Lo siento, el texto extraído de la imagen es demasiado corto o está vacío. Por favor, toma una foto más clara del documento completo, asegurándote de que todo el texto sea visible y legible.".

Definition MSG_FEW_WORDS : str := Eval vm_compute in
  lit "El texto extraído parece ser muy corto o incompleto. Por favor, intenta tomar una foto más nítida del documento, asegurándote de capturar todo el contenido visible.".

Definition MSG_NOISE : str := Eval vm_compute in
  lit "El texto extraído parece contener demasiados caracteres especiales o no es legible. Por favor, toma una foto más clara del documento, con buena iluminación y sin reflejos.".

Definition MSG_REPETITION : str := Eval vm_compute in
  lit "El texto extraído parece contener ruido o caracteres repetidos. Por favor, intenta tomar una foto más nítida del documento, evitando sombras y asegurándote de que el texto esté bien enfocado.".

Definition MSG_FEW_UNIQUE : str := Eval vm_compute in
  lit "El texto extraído parece ser muy repetitivo o no contiene suficiente información. Por favor, toma una foto del documento completo, asegurándote de capturar todo el contenido.".

Definition MSG_CLASSIFY_FAILED : str := Eval vm_compute in
  lit "Hubo un problema al procesar el documento. Por favor, intenta tomar una foto más clara y vuelve a intentarlo.".

(** The characters stripped from both ends of a word: the twelve of the
    literal below, the double quote (34) and the apostrophe. *)
Definition PUNCTUATION : str := Eval vm_compute in
  lit ".,;:!?()[]{}" ++ [34%N] ++ lit "'".

Definition TIPO : str := Eval vm_compute in lit "TIPO:".
Definition IDIOMA : str := Eval vm_compute in lit "IDIOMA:".
Definition DESCONOCIDO : str := Eval vm_compute in lit "desconocido".
Definition ES : str := Eval vm_compute in lit "es".

Definition CLASSIFY_SYSTEM_PROMPT : str :=
  lit "Eres un experto en análisis de documentos legales, administrativos y comerciales.

Tu tarea es analizar el texto proporcionado y determinar con precisión:
1. El tipo de documento (contrato, multa, factura, demanda, notificación, etc.)
2. La categoría principal: LEGAL, ADMINISTRATIVO o COMERCIAL
3. El idioma del documento

Sé muy preciso y específico. Si el documento es legal, identifica el tipo exacto (contrato de arrendamiento, contrato de trabajo, etc.).
Si es administrativo, identifica si es multa, notificación gubernamental, etc.
Si es comercial, identifica si es factura, presupuesto, etc.

Responde SOLO con el tipo de documento y la categoría en este formato exacto:
TIPO: [tipo específico del documento]
CATEGORÍA: [LEGAL/ADMINISTRATIVO/COMERCIAL]
IDIOMA: [es/es-ES/en/etc]

Ejemplo:
TIPO: Contrato de arrendamiento de vivienda
CATEGORÍA: LEGAL
IDIOMA: es".

Definition classify_human_message (text : str) : str :=
  lit "Analiza este documento:

" ++ text.

(* ===================================================================== *)
(** ** [nodes.py]: the text checks of [extract_and_classify_node] *)
(* ===================================================================== *)

Definition Qltb (x y : Q) : bool := negb (Qle_bool y x).

(** The loop over [text_clean] that computes [max_repeat]: the state is
    [current_char], [current_count] and [max_repeat]. *)
Fixpoint repeat_loop (current_char : option char)
    (current_count max_repeat : nat) (text : str) : nat :=
  match text with
  | [] => max_repeat
  | c :: rest =>
      if match current_char with
         | Some d => (c =? d)%N
         | None => false
         end
      then repeat_loop current_char (S current_count)
             (Nat.max max_repeat (S current_count)) rest
      else repeat_loop (Some c) 1 max_repeat rest
  end.

Definition max_repeat_of (text : str) : nat := repeat_loop None 0 0 text.

Section Checks.
Variable ucd : UnicodeData.

(** [sum(1 for c in text_clean if c.isalnum() or c.isspace())] *)
Definition alphanumeric_count (text : str) : nat :=
  List.length (filter (fun c => isalnum ucd c || isspace c) text).

(** [alphanumeric_count / total_chars]: the quotient of two integers.
    Python rounds it to a double; the rounded quotient is below 0.5
    exactly when the exact one is, for every text shorter than 2^54
    characters. *)
Definition alphanumeric_ratio (text : str) : Q :=
  inject_Z (Z.of_nat (alphanumeric_count text))
  / inject_Z (Z.of_nat (List.length text)).

(** [set(word.lower().strip(PUNCTUATION) for word in words
        if len(word) > 2)] *)
Definition unique_words (words : list str) : list str :=
  distinct
    (map (fun word => strip_chars PUNCTUATION (lower ucd word))
       (filter (fun word => 2 <? List.length word) words)).
End Checks.

(* ===================================================================== *)
(** ** [nodes.py]: [extract_and_classify_node] *)
(* ===================================================================== *)

(** The dictionary every rejection returns:
    [{**state, "error_message": msg, "doc_type": "", "language": "es",
      "confidence_score": 0.0}]. *)
Definition rejected (state : AgentState) (msg : str) : AgentState :=
  set_confidence_score 0%Q
    (set_language ES (set_doc_type [] (set_error_message msg state))).

Section Classify.
Variable ucd : UnicodeData.
Variable world : World.

(** Building the client and awaiting [llm.ainvoke(messages)]. *)
Definition ainvoke (model : string) (temperature : Q)
    (system human : str) : M str :=
  emit (ModelCall model temperature system human) ;;
  lift (groq world model temperature system human).

(** One iteration of the loop over the lines of the answer; the
    accumulator is [(doc_type, language)]. *)
Definition classify_line (acc : str * str) (line : str) : str * str :=
  let (doc_type, language) := acc in
  if startswith TIPO line then (strip (replace TIPO [] line), language)
  else if startswith IDIOMA line
  then (doc_type, lower ucd (strip (replace IDIOMA [] line)))
  else acc.

Definition parse_classification (lines : list str) : str * str :=
  fold_left classify_line lines (DESCONOCIDO, ES).

(** The [try] block: the call of the model and the parsing of its
    answer, and the [except] branch. *)
Definition classify_with_model (state : AgentState) : M AgentState :=
  try_except
    (content <- ainvoke GROQ_MODEL (3 # 10) CLASSIFY_SYSTEM_PROMPT
                  (classify_human_message (get (raw_text state) [])) ;;
     let response_text := strip content in
     let (doc_type, language) :=
       parse_classification (split_on NL response_text) in
     ret (set_error_message []
            (set_language language (set_doc_type doc_type state))))
    (fun _ => ret (rejected state MSG_CLASSIFY_FAILED)).

Definition extract_and_classify_node (state : AgentState)
    : M AgentState :=
  let raw := get (raw_text state) [] in
  (* 1. minimum length *)
  let text_clean := strip raw in
  if negb (truthy text_clean)
     || (List.length text_clean <? MIN_TEXT_LENGTH)
  then ret (rejected state MSG_TOO_SHORT)
  else
  (* 2. minimum number of words *)
  let words := split_ws text_clean in
  if List.length words <? MIN_WORDS
  then ret (rejected state MSG_FEW_WORDS)
  else
  (* 3. ratio of alphanumeric characters *)
  let total_chars := List.length text_clean in
  if (0 <? total_chars)
     && Qltb (alphanumeric_ratio ucd text_clean) (1 # 2)
  then ret (rejected state MSG_NOISE)
  else
  (* 4. repeated characters *)
  if 5 <? max_repeat_of text_clean
  then ret (rejected state MSG_REPETITION)
  else
  (* 5. enough distinct words *)
  if List.length (unique_words ucd words) <? 5
  then ret (rejected state MSG_FEW_UNIQUE)
  else classify_with_model state.
End Classify.

(* ===================================================================== *)
(** ** [nodes.py]: [simplify_and_analyze_node] *)
(* ===================================================================== *)

Definition RESUMEN : str := Eval vm_compute in lit "RESUMEN:".
Definition RIESGOS : str := Eval vm_compute in lit "LETRA CHICA / RIESGOS:".
Definition PASOS : str := Eval vm_compute in lit "PRÓXIMOS PASOS:".

(** The prefixes of [line.startswith(("1.", "2.", "3.", "-", "*"))]. *)
Definition SUMMARY_MARKERS : list str := Eval vm_compute in
  [lit "1."; lit "2."; lit "3."; lit "-"; lit "*"].
Definition DASH : str := Eval vm_compute in lit "-".
Definition STAR : str := Eval vm_compute in lit "*".

(** The character sets of the two [lstrip] calls. *)
Definition SUMMARY_STRIP : str := Eval vm_compute in lit "1234567890.-* ".
Definition BULLET_STRIP : str := Eval vm_compute in lit "-* ".

Definition USER_PREFIX : str := Eval vm_compute in lit "user_".
Definition DOCUMENTO : str := Eval vm_compute in lit "documento".

Definition MSG_ANALYSIS_FAILED : str := Eval vm_compute in
  lit "Error al procesar el documento. Por favor, intenta nuevamente.".
Definition RISK_FALLBACK : str := Eval vm_compute in
  lit "No se pudieron identificar riesgos debido a un error en el procesamiento.".
Definition ACTION_FALLBACK : str := Eval vm_compute in
  lit "Contacta con soporte técnico si el problema persiste.".
Definition MSG_USER_ID_NONE : str := Eval vm_compute in
  lit "user_id no puede ser None para insertar en user_analyses con RLS habilitado".

Definition ANALYZE_SYSTEM_PROMPT : str :=
  lit "Eres un experto legal especializado en ayudar a ciudadanos comunes. Tu tono es empático, directo y protector.

Tu tarea es tomar el texto del documento y generar:

1. **RESUMEN (3 puntos clave)**: Explica de qué trata este documento en 3 puntos principales. Sé claro y directo.

2. **LETRA CHICA / RIESGOS**: Identifica y explica:
   - Cláusulas abusivas o desfavorables
   - Plazos importantes que vencen
   - Costos ocultos o condiciones que pueden generar gastos inesperados
   - Cualquier punto que pueda perjudicar a la persona

3. **PRÓXIMOS PASOS**: Proporciona acciones concretas que la persona debe realizar:
   - Qué debe hacer inmediatamente
   - Qué debe revisar o verificar
   - A quién debe contactar si es necesario
   - Documentos que debe preparar

**RESTRICCIÓN IMPORTANTE**: 
- No uses palabras técnicas como 'jurisprudencia', 'usufructo' o 'perentorio' sin explicarlas primero en lenguaje simple.
- Habla como si le explicaras esto a un familiar cercano que no tiene conocimientos legales.
- Sé protector y alerta sobre posibles problemas.
- Usa el idioma del documento que estás analizando.

Responde SOLO en este formato exacto:

RESUMEN:
1. [Primer punto clave]
2. [Segundo punto clave]
3. [Tercer punto clave]

LETRA CHICA / RIESGOS:
- [Riesgo o cláusula problemática 1]
- [Riesgo o cláusula problemática 2]
- [Continúa con todos los riesgos identificados]

PRÓXIMOS PASOS:
- [Acción concreta 1]
- [Acción concreta 2]
- [Continúa con todas las acciones necesarias]".

Definition analyze_human_message (doc_type text language : str) : str :=
  lit "Analiza este " ++ doc_type
  ++ lit " y genera el resumen, riesgos y próximos pasos:

" ++ text ++ lit "

Recuerda: Habla en " ++ language
  ++ lit " y usa un lenguaje simple y empático.".

(** [current_section]: [None] before the first header. *)
Inductive section : Type := resumen | riesgos | acciones.

(** The variables of the parsing loop. *)
Record parse_state : Type := mkParse {
  current_section : option section;
  explanation : str;
  risks : list str;
  actions : list str
}.

Definition parse_start : parse_state := mkParse None [] [] [].

(** [user_id_from_thread]: the value the node computes from
    [thread_id], [None] when the prefix is missing. *)
Definition user_id_from_thread (thread : str) : option str :=
  if startswith USER_PREFIX thread then
    let parts := split_on UNDERSCORE thread in
    if 2 <=? List.length parts then nth_error parts 1 else None
  else None.

(** [not user_id_from_thread]: [None] and the empty string are falsy. *)
Definition no_user_id (u : option str) : bool :=
  match u with Some (_ :: _) => false | _ => true end.

Section Analyze.
Variable ucd : UnicodeData.
Variable world : World.

(** The body of the loop over the lines of the answer. *)
Definition analyze_line (st : parse_state) (raw_line : str)
    : parse_state :=
  let line := strip raw_line in
  if startswith RESUMEN line
  then mkParse (Some resumen) (explanation st) (risks st) (actions st)
  else if startswith RIESGOS line
  then mkParse (Some riesgos) (explanation st) (risks st) (actions st)
  else if startswith PASOS line
  then mkParse (Some acciones) (explanation st) (risks st) (actions st)
  else
    match current_section st with
    | Some resumen =>
        if truthy line
           && (existsb (fun p => startswith p line) SUMMARY_MARKERS
               || match line with c :: _ => isdigit ucd c | [] => false end)
        then
          let clean_line := strip (lstrip_chars SUMMARY_STRIP line) in
          if truthy clean_line then
            let sep := if truthy (explanation st) then [NL] else [] in
            mkParse (current_section st)
              (explanation st ++ sep ++ [BULLET; SPACE] ++ clean_line)
              (risks st) (actions st)
          else st
        else st
    | Some riesgos =>
        if truthy line && (startswith DASH line || startswith STAR line)
        then
          let risk := strip (lstrip_chars BULLET_STRIP line) in
          if truthy risk
          then mkParse (current_section st) (explanation st)
                 (risks st ++ [risk]) (actions st)
          else st
        else st
    | Some acciones =>
        if truthy line && (startswith DASH line || startswith STAR line)
        then
          let action := strip (lstrip_chars BULLET_STRIP line) in
          if truthy action
          then mkParse (current_section st) (explanation st)
                 (risks st) (actions st ++ [action])
          else st
        else st
    | None => st
    end.

(** The loop, then the fallback on an empty explanation. *)
Definition parse_lines (lines : list str) : parse_state :=
  fold_left analyze_line lines parse_start.

Definition parse_analysis (response_text : str) : str * list str * list str :=
  let p := parse_lines (split_on NL response_text) in
  let simplified :=
    if negb (truthy (explanation p)) then firstn 500 response_text
    else explanation p in
  (simplified, risks p, actions p).

(** [get_supabase_client()] and
    [get_authenticated_supabase_client(token)] of
    [core/supabase_client.py]: [None] without configuration, else a
    client from [create_client]; every failure of the authenticated
    variant after [create_client] is caught inside it, and the lines it
    prints itself are left out of the trace. *)
Definition get_supabase_client : M (option client) :=
  emit (ClientRequest None) ;;
  if negb (supabase_configured world) then ret None
  else lift (create_client world) ;; ret (Some PlainClient).

Definition get_authenticated_supabase_client (token : str)
    : M (option client) :=
  emit (ClientRequest (Some token)) ;;
  if negb (supabase_configured world) then ret None
  else lift (create_client world) ;; ret (Some (AuthenticatedClient token)).

(** The body of the inner [try]: the insertion into Supabase. *)
Definition persist (state : AgentState)
    (simplified : str) (found_risks found_actions : list str) : M unit :=
  let token := get (user_token state) [] in
  supabase <-
    (if truthy token
     then c <- get_authenticated_supabase_client token ;;
          emit (Print LogAuthenticatedClient) ;; ret c
     else c <- get_supabase_client ;;
          emit (Print LogNoUserToken) ;; ret c) ;;
  match supabase with
  | None => ret tt
  | Some c =>
      let thread := get (thread_id state) [] in
      let user := user_id_from_thread thread in
      (if no_user_id user
       then emit (Print (LogNoUserIdInThread thread)) else ret tt) ;;
      let raw := get (raw_text state) [] in
      let row :=
        mkRow thread user (get (doc_type state) []) simplified
          found_risks found_actions (get (confidence_score state) 0%Q)
          (get (language state) ES)
          (if truthy raw
           then Some (if 1000 <? List.length raw
                      then firstn 1000 raw else raw)
           else None) in
      emit (Print (LogInserting user thread row)) ;;
      (if no_user_id user
       then emit (Print LogUserIdIsNone) ;;
            raise (ValueError MSG_USER_ID_NONE)
       else ret tt) ;;
      emit (Insert c row) ;;
      lift (insert_execute world c row)
  end.

(** The human message built from the state. *)
Definition analyze_request (state : AgentState) : str :=
  analyze_human_message (get (doc_type state) DOCUMENTO)
    (get (raw_text state) []) (get (language state) ES).

Definition simplify_and_analyze_node (state : AgentState)
    : M AgentState :=
  let error := get (error_message state) [] in
  if truthy error && truthy (strip error) then ret state
  else
  try_except
    (content <- ainvoke world GROQ_MODEL_LARGE (4 # 10)
                  ANALYZE_SYSTEM_PROMPT (analyze_request state) ;;
     let response_text := strip content in
     let '(simplified, found_risks, found_actions) :=
       parse_analysis response_text in
     let updated_state :=
       set_user_token (get (user_token state) [])
         (set_action_items found_actions
            (set_identified_risks found_risks
               (set_simplified_explanation simplified state))) in
     try_except (persist state simplified found_risks found_actions)
       (fun db_error =>
          emit (Print (LogInsertError (exn_str db_error)))) ;;
     ret updated_state)
    (fun _ =>
       ret (set_confidence_score 0%Q
              (set_action_items [ACTION_FALLBACK]
                 (set_identified_risks [RISK_FALLBACK]
                    (set_simplified_explanation MSG_ANALYSIS_FAILED
                       state))))).
End Analyze.

(* ===================================================================== *)
(** ** [graph.py]: the workflow *)
(* ===================================================================== *)

Local Open Scope string_scope.

Definition should_continue (state : AgentState) : string :=
  let error := get (error_message state) [] in
  if truthy error && truthy (strip error) then "end" else "continue".

(** LangGraph's [END]. *)
Definition END : string := "__end__".

(** A [StateGraph] as the calls of [graph.py] build it. *)
Record StateGraph : Type := mkGraph {
  graph_nodes : list (string * (AgentState -> M AgentState));
  graph_entry : option string;
  graph_conditional :
    list (string * ((AgentState -> string) * list (string * string)));
  graph_edges : list (string * string)
}.

Definition empty_graph : StateGraph := mkGraph [] None [] [].

Definition add_node (name : string) (f : AgentState -> M AgentState)
    (g : StateGraph) : StateGraph :=
  mkGraph (graph_nodes g ++ [(name, f)]) (graph_entry g)
    (graph_conditional g) (graph_edges g).

Definition set_entry_point (name : string) (g : StateGraph) : StateGraph :=
  mkGraph (graph_nodes g) (Some name) (graph_conditional g) (graph_edges g).

Definition add_conditional_edges (source : string)
    (path : AgentState -> string) (path_map : list (string * string))
    (g : StateGraph) : StateGraph :=
  mkGraph (graph_nodes g) (graph_entry g)
    (graph_conditional g ++ [(source, (path, path_map))]) (graph_edges g).

Definition add_edge (source target : string) (g : StateGraph) : StateGraph :=
  mkGraph (graph_nodes g) (graph_entry g) (graph_conditional g)
    (graph_edges g ++ [(source, target)]).

Fixpoint assoc {A} (key : string) (l : list (string * A)) : option A :=
  match l with
  | [] => None
  | (k, v) :: l' => if String.eqb key k then Some v else assoc key l'
  end.

(** The engine writes the dictionary a node returns over the state, key
    by key. *)
Definition merge (state update : AgentState) : AgentState :=
  let pick {A} (new old : option A) : option A :=
    match new with Some _ => new | None => old end in
  mkState
    (pick (raw_text update) (raw_text state))
    (pick (doc_type update) (doc_type state))
    (pick (simplified_explanation update) (simplified_explanation state))
    (pick (identified_risks update) (identified_risks state))
    (pick (action_items update) (action_items state))
    (pick (confidence_score update) (confidence_score state))
    (pick (language update) (language state))
    (pick (error_message update) (error_message state))
    (pick (thread_id update) (thread_id state))
    (pick (user_token update) (user_token state)).

(** Where the run goes after [name] has produced [state]. *)
Definition next_node (g : StateGraph) (name : string) (state : AgentState)
    : option string :=
  match assoc name (graph_conditional g) with
  | Some (path, path_map) => assoc (path state) path_map
  | None => assoc name (graph_edges g)
  end.

Definition RECURSION_LIMIT : nat := 25.
Definition GRAPH_ERROR : exn := CollaboratorError [].

(** The run of a compiled graph from node [name]: at most [steps] nodes
    are executed. *)
Fixpoint run_from (g : StateGraph) (steps : nat) (name : string)
    (state : AgentState) : M AgentState :=
  if String.eqb name END then ret state
  else
    match steps with
    | O => raise GRAPH_ERROR
    | S steps' =>
        match assoc name (graph_nodes g) with
        | None => raise GRAPH_ERROR
        | Some f =>
            emit (RunNode name) ;;
            update <- f state ;;
            let state' := merge state update in
            match next_node g name state' with
            | Some target => run_from g steps' target state'
            | None => raise GRAPH_ERROR
            end
        end
    end.

Definition ainvoke_graph (g : StateGraph) (state : AgentState)
    : M AgentState :=
  match graph_entry g with
  | Some name => run_from g RECURSION_LIMIT name state
  | None => raise GRAPH_ERROR
  end.

Section Workflow.
Variable ucd : UnicodeData.
Variable world : World.

Definition workflow : StateGraph :=
  add_edge "simplify_and_analyze" END
    (add_conditional_edges "extract_and_classify" should_continue
       [("end", END); ("continue", "simplify_and_analyze")]
       (set_entry_point "extract_and_classify"
          (add_node "simplify_and_analyze"
             (simplify_and_analyze_node ucd world)
             (add_node "extract_and_classify"
                (extract_and_classify_node ucd world)
                empty_graph)))).
End Workflow.

Local Close Scope string_scope.

(* ===================================================================== *)
(** ** The text checks as the specification words them *)
(* ===================================================================== *)

Module GateSpec.

(** The five checks, in the order of the specification. *)
Inductive check : Type :=
| length_check | words_check | ratio_check | repetition_check
| distinct_check.

Definition rank (k : check) : nat :=
  match k with
  | length_check => 1 | words_check => 2 | ratio_check => 3
  | repetition_check => 4 | distinct_check => 5
  end.

(** Some run of [n] identical consecutive characters. *)
Definition has_run (n : nat) (s : str) : Prop :=
  exists before c after, s = before ++ repeat c n ++ after.

Section Spec.
Variable ucd : UnicodeData.

(** Case-folded, punctuation stripped. *)
Definition normalized (word : str) : str :=
  strip_chars PUNCTUATION (lower ucd word).

(** The distinct normalized words among those longer than 2. *)
Definition distinct_words (text : str) : list str :=
  distinct
    (map normalized
       (filter (fun w => 2 <? List.length w) (split_ws text))).

(** Check [k] rejects the raw text. *)
Definition fails (k : check) (raw : str) : Prop :=
  let text := strip raw in
  match k with
  | length_check => List.length text < 50
  | words_check => List.length (split_ws text) < 10
  | ratio_check => (alphanumeric_ratio ucd text < 1 # 2)%Q
  | repetition_check => has_run 6 text
  | distinct_check => List.length (distinct_words text) < 5
  end.

(** [k] is the first check, in order, that rejects. *)
Definition first_failing (k : check) (raw : str) : Prop :=
  fails k raw /\ forall k', rank k' < rank k -> ~ fails k' raw.
End Spec.

(** The characters that are neither alphanumeric nor whitespace. *)
Definition punctuation_count (ucd : UnicodeData) (text : str) : nat :=
  List.length (filter (fun c => negb (isalnum ucd c || isspace c)) text).

End GateSpec.
Import GateSpec.

Definition reason_message (k : check) : str :=
  match k with
  | length_check => MSG_TOO_SHORT
  | words_check => MSG_FEW_WORDS
  | ratio_check => MSG_NOISE
  | repetition_check => MSG_REPETITION
  | distinct_check => MSG_FEW_UNIQUE
  end.

(** The cascade of [if]s of [extract_and_classify_node], on its own: the
    check that returns, if any. *)
Definition text_checks (ucd : UnicodeData) (raw : str) : option check :=
  let text_clean := strip raw in
  if negb (truthy text_clean) || (List.length text_clean <? MIN_TEXT_LENGTH)
  then Some length_check
  else
  let words := split_ws text_clean in
  if List.length words <? MIN_WORDS then Some words_check
  else if (0 <? List.length text_clean)
          && Qltb (alphanumeric_ratio ucd text_clean) (1 # 2)
  then Some ratio_check
  else if 5 <? max_repeat_of text_clean then Some repetition_check
  else if List.length (unique_words ucd words) <? 5 then Some distinct_check
  else None.

(** A Unicode table that knows nothing beyond Latin-1, and a world in
    which every collaborator fails, to evaluate the nodes on concrete
    inputs. *)
Definition latin1_only : UnicodeData :=
  Build_UnicodeData (fun _ => false) (fun _ => false) (fun s => s).

Definition offline : World :=
  Build_World (fun _ _ _ _ => Raised (CollaboratorError []))
    false (Raised (CollaboratorError [])) (fun _ _ => Raised (CollaboratorError [])).

(** A world whose model answers [content] and whose Supabase accepts
    every row. *)
Definition answering (content : str) : World :=
  Build_World (fun _ _ _ _ => Return content)
    true (Return tt) (fun _ _ => Return tt).

(** A world whose model answers [content] and that has no Supabase
    configuration. *)
Definition unconfigured (content : str) : World :=
  Build_World (fun _ _ _ _ => Return content)
    false (Return tt) (fun _ _ => Return tt).

(* ===================================================================== *)
(** ** Auxiliary definitions: derived forms, item shapes, sample inputs *)
(* ===================================================================== *)

(** A text whose first and last characters are not whitespace is its own
    [strip]. *)
Definition trimmed (s : str) : Prop :=
  match s with
  | [] => True
  | c :: _ => isspace c = false /\ isspace (last s c) = false
  end.

(** Two sample texts of 60 characters, 48 of them punctuation marks:
    the first has ten words, the second is a single word. *)
Definition sixty_ten_words : str := Eval vm_compute in
  lit "a!!!! b!!!! c!!!! !?!?! !?!?! !?!?! !?!?! !?!?! !?!?! !?!?!?".

Definition sixty_one_word : str := Eval vm_compute in
  lit "!!!!!!!!!!!!!!!!!!!!!!!!!!!!!!!!!!!!!!!!!!!!!!!!abcdefghijkl".

(** The state the [except] branch of the node returns. *)
Definition analysis_failed (state : AgentState) : AgentState :=
  mkState (raw_text state) (doc_type state) (Some MSG_ANALYSIS_FAILED)
    (Some [RISK_FALLBACK]) (Some [ACTION_FALLBACK]) (Some 0%Q)
    (language state) (error_message state) (thread_id state)
    (user_token state).

(** Sample states: an error message, a blank one, none. *)
Definition state_with_error (msg : str) : AgentState :=
  mkState (Some (lit "texto")) (Some []) (Some []) (Some []) (Some [])
    (Some 1%Q) (Some ES) (Some msg) (Some (lit "user_42_ab12cd"))
    (Some (lit "token")).

(** [updated_state], as a function of the incoming state and of the
    answer of the model. *)
Definition analyzed (ucd : UnicodeData) (state : AgentState)
    (content : str) : AgentState :=
  let '(simplified, found_risks, found_actions) :=
    parse_analysis ucd (strip content) in
  set_user_token (get (user_token state) [])
    (set_action_items found_actions
       (set_identified_risks found_risks
          (set_simplified_explanation simplified state))).

(** The inner [try ... except] of the node. *)
Definition guarded_persist (ucd : UnicodeData) (world : World)
    (state : AgentState) (content : str) : M unit :=
  let '(simplified, found_risks, found_actions) :=
    parse_analysis ucd (strip content) in
  try_except (persist world state simplified found_risks found_actions)
    (fun db_error => emit (Print (LogInsertError (exn_str db_error)))).

Definition no_user_state (thread : str) : AgentState :=
  mkState (Some (lit "texto")) (Some (lit "contrato")) (Some []) (Some [])
    (Some []) (Some 1%Q) (Some ES) (Some []) (Some thread)
    (Some (lit "token")).

(** A model answer without any section, ending with a newline. *)
Definition unstructured_answer : str := Eval vm_compute in
  lit "No puedo analizar este documento.
".

(** The section a trimmed line opens, if it starts with a header. *)
Definition header_of (line : str) : option section :=
  if startswith RESUMEN line then Some resumen
  else if startswith RIESGOS line then Some riesgos
  else if startswith PASOS line then Some acciones
  else None.

Definition nonblank (raw_line : str) : bool := truthy (strip raw_line).

(** A text kept as it is by the clean-up of a list item: non-empty,
    without whitespace at either end, and not starting with a character
    of the set [lstrip] removes. *)
Definition item_text (strip_set : str) (text : str) : Prop :=
  match text with
  | [] => False
  | c :: _ =>
      mem c strip_set = false /\ isspace c = false
      /\ isspace (last text c) = false
  end.

(** [line] is a number, a dot, a space and [text]. *)
Definition numbered_item (line text : str) : Prop :=
  exists num : str,
    num <> [] /\ forallb ascii_digit num = true
    /\ line = num ++ [46%N; SPACE] ++ text
    /\ item_text SUMMARY_STRIP text.

(** [line] is a dash or a star, a space and [text]. *)
Definition bullet_item (line text : str) : Prop :=
  exists marker : char,
    (marker = 45%N \/ marker = 42%N)
    /\ line = marker :: SPACE :: text
    /\ item_text BULLET_STRIP text.

(** A weaker notion of item text: any non-empty trimmed text. *)
Definition plain_text (text : str) : Prop := text <> [] /\ trimmed text.

Definition bulleted (text : str) : str := [BULLET; SPACE] ++ text.

(** The explanation after the summary items [ts] have been appended. *)
Definition append_bullets (e : str) (ts : list str) : str :=
  fold_left
    (fun e t => e ++ (if truthy e then [NL] else []) ++ bulleted t) ts e.

(** An answer in the format the prompt asks for. *)
Definition structured_answer : str := Eval vm_compute in
  lit "RESUMEN:
1. El contrato dura un año
2. La renta es de 900 euros al mes
3. El depósito equivale a dos meses

LETRA CHICA / RIESGOS:
- Penalización por retraso en el pago
- No hay prórroga automática

PRÓXIMOS PASOS:
- Revisa las fechas del contrato".

(** The same format, with a third summary point made of digits and a
    dash and a first risk that starts with two stars. *)
Definition marker_like_answer : str := Eval vm_compute in
  lit "RESUMEN:
1. Contrato de alquiler de vivienda
2. La renta es de 900 euros al mes
3. 2024-2025

LETRA CHICA / RIESGOS:
- **Penalización** por retraso en el pago
- No hay prórroga automática

PRÓXIMOS PASOS:
- Revisa las fechas del contrato".

(** A text that passes the five checks. *)
Definition lease_text : str := Eval vm_compute in
  lit "Este contrato de arrendamiento establece las condiciones entre el propietario y el inquilino".

Ltac numbered_item_by num :=
  exists num; repeat split; try reflexivity; intros X; discriminate X.

Ltac bullet_item_by :=
  exists 45%N; repeat split; try reflexivity; now left.

(* ===================================================================== *)
(** ** [nodes.py]: [quality_check_node] *)
(* ===================================================================== *)

Definition TEXTO_INSUFICIENTE : str := Eval vm_compute in
  lit "texto_insuficiente".
Definition TEXTO_ILEGIBLE : str := Eval vm_compute in lit "texto_ilegible".

(** The node awaits nothing and calls no collaborator: it is a function
    of the state.  The ratio is compared with 0.6 as in
    [alphanumeric_ratio]: exactly, which is what the rounded quotient
    gives for every text shorter than 2^50 characters. *)
Definition quality_check_node (ucd : UnicodeData) (state : AgentState)
    : AgentState :=
  let raw := get (raw_text state) [] in
  let text_clean := if truthy raw then strip raw else [] in
  if negb (truthy text_clean)
     || (List.length text_clean <? MIN_TEXT_LENGTH)
  then
    set_doc_type (get (doc_type state) TEXTO_INSUFICIENTE)
      (set_confidence_score 0%Q state)
  else
    let total_chars := List.length text_clean in
    if (0 <? total_chars)
       && Qltb (alphanumeric_ratio ucd text_clean) (6 # 10)
    then
      set_doc_type (get (doc_type state) TEXTO_ILEGIBLE)
        (set_confidence_score 0%Q state)
    else
      let current_confidence := get (confidence_score state) 1%Q in
      set_confidence_score
        (if Qltb 0%Q current_confidence then current_confidence else 1%Q)
        state.

(* ===================================================================== *)
(** ** The HTTP layer: results of an endpoint *)
(* ===================================================================== *)

(** [sub in s]. *)
Fixpoint contains (sub s : str) : bool :=
  startswith sub s
  || match s with
     | [] => false
     | _ :: s' => contains sub s'
     end.

(** What an endpoint or a dependency produces: a value, an
    [HTTPException], or another exception that nothing caught. *)
Inductive api (A : Type) : Type :=
| Done (a : A)
| HTTPException (status_code : nat) (detail : str)
| Uncaught (e : exn).
Arguments Done {A} a.
Arguments HTTPException {A} status_code detail.
Arguments Uncaught {A} e.

Definition status_of {A} (r : api A) : option nat :=
  match r with
  | HTTPException code _ => Some code
  | _ => None
  end.

(** [except HTTPException: raise] followed by
    [except Exception as e: raise HTTPException(code, prefix + str(e))]. *)
Definition reraise_as {A} (code : nat) (prefix : str) (r : api A) : api A :=
  match r with
  | Uncaught e => HTTPException code (prefix ++ exn_str e)
  | _ => r
  end.

Definition of_outcome {A} (o : outcome A) : api A :=
  match o with
  | Return a => Done a
  | Raised e => Uncaught e
  end.

Definition api_bind {A B} (r : api A) (k : A -> api B) : api B :=
  match r with
  | Done a => k a
  | HTTPException code detail => HTTPException code detail
  | Uncaught e => Uncaught e
  end.

(* ===================================================================== *)
(** ** [services/ocr.py]: [extract_text_from_image] *)
(* ===================================================================== *)

Definition OCR_INVALID_IMAGE : str := Eval vm_compute in
  lit "El archivo no es una imagen válida: ".
Definition OCR_NO_TEXT : str := Eval vm_compute in
  lit "No se pudo extraer texto de la imagen. Asegúrate de que la imagen contenga texto legible.".
Definition OCR_ERROR : str := Eval vm_compute in
  lit "Error al procesar la imagen con OCR: ".

(** The uploaded file, Pillow and Tesseract. *)
Record Upload : Type := {
  (** [await file.read()] *)
  file_read : outcome unit;
  (** [Image.open(io.BytesIO(contents))], as [image.mode == "RGB"] *)
  image_open : outcome bool;
  (** [image.convert("RGB")] *)
  image_convert : outcome unit;
  (** [pytesseract.image_to_string(image, lang="spa+eng")] *)
  image_to_string : outcome str
}.

Definition extract_text_from_image (file : Upload) : api str :=
  reraise_as 500 OCR_ERROR
    (api_bind (of_outcome (file_read file)) (fun _ =>
     api_bind
       (match image_open file with
        | Return is_rgb => Done is_rgb
        | Raised e => HTTPException 400 (OCR_INVALID_IMAGE ++ exn_str e)
        end) (fun is_rgb =>
     api_bind
       (if negb is_rgb then of_outcome (image_convert file) else Done tt)
       (fun _ =>
     api_bind (of_outcome (image_to_string file)) (fun text =>
     let text := strip text in
     if negb (truthy text) then HTTPException 400 OCR_NO_TEXT
     else Done text))))).

(* ===================================================================== *)
(** ** [api/deps.py]: [get_current_user] *)
(* ===================================================================== *)

Definition AUTH_UNAVAILABLE : str := Eval vm_compute in
  lit "Servicio de autenticación no disponible".
Definition AUTH_NO_USER : str := Eval vm_compute in
  lit "Token inválido o usuario no encontrado".
Definition AUTH_NO_ID : str := Eval vm_compute in
  lit "Token inválido: no se pudo obtener el ID del usuario".
Definition AUTH_ERROR : str := Eval vm_compute in
  lit "Error al validar el token: ".

(** [supabase.auth.get_user(token)]: it raises, or it answers nothing
    usable ([None], no [user], a falsy [user]), or it answers a user
    whose [id] may be missing. *)
Definition Auth : Type := str -> outcome (option (option str)).

Definition get_current_user (world : World) (auth : Auth) (token : str)
    : api str :=
  api_bind (of_outcome (result (get_supabase_client world)))
    (fun supabase =>
       match supabase with
       | None => HTTPException 503 AUTH_UNAVAILABLE
       | Some _ =>
           reraise_as 401 AUTH_ERROR
             (api_bind (of_outcome (auth token)) (fun user_response =>
                match user_response with
                | None => HTTPException 401 AUTH_NO_USER
                | Some user_id =>
                    if no_user_id user_id
                    then HTTPException 401 AUTH_NO_ID
                    else Done (get user_id [])
                end))
       end).

(* ===================================================================== *)
(** ** [api/v1/analyze.py]: [analyze_document] *)
(* ===================================================================== *)

Definition MAX_RETRIES : nat := 3.
Definition PREPARED_STATEMENT : str := Eval vm_compute in
  lit "prepared statement".
Definition ALREADY_EXISTS : str := Eval vm_compute in lit "already exists".
Definition GRAPH_NOT_READY : str := Eval vm_compute in
  lit "El grafo no está inicializado. Por favor, espera unos segundos e intenta nuevamente.".
Definition ANALYZE_ERROR : str := Eval vm_compute in
  lit "Error al procesar el documento: ".
Definition NONE_HAS_NO_GET : str := Eval vm_compute in
  lit "'NoneType' object has no attribute 'get'".

(** Step 2 of the endpoint: the thread id always carries the user id.
    [fresh] is [uuid.uuid4().hex[:12]]. *)
Definition thread_id_with_user (user_id fresh : str)
    (thread : option str) : str :=
  let given := get thread [] in
  if negb (truthy given)
  then USER_PREFIX ++ user_id ++ [UNDERSCORE] ++ fresh
  else if startswith (USER_PREFIX ++ user_id ++ [UNDERSCORE]) given
  then given
  else if startswith USER_PREFIX given
  then
    let parts := split_on UNDERSCORE given in
    if 3 <=? List.length parts
    then USER_PREFIX ++ user_id ++ [UNDERSCORE] ++ nth 2 parts []
    else USER_PREFIX ++ user_id ++ [UNDERSCORE] ++ fresh
  else USER_PREFIX ++ user_id ++ [UNDERSCORE] ++ given.

(** The dictionary the endpoint answers; a key the dictionary does not
    have is [None]. *)
Record analysis_response : Type := mkResponse {
  resp_thread_id : str;
  resp_error : bool;
  resp_error_message : option str;
  resp_raw_text : option str;
  resp_doc_type : str;
  resp_simplified_explanation : str;
  resp_identified_risks : list str;
  resp_action_items : list str;
  resp_confidence_score : Q;
  resp_language : str
}.

(** Step 7: what is answered from the final state. *)
Definition response_of (thread : str) (final_state : AgentState)
    : analysis_response :=
  let error := get (error_message final_state) [] in
  if truthy error && truthy (strip error)
  then mkResponse thread true (Some error) None [] [] [] [] 0%Q ES
  else
    mkResponse thread false None
      (Some (get (raw_text final_state) []))
      (get (doc_type final_state) [])
      (get (simplified_explanation final_state) [])
      (get (identified_risks final_state) [])
      (get (action_items final_state) [])
      (get (confidence_score final_state) 0%Q)
      (get (language final_state) ES).

Section AnalyzeDocument.
Variable ucd : UnicodeData.

(** [graph.ainvoke(initial_state, config)]: the compiled graph with its
    checkpointer, as the outcome of the call number [k] (from 0). *)
Variable invoke : nat -> AgentState -> outcome AgentState.

(** Step 6, the [while] loop: the outcome, and how many times the graph
    was invoked.  [steps] bounds the iterations; when the loop ends
    without a final state the next statement fails on [None]. *)
Fixpoint ainvoke_with_retries (steps retry_count : nat)
    (state : AgentState) : outcome AgentState * nat :=
  match steps with
  | O => (Raised (CollaboratorError NONE_HAS_NO_GET), 0)
  | S steps' =>
      if retry_count <? MAX_RETRIES then
        match invoke retry_count state with
        | Return final_state => (Return final_state, 1)
        | Raised graph_error =>
            let error_msg := lower ucd (exn_str graph_error) in
            if contains PREPARED_STATEMENT error_msg
               && contains ALREADY_EXISTS error_msg
               && (retry_count <? MAX_RETRIES - 1)
            then
              let (r, n) :=
                ainvoke_with_retries steps' (S retry_count) state in
              (r, S n)
            else (Raised graph_error, 1)
        end
      else (Raised (CollaboratorError NONE_HAS_NO_GET), 0)
  end.

(** The endpoint, after its dependencies: [graph_ready] is
    [graph is not None], [token] is [credentials.credentials]. *)
Definition analyze_document (graph_ready : bool) (image : Upload)
    (thread : option str) (user_id token fresh : str)
    : api analysis_response * nat :=
  if negb graph_ready then (HTTPException 503 GRAPH_NOT_READY, 0)
  else
    match extract_text_from_image image with
    | Done text =>
        let thread' := thread_id_with_user user_id fresh thread in
        let state := initial_state text thread' token in
        let (r, n) := ainvoke_with_retries (S MAX_RETRIES) 0 state in
        (reraise_as 500 ANALYZE_ERROR
           (api_bind (of_outcome r)
              (fun final_state => Done (response_of thread' final_state))),
         n)
    | HTTPException code detail => (HTTPException code detail, 0)
    | Uncaught e => (HTTPException 500 (ANALYZE_ERROR ++ exn_str e), 0)
    end.
End AnalyzeDocument.

(* ===================================================================== *)
(** ** [api/main.py]: [process_document] and [get_thread_state] *)
(* ===================================================================== *)

Definition GRAPH_NOT_INITIALIZED : str := Eval vm_compute in
  lit "Graph not initialized".
Definition PROCESS_ERROR : str := Eval vm_compute in
  lit "Error processing document: ".
Definition THREAD_NOT_FOUND : str := Eval vm_compute in
  lit "Thread not found".
Definition THREAD_STATE_ERROR : str := Eval vm_compute in
  lit "Error getting thread state: ".

(** [str(n)] for a natural number: its decimal digits. *)
Fixpoint decimal_from (steps n : nat) (acc : str) : str :=
  match steps with
  | O => acc
  | S steps' =>
      let acc' := N.of_nat (48 + n mod 10) :: acc in
      if n / 10 =? 0 then acc' else decimal_from steps' (n / 10) acc'
  end.

Definition decimal (n : nat) : str := decimal_from (S n) n [].

(** [DocumentProcessResponse]. *)
Record DocumentProcessResponse : Type := mkDocumentResponse {
  out_doc_type : str;
  out_simplified_explanation : str;
  out_identified_risks : list str;
  out_action_items : list str;
  out_confidence_score : Q;
  out_language : str;
  out_thread_id : str
}.

(** The initial state of [process_document]: it has no [user_token]
    key. *)
Definition process_initial_state (text thread : str) : AgentState :=
  mkState (Some text) (Some []) (Some []) (Some []) (Some []) (Some 1%Q)
    (Some ES) (Some []) (Some thread) None.

(** [request.thread_id or f"user_{hash(request.raw_text) % 1000000}"];
    [text_hash] is Python's [hash] of the text. *)
Definition process_thread_id (text_hash : Z) (thread : option str) : str :=
  let given := get thread [] in
  if truthy given then given
  else USER_PREFIX ++ decimal (Z.to_nat (text_hash mod 1000000)).

Definition process_document (graph_ready : bool)
    (invoke : AgentState -> outcome AgentState) (text_hash : Z)
    (raw : str) (thread : option str) : api DocumentProcessResponse :=
  if negb graph_ready then HTTPException 503 GRAPH_NOT_INITIALIZED
  else
    let thread' := process_thread_id text_hash thread in
    match invoke (process_initial_state raw thread') with
    | Return final =>
        Done (mkDocumentResponse
                (get (doc_type final) [])
                (get (simplified_explanation final) [])
                (get (identified_risks final) [])
                (get (action_items final) [])
                (get (confidence_score final) 0%Q)
                (get (language final) ES)
                thread')
    | Raised e => HTTPException 500 (PROCESS_ERROR ++ exn_str e)
    end.

(** The snapshot [graph.aget_state(config)] answers: its values, [None]
    when the dictionary is empty, and the names of the next nodes. *)
Record StateSnapshot : Type := {
  values : option AgentState;
  next : list string
}.

(** [get_thread_state]; [http_str code detail] is [str] of an
    [HTTPException].  The [HTTPException] of an unknown thread is raised
    inside the [try], whose only handler is [except Exception]. *)
Definition get_thread_state (graph_ready : bool)
    (aget_state : str -> outcome StateSnapshot)
    (http_str : nat -> str -> str) (thread : str)
    : api (str * AgentState * list string) :=
  if negb graph_ready then HTTPException 503 GRAPH_NOT_INITIALIZED
  else
    match aget_state thread with
    | Return snapshot =>
        match values snapshot with
        | Some state => Done (thread, state, next snapshot)
        | None =>
            HTTPException 500
              (THREAD_STATE_ERROR ++ http_str 404 THREAD_NOT_FOUND)
        end
    | Raised e => HTTPException 500 (THREAD_STATE_ERROR ++ exn_str e)
    end.

(* ===================================================================== *)
(** ** [core/checkpointer.py] *)
(* ===================================================================== *)

Definition PORT_6543_PATH : str := Eval vm_compute in lit ":6543/".
Definition PORT_6543_QUERY : str := Eval vm_compute in lit ":6543?".
Definition PORT_5432_PATH : str := Eval vm_compute in lit ":5432/".
Definition PORT_5432_QUERY : str := Eval vm_compute in lit ":5432?".
Definition DUPLICATE : str := Eval vm_compute in lit "duplicate".

(** The connection string given to [from_conn_string]. *)
Definition session_pooler_url (db_url : str) : str :=
  if contains PORT_6543_PATH db_url || contains PORT_6543_QUERY db_url
  then replace PORT_6543_QUERY PORT_5432_QUERY
         (replace PORT_6543_PATH PORT_5432_PATH db_url)
  else db_url.

(** The settings, the LangGraph saver and PostgreSQL. *)
Record Postgres : Type := {
  (** [AsyncPostgresSaver is not None] *)
  saver_available : bool;
  (** [settings.supabase_db_url] *)
  supabase_db_url : option str;
  (** [AsyncPostgresSaver.from_conn_string(url).__aenter__()] *)
  aenter : str -> outcome unit;
  (** the call number [k] (from 0) of [_checkpointer.setup()] *)
  setup : nat -> outcome unit;
  (** the connection with [psycopg] and the count of the checkpoint
      tables: [fetchone()], [None] when there is no row *)
  count_tables : outcome (option nat);
  (** leaving the two [async with] blocks of that connection when
      their body raised nothing *)
  disconnect : outcome unit
}.

Inductive pg_event : Type :=
| Enter (url : str)
| Setup
| CountTables
| Sleep
| Exit.

(** The module-level variables [_checkpointer], [_checkpointer_cm] and
    [_setup_done]; a saver and its context manager are named by their
    connection string. *)
Record Globals : Type := mkGlobals {
  checkpointer : option str;
  checkpointer_cm : option str;
  setup_done : bool
}.

Definition no_checkpointer : Globals := mkGlobals None None false.

Section Checkpointer.
Variable ucd : UnicodeData.
Variable pg : Postgres.

(** The [try] around the first [setup()] and its handlers; every path
    sets [_setup_done], so only the outcome and the events are kept.
    What is printed is left out. *)
Definition setup_tables : outcome unit * list pg_event :=
  match setup pg 0 with
  | Return _ => (Return tt, [Setup])
  | Raised e =>
      let error_msg := lower ucd (exn_str e) in
      if contains PREPARED_STATEMENT error_msg
         && contains ALREADY_EXISTS error_msg
      then
        (* the tables are counted; a failure here, of the query or of
           the second [setup()], leads to one more [setup()] *)
        match count_tables pg with
        | Return result =>
            let table_count := get result 0 in
            if 4 <=? table_count then
              match disconnect pg with
              | Return _ => (Return tt, [Setup; CountTables])
              | Raised _ => (setup pg 1, [Setup; CountTables; Sleep; Setup])
              end
            else
              match setup pg 1 with
              | Return _ =>
                  match disconnect pg with
                  | Return _ =>
                      (Return tt, [Setup; CountTables; Sleep; Setup])
                  | Raised _ =>
                      (setup pg 2,
                       [Setup; CountTables; Sleep; Setup; Sleep; Setup])
                  end
              | Raised _ =>
                  (setup pg 2,
                   [Setup; CountTables; Sleep; Setup; Sleep; Setup])
              end
        | Raised _ => (setup pg 1, [Setup; CountTables; Sleep; Setup])
        end
      else if contains ALREADY_EXISTS error_msg
              || contains DUPLICATE error_msg
      then (Return tt, [Setup])
      else (Raised e, [Setup])
  end.

Definition get_checkpointer (g : Globals)
    : outcome (option str) * Globals * list pg_event :=
  if negb (truthy (get (supabase_db_url pg) []))
     || negb (saver_available pg)
  then (Return None, g, [])
  else
    match checkpointer g with
    | Some saver => (Return (Some saver), g, [])
    | None =>
        let db_url := session_pooler_url (get (supabase_db_url pg) []) in
        match aenter pg db_url with
        | Raised e =>
            (Raised e, mkGlobals None (Some db_url) (setup_done g),
             [Enter db_url])
        | Return _ =>
            if setup_done g
            then (Return (Some db_url),
                  mkGlobals (Some db_url) (Some db_url) true,
                  [Enter db_url])
            else
              let (r, t) := setup_tables in
              (match r with
               | Return _ => Return (Some db_url)
               | Raised e => Raised e
               end,
               mkGlobals (Some db_url) (Some db_url) true,
               Enter db_url :: t)
        end
    end.

(** [cleanup_checkpointer]: an error of [__aexit__] is ignored. *)
Definition cleanup_checkpointer (g : Globals) : Globals * list pg_event :=
  match checkpointer_cm g with
  | Some _ => (no_checkpointer, [Exit])
  | None => (g, [])
  end.
End Checkpointer.

(** The states of the module-level variables that calls of the two
    functions can reach, whatever the settings and PostgreSQL do. *)
Inductive reachable (ucd : UnicodeData) : Globals -> Prop :=
| reach_start : reachable ucd no_checkpointer
| reach_get (pg : Postgres) (g : Globals) :
    reachable ucd g -> reachable ucd (snd (fst (get_checkpointer ucd pg g)))
| reach_cleanup (g : Globals) :
    reachable ucd g -> reachable ucd (fst (cleanup_checkpointer g)).

(** The number of [setup()] calls among the events. *)
Definition setup_calls (t : list pg_event) : nat :=
  List.length
    (filter (fun ev => match ev with Setup => true | _ => false end) t).

(** A PostgreSQL whose first [setup()] fails with [e]. *)
Definition failing_setup (e : exn) : Postgres :=
  {| saver_available := true;
     supabase_db_url := Some (lit "postgresql://u:p@db.example:6543/postgres");
     aenter := fun _ => Return tt;
     setup := fun _ => Raised e;
     count_tables := Return None;
     disconnect := Return tt |}.

(* ===================================================================== *)
(** ** [api/v1/history.py]: [get_history] *)
(* ===================================================================== *)

Definition HISTORY_UNAVAILABLE : str := Eval vm_compute in
  lit "Servicio de base de datos no disponible".
Definition HISTORY_ERROR : str := Eval vm_compute in
  lit "Error al obtener el historial: ".
Definition NONE_HAS_NO_LEN : str := Eval vm_compute in
  lit "object of type 'NoneType' has no len()".
Definition INT_LT_NONE : str := Eval vm_compute in
  lit "'<' not supported between instances of 'int' and 'NoneType'".

Section History.
(** A row of [user_analyses] as Supabase returns it. *)
Variable Row : Type.

(** The two queries of [get_history] on the table [user_analyses]. *)
Record Table : Type := {
  (** [.select("*").eq("user_id", u).order("created_at", desc=True)
      .range(a, b).execute()]: the [data] of the response *)
  select_range : str -> Z -> Z -> outcome (option (list Row));
  (** [.select("id", count="exact").eq("user_id", u).execute()]: [None]
      when the response has no attribute [count], else that attribute,
      which may be [None] *)
  count_exact : str -> outcome (option (option nat))
}.

Record history_response : Type := mkHistory {
  history_user_id : str;
  analyses : list Row;
  total : nat;
  history_limit : nat;
  history_offset : nat;
  has_more : bool
}.

(** [limit] and [offset] are validated by FastAPI ([1 <= limit <= 100],
    [0 <= offset]); the bounds of [range] are computed on integers. *)
Definition get_history (world : World) (table : Table) (user_id : str)
    (limit offset : nat) : api history_response :=
  reraise_as 500 HISTORY_ERROR
    (api_bind (of_outcome (result (get_supabase_client world)))
       (fun supabase =>
          match supabase with
          | None => HTTPException 503 HISTORY_UNAVAILABLE
          | Some _ =>
              api_bind
                (of_outcome
                   (select_range table user_id (Z.of_nat offset)
                      (Z.of_nat offset + Z.of_nat limit - 1)%Z))
                (fun data =>
                   api_bind (of_outcome (count_exact table user_id))
                     (fun count =>
                        api_bind
                          (match count with
                           | Some c => Done c
                           | None =>
                               match data with
                               | Some d => Done (Some (List.length d))
                               | None =>
                                   Uncaught
                                     (CollaboratorError NONE_HAS_NO_LEN)
                               end
                           end)
                          (fun total_count =>
                             match total_count with
                             | Some n =>
                                 Done (mkHistory user_id (get data []) n
                                         limit offset (offset + limit <? n))
                             | None =>
                                 Uncaught (CollaboratorError INT_LT_NONE)
                             end)))
          end)).
End History.

(** A table of [user_analyses] that holds [rows] for every user, newest
    first, with the range of PostgREST: both bounds are included. *)
Definition table_of {Row : Type} (rows : list Row) : Table Row :=
  {| select_range := fun _ a b =>
       Return (Some (firstn (Z.to_nat (b - a + 1))
                       (skipn (Z.to_nat a) rows)));
     count_exact := fun _ => Return (Some (Some (List.length rows))) |}.

(* ===================================================================== *)
(** ** Auxiliary definitions for the properties of the rest of the code *)
(* ===================================================================== *)

(** The request the classification sends to the model. *)
Definition classify_call (state : AgentState) : event :=
  ModelCall GROQ_MODEL (3 # 10) CLASSIFY_SYSTEM_PROMPT
    (classify_human_message (get (raw_text state) [])).

(** The request the analysis sends to the model. *)
Definition analyze_call (state : AgentState) : event :=
  ModelCall GROQ_MODEL_LARGE (4 # 10) ANALYZE_SYSTEM_PROMPT
    (analyze_request state).

(** A list item as the analysis grammar keeps it: non-empty and
    trimmed. *)
Definition kept_item (text : str) : Prop := text <> [] /\ strip text = text.

(** The invariant of the parsing loop. *)
Definition parsed_well (st : parse_state) : Prop :=
  Forall kept_item (risks st) /\ Forall kept_item (actions st)
  /\ exists items,
       explanation st = append_bullets [] items /\ Forall kept_item items.

(** The client the analysis node asks for: authenticated when the state
    carries a token. *)
Definition client_for (state : AgentState) : client :=
  if truthy (get (user_token state) [])
  then AuthenticatedClient (get (user_token state) [])
  else PlainClient.

(** The row the analysis node inserts for the answer [content] and the
    user id [user]. *)
Definition row_for (ucd : UnicodeData) (state : AgentState)
    (content : str) (user : option str) : analysis_data :=
  let '(simplified, found_risks, found_actions) :=
    parse_analysis ucd (strip content) in
  mkRow (get (thread_id state) []) user (get (doc_type state) [])
    simplified found_risks found_actions
    (get (confidence_score state) 0%Q) (get (language state) ES)
    (if truthy (get (raw_text state) [])
     then Some (firstn 1000 (get (raw_text state) [])) else None).

(* ===================================================================== *)
(** ** Lemmas on the string built-ins *)
(* ===================================================================== *)

Unset Implicit Arguments.

Lemma truthy_false_iff (s : str) : truthy s = false <-> s = [].
Proof. destruct s; simpl; split; congruence. Qed.

Lemma truthy_true_iff (s : str) : truthy s = true <-> s <> [].
Proof. destruct s; simpl; split; congruence. Qed.

Lemma truthy_length (s : str) : truthy s = (0 <? List.length s).
Proof. destruct s; reflexivity. Qed.

Lemma strip_nil : strip [] = [].
Proof. reflexivity. Qed.

(** [e and e.strip()] is truthy exactly when [e.strip()] is. *)
Lemma guard_strip (e : str) :
  truthy e && truthy (strip e) = truthy (strip e).
Proof. destruct e; reflexivity. Qed.

Lemma dropwhile_head_false (p : char -> bool) (c : char) (s : str) :
  p c = false -> dropwhile p (c :: s) = c :: s.
Proof. intros H; simpl; now rewrite H. Qed.

Lemma dropwhile_app_all (p : char -> bool) (a s : str) :
  forallb p a = true -> dropwhile p (a ++ s) = dropwhile p s.
Proof.
  induction a as [|x a IH]; simpl; intros H; [reflexivity|].
  apply andb_true_iff in H as [Hx Ha]. rewrite Hx. now apply IH.
Qed.

Lemma rev_head_last (c : char) (s : str) :
  exists r, rev (c :: s) = last (c :: s) c :: r.
Proof.
  destruct (exists_last (l := c :: s)) as (l' & x & E); [discriminate|].
  rewrite E, rev_app_distr, last_last. simpl. eauto.
Qed.

Lemma strip_trimmed (s : str) : trimmed s -> strip s = s.
Proof.
  destruct s as [|c s]; [reflexivity|].
  intros [Hc Hl]. unfold strip, lstrip, rstrip.
  rewrite dropwhile_head_false by exact Hc.
  destruct (rev_head_last c s) as [r E]. rewrite E.
  rewrite dropwhile_head_false by exact Hl.
  rewrite <- E. apply rev_involutive.
Qed.

(* ===================================================================== *)
(** ** The repetition loop finds the runs *)
(* ===================================================================== *)

Lemma has_run_length (n : nat) (s : str) : has_run n s -> n <= List.length s.
Proof.
  intros (a & c & b & ->). rewrite !length_app, repeat_length. lia.
Qed.

Lemma has_run_app_l (n : nat) (a s : str) :
  has_run n s -> has_run n (a ++ s).
Proof.
  intros (a' & c & b & ->). exists (a ++ a'), c, b.
  now rewrite app_assoc.
Qed.

Lemma has_run_repeat (c : char) (n m : nat) (s : str) :
  n <= m -> has_run n (repeat c m ++ s).
Proof.
  intros H. exists [], c, (repeat c (m - n) ++ s). simpl.
  rewrite app_assoc, <- repeat_app. do 2 f_equal. lia.
Qed.

Lemma has_run_weaken (n m : nat) (s : str) :
  m <= n -> has_run n s -> has_run m s.
Proof.
  intros H (a & c & b & ->). apply has_run_app_l. now apply has_run_repeat.
Qed.

Lemma repeat_shift (d : char) (cnt : nat) (rest : str) :
  repeat d cnt ++ d :: rest = repeat d (S cnt) ++ rest.
Proof.
  change (d :: rest) with ([d] ++ rest).
  now rewrite app_assoc, <- repeat_cons.
Qed.

(** A run inside [d..d c rest], with [c <> d], lies on one side of the
    boundary. *)
Lemma has_run_boundary (n cnt : nat) (d c : char) (rest : str) :
  c <> d ->
  has_run n (repeat d cnt ++ c :: rest) ->
  n <= cnt \/ has_run n (c :: rest).
Proof.
  intros Hne (a & x & b & E).
  apply app_eq_app in E. destruct E as (l & [[E1 E2] | [E1 E2]]).
  - apply app_eq_app in E2.
    destruct E2 as (l' & [[E3 E4] | [E3 E4]]).
    + destruct l' as [|y l''].
      * left. rewrite app_nil_r in E3. subst l.
        apply (f_equal (@List.length char)) in E1.
        rewrite length_app, !repeat_length in E1. lia.
      * simpl in E4. injection E4 as Ey E4.
        assert (Hy : y = x).
        { apply (repeat_spec n x). rewrite E3. apply in_or_app.
          right. now left. }
        destruct l as [|z l0].
        -- right. exists [], x, b. simpl. simpl in E3. rewrite E3.
           simpl. now rewrite Ey, E4.
        -- exfalso. apply Hne.
           assert (Hzx : z = x).
           { apply (repeat_spec n x). rewrite E3. now left. }
           assert (Hzd : z = d).
           { apply (repeat_spec cnt d). rewrite E1. apply in_or_app.
             right. now left. }
           congruence.
    + left. subst l.
      apply (f_equal (@List.length char)) in E1.
      rewrite !length_app, !repeat_length in E1. lia.
  - right. exists l, x, b. exact E2.
Qed.

Lemma repeat_loop_spec (n : nat) :
  2 <= n ->
  forall (s : str) (d : char) (cnt mx : nat),
    1 <= cnt -> (2 <= cnt -> cnt <= mx) ->
    (n <= repeat_loop (Some d) cnt mx s
     <-> n <= mx \/ has_run n (repeat d cnt ++ s)).
Proof.
  intros Hn. induction s as [|c rest IH]; intros d cnt mx H1 H2.
  - simpl. rewrite app_nil_r. split; [now left|].
    intros [H|H]; [exact H|].
    apply has_run_length in H. rewrite repeat_length in H. lia.
  - simpl. destruct (N.eqb_spec c d) as [->|Hne].
    + rewrite IH by lia. rewrite repeat_shift. split.
      * intros [H|H]; [|now right].
        destruct (Nat.le_gt_cases n mx) as [L|G]; [now left|].
        right. apply has_run_repeat. lia.
      * intros [H|H]; [left; lia|now right].
    + rewrite IH by lia. simpl. split.
      * intros [H|H]; [now left|]. right. now apply has_run_app_l.
      * intros [H|H]; [now left|].
        destruct (has_run_boundary _ _ _ _ _ Hne H) as [L|R]; [left; lia|now right].
Qed.

(** [max_repeat] reaches [n] exactly when the text has a run of [n]
    identical characters, for every [n] of at least 2. *)
Lemma max_repeat_of_spec (n : nat) (s : str) :
  2 <= n -> (n <= max_repeat_of s <-> has_run n s).
Proof.
  intros Hn. destruct s as [|c rest].
  - unfold max_repeat_of. simpl. split; [lia|].
    intros H. apply has_run_length in H. simpl in H. lia.
  - unfold max_repeat_of. simpl.
    rewrite (repeat_loop_spec n Hn rest c 1 0) by lia.
    simpl. split; [intros [H|H]; [lia|exact H]|now right].
Qed.

Lemma repetition_check_spec (s : str) :
  (5 <? max_repeat_of s) = true <-> has_run 6 s.
Proof.
  rewrite Nat.ltb_lt. rewrite <- (max_repeat_of_spec 6 s) by lia. lia.
Qed.

(* ===================================================================== *)
(** ** The cascade of checks against the specification's five conditions *)
(* ===================================================================== *)

Lemma Qltb_spec (x y : Q) : Qltb x y = true <-> (x < y)%Q.
Proof.
  unfold Qltb. rewrite negb_true_iff. split.
  - intros H. apply Qnot_le_lt. intros L.
    apply Qle_bool_iff in L. congruence.
  - intros H. destruct (Qle_bool y x) eqn:E; [|reflexivity].
    apply Qle_bool_iff in E. exfalso. exact (Qlt_not_le _ _ H E).
Qed.

Lemma rank_inj (k k' : check) : rank k = rank k' -> k = k'.
Proof. destruct k, k'; simpl; intros H; try reflexivity; discriminate. Qed.

Lemma first_failing_unique (ucd : UnicodeData) (raw : str) (k k' : check) :
  first_failing ucd k raw -> first_failing ucd k' raw -> k = k'.
Proof.
  intros [F1 M1] [F2 M2]. apply rank_inj.
  destruct (Nat.lt_trichotomy (rank k) (rank k')) as [L|[E|G]].
  - exfalso. exact (M2 k L F1).
  - exact E.
  - exfalso. exact (M1 k' G F2).
Qed.

(** What [text_checks] returns is the first failing check of the
    specification, and it returns nothing when no check fails. *)
Lemma text_checks_cases (ucd : UnicodeData) (raw : str) :
  match text_checks ucd raw with
  | Some k => first_failing ucd k raw
  | None => forall k, ~ fails ucd k raw
  end.
Proof.
  unfold text_checks, MIN_TEXT_LENGTH, MIN_WORDS.
  set (t := strip raw).
  assert (F1 : negb (truthy t) || (List.length t <? 50) = true
               <-> List.length t < 50).
  { rewrite truthy_length, orb_true_iff, negb_true_iff.
    rewrite !Nat.ltb_lt, Nat.ltb_ge. lia. }
  assert (F4 := repetition_check_spec t).
  destruct (negb (truthy t) || (List.length t <? 50)) eqn:B1.
  { split; [apply F1; reflexivity|].
    intros k'; destruct k'; simpl; lia. }
  assert (N1 : ~ List.length t < 50) by (rewrite <- F1; congruence).
  destruct (List.length (split_ws t) <? 10) eqn:B2.
  { apply Nat.ltb_lt in B2. split; [exact B2|].
    intros k'; destruct k'; simpl; try lia. intros _. exact N1. }
  apply Nat.ltb_ge in B2.
  assert (P0 : (0 <? List.length t) = true) by (apply Nat.ltb_lt; lia).
  rewrite P0. simpl andb.
  destruct (Qltb (alphanumeric_ratio ucd t) (1 # 2)) eqn:B3.
  { apply Qltb_spec in B3. split; [exact B3|].
    intros k'; destruct k'; simpl; try lia; intros _; fold t; lia. }
  assert (N3 : ~ (alphanumeric_ratio ucd t < 1 # 2)%Q).
  { rewrite <- Qltb_spec. congruence. }
  destruct (5 <? max_repeat_of t) eqn:B4.
  { split; [apply F4; reflexivity|].
    intros k'; destruct k'; simpl; try lia; intros _; fold t;
      solve [lia | exact N3]. }
  assert (N4 : ~ has_run 6 t) by (rewrite <- F4; congruence).
  change (unique_words ucd (split_ws t)) with (distinct_words ucd t).
  destruct (List.length (distinct_words ucd t) <? 5) eqn:B5.
  { apply Nat.ltb_lt in B5. split; [exact B5|].
    intros k'; destruct k'; simpl; try lia; intros _; fold t;
      solve [lia | exact N3 | exact N4]. }
  apply Nat.ltb_ge in B5.
  intros k; destruct k; simpl; fold t;
    solve [lia | exact N3 | exact N4].
Qed.

Lemma text_checks_first_failing (ucd : UnicodeData) (raw : str) (k : check) :
  text_checks ucd raw = Some k <-> first_failing ucd k raw.
Proof.
  generalize (text_checks_cases ucd raw).
  destruct (text_checks ucd raw) as [k0|]; intros H; split.
  - intros E. injection E as <-. exact H.
  - intros F. f_equal. exact (first_failing_unique ucd raw _ _ H F).
  - discriminate.
  - intros [F _]. exfalso. exact (H k F).
Qed.

Lemma text_checks_none (ucd : UnicodeData) (raw : str) :
  text_checks ucd raw = None <-> forall k, ~ fails ucd k raw.
Proof.
  generalize (text_checks_cases ucd raw).
  destruct (text_checks ucd raw) as [k0|]; intros H; split.
  - discriminate.
  - intros N. exfalso. destruct H as [F _]. exact (N k0 F).
  - intros _. exact H.
  - reflexivity.
Qed.

(** The node is its cascade followed by the call of the model. *)
Lemma node_text_checks (ucd : UnicodeData) (world : World)
    (state : AgentState) :
  extract_and_classify_node ucd world state =
  match text_checks ucd (get (raw_text state) []) with
  | Some k => ret (rejected state (reason_message k))
  | None => classify_with_model ucd world state
  end.
Proof.
  unfold extract_and_classify_node, text_checks.
  repeat match goal with
         | |- context [if ?b then _ else _] => destruct b; try reflexivity
         end.
Qed.

Lemma reason_message_inj (k k' : check) :
  reason_message k = reason_message k' -> k = k'.
Proof.
  intros H.
  assert (E : str_eqb (reason_message k) (reason_message k') = true).
  { unfold str_eqb. now destruct str_eq_dec. }
  destruct k, k'; try reflexivity; vm_compute in E; discriminate E.
Qed.

(** The model is called as soon as the checks pass, whatever it answers. *)
Lemma classify_with_model_calls (ucd : UnicodeData) (world : World)
    (state : AgentState) :
  exists st,
    classify_with_model ucd world state =
    (Return st,
     [ModelCall GROQ_MODEL (3 # 10) CLASSIFY_SYSTEM_PROMPT
        (classify_human_message (get (raw_text state) []))])
    /\ (forall content,
          groq world GROQ_MODEL (3 # 10) CLASSIFY_SYSTEM_PROMPT
            (classify_human_message (get (raw_text state) []))
          = Return content ->
          st = let (d, l) :=
                 parse_classification ucd (split_on NL (strip content)) in
               set_error_message [] (set_language l (set_doc_type d state)))
    /\ (forall e,
          groq world GROQ_MODEL (3 # 10) CLASSIFY_SYSTEM_PROMPT
            (classify_human_message (get (raw_text state) []))
          = Raised e ->
          st = rejected state MSG_CLASSIFY_FAILED).
Proof.
  unfold classify_with_model, ainvoke, try_except, bind, emit, lift, ret.
  destruct (groq world GROQ_MODEL (3 # 10) CLASSIFY_SYSTEM_PROMPT
              (classify_human_message (get (raw_text state) [])))
    as [content|e].
  - destruct (parse_classification ucd (split_on NL (strip content)))
      as [d l] eqn:P.
    eexists; split; [reflexivity|]. split.
    + intros c E. injection E as <-. now rewrite P.
    + discriminate.
  - eexists; split; [reflexivity|]. split.
    + discriminate.
    + reflexivity.
Qed.

Lemma count_partition (ucd : UnicodeData) (text : str) :
  alphanumeric_count ucd text + punctuation_count ucd text
  = List.length text.
Proof.
  unfold alphanumeric_count, punctuation_count.
  induction text as [|c text IH]; [reflexivity|].
  simpl. destruct (isalnum ucd c || isspace c); simpl; lia.
Qed.

Lemma node_rejects_iff (ucd : UnicodeData) (world : World)
    (state : AgentState) (k : check) :
  extract_and_classify_node ucd world state
    = (Return (rejected state (reason_message k)), [])
  <-> first_failing ucd k (get (raw_text state) []).
Proof.
  rewrite node_text_checks, <- text_checks_first_failing.
  destruct (text_checks ucd (get (raw_text state) [])) as [k0|]; split.
  - unfold ret. intros E. f_equal. apply reason_message_inj.
    apply (f_equal (fun r => match fst r with
                             | Return s => get (error_message s) []
                             | Raised _ => []
                             end)) in E.
    exact E.
  - intros E. injection E as <-. reflexivity.
  - destruct (classify_with_model_calls ucd world state) as (st & E & _).
    rewrite E. discriminate.
  - discriminate.
Qed.

(* ===================================================================== *)
(** ** Properties of [extract_and_classify_node] *)
(* ===================================================================== *)

(** C2, amended.  The node returns the rejection of check [k], without
    calling the model, exactly when [k] is the first of the five
    conditions of the specification, in their order, that holds of the
    raw text; it returns a rejection of one of the five exactly when at
    least one condition holds.  In particular a text of 60 characters
    (trimmed) with at least 10 words of which 80 percent are neither
    alphanumeric nor whitespace is rejected with the message of the
    ratio check, and a text with a run of 7 identical characters that
    passes the length, word and ratio checks is rejected with the message
    of the repetition check. *)
Theorem quality_gate_first_failing (ucd : UnicodeData) (world : World)
    (state : AgentState) :
  let raw := get (raw_text state) [] in
  let node := extract_and_classify_node ucd world state in
  (forall k, node = (Return (rejected state (reason_message k)), [])
             <-> first_failing ucd k raw)
  /\ ((exists k, node = (Return (rejected state (reason_message k)), []))
      <-> exists k, fails ucd k raw)
  /\ (List.length (strip raw) = 60 ->
      10 <= List.length (split_ws (strip raw)) ->
      5 * punctuation_count ucd (strip raw) = 4 * 60 ->
      node = (Return (rejected state MSG_NOISE), []))
  /\ (has_run 7 (strip raw) ->
      ~ fails ucd length_check raw -> ~ fails ucd words_check raw ->
      ~ fails ucd ratio_check raw ->
      node = (Return (rejected state MSG_REPETITION), [])).
Proof.
  intros raw node. unfold node, raw.
  split; [intros k; apply node_rejects_iff|].
  split; [|split].
  - split.
    + intros [k E]. apply node_rejects_iff in E. exists k. exact (proj1 E).
    + intros [k F].
      generalize (text_checks_cases ucd (get (raw_text state) [])).
      destruct (text_checks ucd (get (raw_text state) [])) as [k0|].
      * intros H. exists k0. now apply node_rejects_iff.
      * intros H. exfalso. exact (H k F).
  - intros L W P.
    apply (node_rejects_iff ucd world state ratio_check).
    split.
    + simpl. unfold alphanumeric_ratio.
      assert (C := count_partition ucd (strip (get (raw_text state) []))).
      rewrite L in *.
      replace (alphanumeric_count ucd (strip (get (raw_text state) [])))
        with 12 by lia.
      reflexivity.
    + intros k'; destruct k'; simpl; lia.
  - intros R N1 N2 N3.
    apply (node_rejects_iff ucd world state repetition_check).
    split.
    + simpl. apply (has_run_weaken 7 6); [lia|exact R].
    + intros k'; destruct k'; simpl; try lia; intros _; assumption.
Qed.

Lemma quality_gate_first_failing_witness :
  extract_and_classify_node latin1_only offline
    (initial_state sixty_ten_words [] [])
  = (Return (rejected (initial_state sixty_ten_words [] []) MSG_NOISE), []).
Proof.
  apply (proj1 (proj2 (proj2
           (quality_gate_first_failing latin1_only offline
              (initial_state sixty_ten_words [] []))))).
  - vm_compute. reflexivity.
  - vm_compute. lia.
  - vm_compute. reflexivity.
Defined.

(** C2, the claim as stated fails: a text of 60 characters, 80 percent
    of them punctuation, that is a single word is rejected by the word
    check, which comes before the ratio check. *)
Lemma sixty_chars_rejected_by_word_check :
  let state := initial_state sixty_one_word [] [] in
  List.length (strip sixty_one_word) = 60
  /\ 5 * punctuation_count latin1_only (strip sixty_one_word) = 4 * 60
  /\ extract_and_classify_node latin1_only offline state
     = (Return (rejected state MSG_FEW_WORDS), [])
  /\ extract_and_classify_node latin1_only offline state
     <> (Return (rejected state MSG_NOISE), []).
Proof.
  intros state. split; [reflexivity|]. split; [reflexivity|].
  assert (E : extract_and_classify_node latin1_only offline state
              = (Return (rejected state MSG_FEW_WORDS), []))
    by (vm_compute; reflexivity).
  split; [exact E|].
  rewrite E. intros H.
  apply (f_equal (fun r => match fst r with
                           | Return s => get (error_message s) []
                           | Raised _ => []
                           end)) in H.
  apply (reason_message_inj words_check ratio_check) in H.
  discriminate H.
Qed.

(** C3.  When the trimmed text has fewer than 50 characters or fewer
    than 10 whitespace-separated words, the node returns the state with
    [error_message] set to the message of the length check, or else of
    the word check, [doc_type] empty, [language] "es" and
    [confidence_score] 0.0, every other field as it was; and its trace
    is empty: no model call is made. *)
Theorem short_text_rejected (ucd : UnicodeData) (world : World)
    (state : AgentState) :
  let text := strip (get (raw_text state) []) in
  List.length text < 50 \/ List.length (split_ws text) < 10 ->
  let msg := if List.length text <? 50 then MSG_TOO_SHORT
             else MSG_FEW_WORDS in
  result (extract_and_classify_node ucd world state)
  = Return (mkState (raw_text state) (Some []) (simplified_explanation state)
              (identified_risks state) (action_items state) (Some 0%Q)
              (Some ES) (Some msg) (thread_id state) (user_token state))
  /\ trace (extract_and_classify_node ucd world state) = []
  /\ existsb is_model_call
       (trace (extract_and_classify_node ucd world state)) = false.
Proof.
  intros text H msg. unfold msg.
  destruct (List.length text <? 50) eqn:B.
  - apply Nat.ltb_lt in B.
    assert (F : first_failing ucd length_check (get (raw_text state) [])).
    { split; [exact B|]. intros k'; destruct k'; simpl; lia. }
    apply (node_rejects_iff ucd world state) in F. rewrite F.
    repeat split.
  - apply Nat.ltb_ge in B. destruct H as [H|H]; [fold text in B; lia|].
    assert (F : first_failing ucd words_check (get (raw_text state) [])).
    { split; [exact H|].
      intros k'; destruct k'; simpl; try lia. fold text. lia. }
    apply (node_rejects_iff ucd world state) in F. rewrite F.
    repeat split.
Qed.

Lemma short_text_rejected_witness :
  result (extract_and_classify_node latin1_only offline
            (initial_state (lit "hola") [] []))
  = Return (mkState (Some (lit "hola")) (Some []) (Some []) (Some [])
              (Some []) (Some 0%Q) (Some ES) (Some MSG_TOO_SHORT)
              (Some []) (Some [])).
Proof.
  apply (short_text_rejected latin1_only offline
           (initial_state (lit "hola") [] [])).
  left. vm_compute. lia.
Defined.

(* ===================================================================== *)
(** ** Properties of the workflow *)
(* ===================================================================== *)

Lemma merge_rejected (state : AgentState) (msg : str) :
  merge state (rejected state msg) = rejected state msg.
Proof.
  destruct state as [a b c d e f g h i j].
  destruct a, b, c, d, e, f, g, h, i, j; reflexivity.
Qed.

Lemma merge_classified (state : AgentState) (d l : str) :
  let st := set_error_message [] (set_language l (set_doc_type d state)) in
  merge state st = st.
Proof.
  destruct state as [a b c d0 e f g h i j].
  destruct a, b, c, d0, e, f, g, h, i, j; reflexivity.
Qed.

(** The classification node never raises; what it returns carries every
    key of the incoming state, and it runs no node of the graph. *)
Lemma classify_returns (ucd : UnicodeData) (world : World)
    (state : AgentState) :
  exists st1 t1,
    extract_and_classify_node ucd world state = (Return st1, t1)
    /\ merge state st1 = st1
    /\ forall name, ~ In (RunNode name) t1.
Proof.
  rewrite node_text_checks.
  destruct (text_checks ucd (get (raw_text state) [])) as [k|].
  - exists (rejected state (reason_message k)), [].
    split; [reflexivity|]. split; [apply merge_rejected|]. intros n [].
  - destruct (classify_with_model_calls ucd world state)
      as (st & E & HR & HE).
    exists st. eexists. split; [exact E|]. split.
    + destruct (groq world GROQ_MODEL (3 # 10) CLASSIFY_SYSTEM_PROMPT
                  (classify_human_message (get (raw_text state) [])))
        as [content|e] eqn:G.
      * rewrite (HR content eq_refl).
        destruct (parse_classification ucd (split_on NL (strip content))).
        apply merge_classified.
      * rewrite (HE e eq_refl). apply merge_rejected.
    + intros n [H|[]]. discriminate H.
Qed.

Local Open Scope string_scope.

Lemma run_from_END (g : StateGraph) (n : nat) (s : AgentState) :
  run_from g n END s = ret s.
Proof. destruct n; reflexivity. Qed.

(** The run of the graph of [graph.py], for any two node functions. *)
Lemma two_stage_run (f1 f2 : AgentState -> M AgentState)
    (state : AgentState) :
  ainvoke_graph
    (add_edge "simplify_and_analyze" END
       (add_conditional_edges "extract_and_classify" should_continue
          [("end", END); ("continue", "simplify_and_analyze")]
          (set_entry_point "extract_and_classify"
             (add_node "simplify_and_analyze" f2
                (add_node "extract_and_classify" f1 empty_graph)))))
    state
  = match f1 state with
    | (Raised e, t1) => (Raised e, RunNode "extract_and_classify" :: t1)
    | (Return u1, t1) =>
        let s1 := merge state u1 in
        if truthy (strip (get (error_message s1) []))
        then (Return s1, RunNode "extract_and_classify" :: t1)
        else
          match f2 s1 with
          | (Raised e, t2) =>
              (Raised e,
               RunNode "extract_and_classify" :: t1
               ++ RunNode "simplify_and_analyze" :: t2)
          | (Return u2, t2) =>
              (Return (merge s1 u2),
               RunNode "extract_and_classify" :: t1
               ++ RunNode "simplify_and_analyze" :: t2)
          end
    end.
Proof.
  unfold ainvoke_graph. cbn [graph_entry add_edge add_conditional_edges
    set_entry_point add_node empty_graph].
  change RECURSION_LIMIT with (S (S 23)). generalize 23. intros n.
  cbn -[merge should_continue].
  unfold bind at 1.
  destruct (f1 state) as [[u1|e] t1]; [|reflexivity].
  unfold should_continue. rewrite guard_strip.
  destruct (truthy (strip (get (error_message (merge state u1)) []))).
  - cbn -[merge]. now rewrite app_nil_r.
  - cbn -[merge]. unfold bind.
    destruct (f2 (merge state u1)) as [[u2|e] t2]; cbn -[merge].
    + rewrite run_from_END. cbn -[merge]. now rewrite app_nil_r.
    + reflexivity.
Qed.

(** C1.  The classification node always returns a state [st1]; the run
    of the workflow executes [simplify_and_analyze] if and only if the
    [error_message] of [st1], trimmed, is empty; and the routing depends
    on no other field: two states with the same [error_message] are
    routed alike. *)
Theorem analysis_runs_iff_no_error (ucd : UnicodeData) (world : World)
    (state : AgentState) :
  exists st1 t1,
    extract_and_classify_node ucd world state = (Return st1, t1)
    /\ (In (RunNode "simplify_and_analyze")
          (trace (ainvoke_graph (workflow ucd world) state))
        <-> strip (get (error_message st1) []) = [])
    /\ (should_continue st1 = "continue"
        <-> strip (get (error_message st1) []) = [])
    /\ (forall other,
          error_message other = error_message st1 ->
          should_continue other = should_continue st1).
Proof.
  destruct (classify_returns ucd world state) as (st1 & t1 & E & Hm & Hn).
  exists st1, t1. split; [exact E|]. split; [|split].
  - unfold workflow. rewrite two_stage_run, E. cbn zeta. rewrite Hm.
    rewrite <- truthy_false_iff.
    destruct (truthy (strip (get (error_message st1) []))).
    + split; [|discriminate]. intros [H|H]; [discriminate H|].
      exfalso. exact (Hn _ H).
    + split; [reflexivity|]. intros _.
      destruct (simplify_and_analyze_node ucd world st1) as [[u2|e] t2];
        unfold trace; simpl; right; apply in_or_app; right; now left.
  - unfold should_continue. rewrite guard_strip, <- truthy_false_iff.
    destruct (truthy (strip (get (error_message st1) [])));
      split; congruence.
  - intros other H. unfold should_continue. now rewrite H.
Qed.

Local Close Scope string_scope.

(* ===================================================================== *)
(** ** Properties of [simplify_and_analyze_node]: guard and failure *)
(* ===================================================================== *)

Lemma analyze_guard (ucd : UnicodeData) (world : World)
    (state : AgentState) :
  strip (get (error_message state) []) <> [] ->
  simplify_and_analyze_node ucd world state = (Return state, []).
Proof.
  intros H. apply truthy_true_iff in H.
  unfold simplify_and_analyze_node. now rewrite guard_strip, H.
Qed.

Lemma analyze_model_failure (ucd : UnicodeData) (world : World)
    (state : AgentState) (e : exn) :
  strip (get (error_message state) []) = [] ->
  groq world GROQ_MODEL_LARGE (4 # 10) ANALYZE_SYSTEM_PROMPT
    (analyze_request state) = Raised e ->
  simplify_and_analyze_node ucd world state
  = (Return (analysis_failed state),
     [ModelCall GROQ_MODEL_LARGE (4 # 10) ANALYZE_SYSTEM_PROMPT
        (analyze_request state)]).
Proof.
  intros H G. apply truthy_false_iff in H.
  unfold simplify_and_analyze_node. rewrite guard_strip, H.
  unfold try_except, bind, ainvoke, emit, lift, ret. rewrite G.
  reflexivity.
Qed.

(** C4, amended.  When the [error_message] of the incoming state is not
    blank, that is non-empty after trimming, the node returns that very
    state and its trace is empty: neither the model nor Supabase is
    called. *)
Theorem analysis_skipped_on_error (ucd : UnicodeData) (world : World)
    (state : AgentState) :
  strip (get (error_message state) []) <> [] ->
  result (simplify_and_analyze_node ucd world state) = Return state
  /\ trace (simplify_and_analyze_node ucd world state) = []
  /\ existsb (fun ev => is_model_call ev || is_persistence ev)
       (trace (simplify_and_analyze_node ucd world state)) = false.
Proof.
  intros H. rewrite (analyze_guard ucd world state H). repeat split.
Qed.

Lemma analysis_skipped_on_error_witness :
  result (simplify_and_analyze_node latin1_only offline
            (state_with_error (lit "x")))
  = Return (state_with_error (lit "x")).
Proof.
  apply (analysis_skipped_on_error latin1_only offline
           (state_with_error (lit "x"))).
  vm_compute. discriminate.
Defined.

(** C4, the claim as stated fails: an [error_message] of one space is
    non-empty, yet the node calls the model and returns another state. *)
Lemma blank_error_message_is_analyzed :
  let state := state_with_error [SPACE] in
  get (error_message state) [] <> []
  /\ existsb is_model_call
       (trace (simplify_and_analyze_node latin1_only offline state)) = true
  /\ result (simplify_and_analyze_node latin1_only offline state)
     = Return (analysis_failed state)
  /\ analysis_failed state <> state.
Proof.
  intros state. split; [discriminate|].
  split; [vm_compute; reflexivity|].
  split; [vm_compute; reflexivity|].
  intros H. apply (f_equal confidence_score) in H. discriminate H.
Qed.

(** C7.  When the call of the model fails, the node returns, raising
    nothing, the incoming state with [simplified_explanation] set to the
    generic error text, [identified_risks] and [action_items] each
    replaced by the one-element list of its fallback sentence, and
    [confidence_score] 0.0. *)
Theorem model_failure_fallback (ucd : UnicodeData) (world : World)
    (state : AgentState) (e : exn) :
  strip (get (error_message state) []) = [] ->
  groq world GROQ_MODEL_LARGE (4 # 10) ANALYZE_SYSTEM_PROMPT
    (analyze_request state) = Raised e ->
  exists st,
    result (simplify_and_analyze_node ucd world state) = Return st
    /\ simplified_explanation st = Some MSG_ANALYSIS_FAILED
    /\ identified_risks st = Some [RISK_FALLBACK]
    /\ action_items st = Some [ACTION_FALLBACK]
    /\ confidence_score st = Some 0%Q
    /\ raw_text st = raw_text state /\ doc_type st = doc_type state
    /\ language st = language state
    /\ error_message st = error_message state
    /\ thread_id st = thread_id state /\ user_token st = user_token state.
Proof.
  intros H G. exists (analysis_failed state).
  rewrite (analyze_model_failure ucd world state e H G).
  repeat split.
Qed.

Lemma model_failure_fallback_witness :
  exists st,
    result (simplify_and_analyze_node latin1_only offline
              (mkState (Some (lit "texto")) (Some [])
                 (Some (lit "antes")) (Some [lit "r1"; lit "r2"])
                 (Some [lit "a1"]) (Some 1%Q) (Some ES) (Some [])
                 (Some (lit "user_42_ab12cd")) (Some (lit "token"))))
    = Return st
    /\ identified_risks st = Some [RISK_FALLBACK]
    /\ action_items st = Some [ACTION_FALLBACK].
Proof.
  destruct (model_failure_fallback latin1_only offline
              (mkState (Some (lit "texto")) (Some [])
                 (Some (lit "antes")) (Some [lit "r1"; lit "r2"])
                 (Some [lit "a1"]) (Some 1%Q) (Some ES) (Some [])
                 (Some (lit "user_42_ab12cd")) (Some (lit "token")))
              (CollaboratorError []) eq_refl eq_refl)
    as (st & R & _ & Hr & Ha & _).
  exists st. split; [exact R|]. split; [exact Hr|exact Ha].
Defined.

Local Open Scope string_scope.

(** C10.  When the incoming [error_message] is empty and the call of the
    model fails, the state the node returns still has the incoming,
    empty [error_message]: the failure shows only in
    [simplified_explanation], the fallback lists and [confidence_score],
    and [should_continue], which tests [error_message], answers
    "continue" on it. *)
Theorem model_failure_keeps_error_message_empty (ucd : UnicodeData)
    (world : World) (state : AgentState) (e : exn) :
  get (error_message state) [] = [] ->
  groq world GROQ_MODEL_LARGE (4 # 10) ANALYZE_SYSTEM_PROMPT
    (analyze_request state) = Raised e ->
  exists st,
    result (simplify_and_analyze_node ucd world state) = Return st
    /\ error_message st = error_message state
    /\ get (error_message st) [] = []
    /\ should_continue st = "continue"
    /\ simplified_explanation st = Some MSG_ANALYSIS_FAILED
    /\ identified_risks st = Some [RISK_FALLBACK]
    /\ action_items st = Some [ACTION_FALLBACK]
    /\ confidence_score st = Some 0%Q.
Proof.
  intros H G. exists (analysis_failed state).
  assert (H' : strip (get (error_message state) []) = [])
    by now rewrite H.
  rewrite (analyze_model_failure ucd world state e H' G).
  repeat split; try exact H.
  unfold should_continue. simpl error_message. now rewrite H.
Qed.

Lemma model_failure_keeps_error_message_empty_witness :
  exists st,
    result (simplify_and_analyze_node latin1_only offline
              (state_with_error [])) = Return st
    /\ get (error_message st) [] = []
    /\ should_continue st = "continue".
Proof.
  destruct (model_failure_keeps_error_message_empty latin1_only offline
              (state_with_error []) (CollaboratorError [])
              eq_refl eq_refl)
    as (st & R & _ & He & Hc & _).
  exists st. split; [exact R|]. split; [exact He|exact Hc].
Defined.

Local Close Scope string_scope.

(* ===================================================================== *)
(** ** Properties of [simplify_and_analyze_node]: the successful call *)
(* ===================================================================== *)

Lemma guarded_persist_returns (ucd : UnicodeData) (world : World)
    (state : AgentState) (content : str) :
  result (guarded_persist ucd world state content) = Return tt.
Proof.
  unfold guarded_persist.
  destruct (parse_analysis ucd (strip content)) as [[s r] a].
  unfold try_except, emit.
  destruct (persist world state s r a) as [[[]|e] t]; reflexivity.
Qed.

(** Whatever happens to the insertion, the node returns [updated_state]. *)
Lemma analyze_success (ucd : UnicodeData) (world : World)
    (state : AgentState) (content : str) :
  strip (get (error_message state) []) = [] ->
  groq world GROQ_MODEL_LARGE (4 # 10) ANALYZE_SYSTEM_PROMPT
    (analyze_request state) = Return content ->
  simplify_and_analyze_node ucd world state
  = (Return (analyzed ucd state content),
     ModelCall GROQ_MODEL_LARGE (4 # 10) ANALYZE_SYSTEM_PROMPT
       (analyze_request state)
     :: trace (guarded_persist ucd world state content)).
Proof.
  intros H G. apply truthy_false_iff in H.
  unfold simplify_and_analyze_node. rewrite guard_strip, H.
  unfold analyzed, guarded_persist, ainvoke, lift.
  cbv [try_except bind emit ret trace snd]. rewrite G. cbv iota beta.
  destruct (parse_analysis ucd (strip content)) as [[s r] a].
  destruct (persist world state s r a) as [[[]|e] t]; simpl;
    now rewrite ?app_nil_r.
Qed.

(** Without a user id the row is never inserted; when a client is
    available the failure is printed and raised, and the handler prints
    it. *)
Lemma persist_without_user_id (ucd : UnicodeData) (world : World)
    (state : AgentState) (content : str) :
  no_user_id (user_id_from_thread (get (thread_id state) [])) = true ->
  existsb is_insert (trace (guarded_persist ucd world state content))
  = false
  /\ (supabase_configured world = true ->
      create_client world = Return tt ->
      exists before,
        trace (guarded_persist ucd world state content)
        = before ++ [Print LogUserIdIsNone;
                     Print (LogInsertError MSG_USER_ID_NONE)]).
Proof.
  intros H. unfold guarded_persist.
  destruct (parse_analysis ucd (strip content)) as [[s r] a].
  unfold persist, get_authenticated_supabase_client, get_supabase_client.
  rewrite H.
  destruct (supabase_configured world), (create_client world) as [[]|e],
    (truthy (get (user_token state) []));
    cbn [negb try_except bind emit lift ret raise trace snd fst app
         existsb is_insert orb exn_str];
    (split; [reflexivity|]); intros C1 C2; try discriminate;
    eexists [_; _; _; _]; reflexivity.
Qed.

(** Without a Supabase configuration no client is obtained and the
    derivation of the user id is not reached. *)
Lemma persist_without_client (ucd : UnicodeData) (world : World)
    (state : AgentState) (content : str) :
  supabase_configured world = false ->
  trace (guarded_persist ucd world state content)
  = [ClientRequest
       (if truthy (get (user_token state) [])
        then Some (get (user_token state) []) else None);
     Print (if truthy (get (user_token state) [])
            then LogAuthenticatedClient else LogNoUserToken)].
Proof.
  intros C. unfold guarded_persist.
  destruct (parse_analysis ucd (strip content)) as [[s r] a].
  unfold persist, get_authenticated_supabase_client, get_supabase_client.
  rewrite C.
  destruct (truthy (get (user_token state) [])); reflexivity.
Qed.

Lemma startswith_prefix (p s : str) :
  startswith p s = true <-> exists r, s = p ++ r.
Proof.
  revert s. induction p as [|a p IH]; intros s; simpl.
  - split; [intros _; now exists s|reflexivity].
  - destruct s as [|b s].
    + split; [discriminate|]. intros [r E]. discriminate E.
    + rewrite andb_true_iff, N.eqb_eq, IH. split.
      * intros [-> [r ->]]. now exists r.
      * intros [r E]. injection E as -> ->. split; [reflexivity|now exists r].
Qed.

Lemma split_on_cons (sep : char) (s : str) :
  exists w ws, split_on sep s = w :: ws.
Proof.
  induction s as [|c s (w & ws & IH)]; simpl.
  - now exists [], [].
  - destruct (c =? sep)%N; [now exists [], (split_on sep s)|].
    rewrite IH. now exists (c :: w), ws.
Qed.

(** A thread id with the prefix always has a second segment. *)
Lemma user_prefix_has_second_segment (thread : str) :
  startswith USER_PREFIX thread = true ->
  user_id_from_thread thread = nth_error (split_on UNDERSCORE thread) 1
  /\ exists u, user_id_from_thread thread = Some u.
Proof.
  intros H. unfold user_id_from_thread. rewrite H.
  apply startswith_prefix in H. destruct H as [rest ->].
  destruct (split_on_cons UNDERSCORE rest) as (w & ws & E).
  unfold USER_PREFIX. cbn -[Nat.leb]. rewrite E.
  split; [reflexivity|]. now exists w.
Qed.

(** The analysis node never raises. *)
Lemma simplify_and_analyze_returns (ucd : UnicodeData) (world : World)
    (state : AgentState) :
  exists st, result (simplify_and_analyze_node ucd world state) = Return st.
Proof.
  destruct (strip (get (error_message state) [])) as [|c e] eqn:G.
  - destruct (groq world GROQ_MODEL_LARGE (4 # 10) ANALYZE_SYSTEM_PROMPT
                (analyze_request state)) as [content|e] eqn:A.
    + rewrite (analyze_success ucd world state content G A). now eexists.
    + rewrite (analyze_model_failure ucd world state e G A). now eexists.
  - rewrite (analyze_guard ucd world state) by (rewrite G; discriminate).
    now eexists.
Qed.

(** C8, amended.  The user id computed from a thread id, when there is
    one, is the second segment of the thread id split at underscores,
    and every thread id with the prefix has one; "user_42_ab12cd" gives
    "42".  When the model has answered and the thread id gives no user
    id (none, or an empty one), the node returns the updated state, the
    same as for any thread id, and no row is inserted.  When a client
    was obtained the trace ends with the printed failure and the
    message of the [ValueError] caught by the handler; without a
    Supabase configuration there is no client, and the node only calls
    the model, asks for the client and prints which client it asked
    for: nothing is raised or printed about the user id. *)
Theorem user_id_second_segment (ucd : UnicodeData) (world : World)
    (state : AgentState) (content : str) :
  (forall thread u,
     user_id_from_thread thread = Some u ->
     nth_error (split_on UNDERSCORE thread) 1 = Some u)
  /\ (forall thread,
        startswith USER_PREFIX thread = true ->
        exists u, user_id_from_thread thread = Some u)
  /\ user_id_from_thread (lit "user_42_ab12cd") = Some (lit "42")
  /\ (strip (get (error_message state) []) = [] ->
      groq world GROQ_MODEL_LARGE (4 # 10) ANALYZE_SYSTEM_PROMPT
        (analyze_request state) = Return content ->
      no_user_id (user_id_from_thread (get (thread_id state) [])) = true ->
      result (simplify_and_analyze_node ucd world state)
      = Return (analyzed ucd state content)
      /\ existsb is_insert
           (trace (simplify_and_analyze_node ucd world state)) = false
      /\ (supabase_configured world = true ->
          create_client world = Return tt ->
          exists before,
            trace (simplify_and_analyze_node ucd world state)
            = before ++ [Print LogUserIdIsNone;
                         Print (LogInsertError MSG_USER_ID_NONE)])
      /\ (supabase_configured world = false ->
          trace (simplify_and_analyze_node ucd world state)
          = [ModelCall GROQ_MODEL_LARGE (4 # 10) ANALYZE_SYSTEM_PROMPT
               (analyze_request state);
             ClientRequest
               (if truthy (get (user_token state) [])
                then Some (get (user_token state) []) else None);
             Print (if truthy (get (user_token state) [])
                    then LogAuthenticatedClient else LogNoUserToken)])).
Proof.
  split; [|split; [|split]].
  - intros thread u. unfold user_id_from_thread.
    destruct (startswith USER_PREFIX thread); [|discriminate].
    destruct (2 <=? List.length (split_on UNDERSCORE thread));
      [tauto|discriminate].
  - intros thread H. apply (user_prefix_has_second_segment thread H).
  - reflexivity.
  - intros H G N. rewrite (analyze_success ucd world state content H G).
    destruct (persist_without_user_id ucd world state content N)
      as [NI Hlog].
    split; [reflexivity|]. split; [|split].
    + unfold trace at 1. simpl. exact NI.
    + intros C1 C2. destruct (Hlog C1 C2) as [before E].
      exists (ModelCall GROQ_MODEL_LARGE (4 # 10) ANALYZE_SYSTEM_PROMPT
                (analyze_request state) :: before).
      unfold trace at 1. simpl. now rewrite E.
    + intros C. unfold trace at 1. cbn [snd]. f_equal.
      exact (persist_without_client ucd world state content C).
Qed.

Lemma user_id_second_segment_witness :
  result (simplify_and_analyze_node latin1_only (answering (lit "ok"))
            (no_user_state (lit "sesion-7")))
  = Return (analyzed latin1_only (no_user_state (lit "sesion-7"))
              (lit "ok"))
  /\ exists before,
       trace (simplify_and_analyze_node latin1_only (answering (lit "ok"))
                (no_user_state (lit "sesion-7")))
       = before ++ [Print LogUserIdIsNone;
                    Print (LogInsertError MSG_USER_ID_NONE)].
Proof.
  destruct (proj2 (proj2 (proj2
              (user_id_second_segment latin1_only (answering (lit "ok"))
                 (no_user_state (lit "sesion-7")) (lit "ok"))))
              eq_refl eq_refl eq_refl) as (R & _ & L).
  split; [exact R|]. exact (proj1 L eq_refl eq_refl).
Defined.

(** C8, the claim as stated fails: the thread id "sesion-7" gives no
    user id, and without a Supabase configuration the node returns the
    updated state after the call of the model, the request for the
    client and the line saying which client was asked for.  Nothing is
    raised, and no line about the user id or about a failed insertion
    is printed. *)
Lemma no_client_no_user_id_error :
  let state := no_user_state (lit "sesion-7") in
  let world := unconfigured (lit "ok") in
  let node := simplify_and_analyze_node latin1_only world state in
  user_id_from_thread (lit "sesion-7") = None
  /\ result node = Return (analyzed latin1_only state (lit "ok"))
  /\ trace node
     = [ModelCall GROQ_MODEL_LARGE (4 # 10) ANALYZE_SYSTEM_PROMPT
          (analyze_request state);
        ClientRequest (Some (lit "token"));
        Print LogAuthenticatedClient]
  /\ ~ In (Print LogUserIdIsNone) (trace node)
  /\ (forall text, ~ In (Print (LogInsertError text)) (trace node)).
Proof.
  intros state world node.
  assert (T : trace node
              = [ModelCall GROQ_MODEL_LARGE (4 # 10) ANALYZE_SYSTEM_PROMPT
                   (analyze_request state);
                 ClientRequest (Some (lit "token"));
                 Print LogAuthenticatedClient]).
  { unfold node.
    rewrite (analyze_success latin1_only world state (lit "ok")
               eq_refl eq_refl).
    unfold trace at 1. cbn [snd].
    now rewrite (persist_without_client latin1_only world state (lit "ok")
                   eq_refl). }
  split; [reflexivity|]. split.
  - unfold node.
    now rewrite (analyze_success latin1_only world state (lit "ok")
                   eq_refl eq_refl).
  - split; [exact T|]. rewrite T. split.
    + intros [H|[H|[H|[]]]]; discriminate H.
    + intros text [H|[H|[H|[]]]]; discriminate H.
Qed.

(** C9, amended.  When the parsing loop leaves the explanation empty,
    [simplified_explanation] is the first 500 characters of the answer
    of the model after trimming, that is of [response.content.strip()]. *)
Theorem empty_explanation_fallback (ucd : UnicodeData) (world : World)
    (state : AgentState) (content : str) :
  strip (get (error_message state) []) = [] ->
  groq world GROQ_MODEL_LARGE (4 # 10) ANALYZE_SYSTEM_PROMPT
    (analyze_request state) = Return content ->
  explanation (parse_lines ucd (split_on NL (strip content))) = [] ->
  exists st,
    result (simplify_and_analyze_node ucd world state) = Return st
    /\ simplified_explanation st = Some (firstn 500 (strip content)).
Proof.
  intros H G P. exists (analyzed ucd state content).
  rewrite (analyze_success ucd world state content H G).
  split; [reflexivity|].
  unfold analyzed, parse_analysis. now rewrite P.
Qed.

Lemma empty_explanation_fallback_witness :
  exists st,
    result (simplify_and_analyze_node latin1_only
              (answering unstructured_answer) (state_with_error []))
    = Return st
    /\ simplified_explanation st
       = Some (firstn 500 (strip unstructured_answer)).
Proof.
  apply (empty_explanation_fallback latin1_only
           (answering unstructured_answer) (state_with_error [])
           unstructured_answer); reflexivity.
Defined.

(** C9, the claim as stated fails: the answer of the model ends with a
    newline, the loop keeps no explanation, and the explanation returned
    is the trimmed answer, not the first 500 characters of the answer
    itself. *)
Lemma fallback_is_not_the_raw_answer :
  let node := simplify_and_analyze_node latin1_only
                (answering unstructured_answer) (state_with_error []) in
  explanation (parse_lines latin1_only
                 (split_on NL (strip unstructured_answer))) = []
  /\ (exists st,
        result node = Return st
        /\ simplified_explanation st = Some (strip unstructured_answer))
  /\ strip unstructured_answer <> firstn 500 unstructured_answer.
Proof.
  intros node. split; [reflexivity|]. split.
  - exists (analyzed latin1_only (state_with_error [])
              unstructured_answer).
    split; vm_compute; reflexivity.
  - intros H. apply (f_equal (@List.length char)) in H.
    vm_compute in H. discriminate H.
Qed.

(* ===================================================================== *)
(** ** The classification grammar *)
(* ===================================================================== *)

Section ClassificationGrammar.
Variable ucd : UnicodeData.

Lemma tipo_not_idioma (line : str) :
  startswith TIPO line = true -> startswith IDIOMA line = false.
Proof.
  intros H. apply startswith_prefix in H. destruct H as [r ->].
  reflexivity.
Qed.

Lemma classify_line_keeps_doc_type (acc : str * str) (line : str) :
  startswith TIPO line = false ->
  fst (classify_line ucd acc line) = fst acc.
Proof.
  intros H. unfold classify_line. destruct acc as [d l]. rewrite H.
  now destruct (startswith IDIOMA line).
Qed.

Lemma classify_line_keeps_language (acc : str * str) (line : str) :
  startswith IDIOMA line = false ->
  snd (classify_line ucd acc line) = snd acc.
Proof.
  intros H. unfold classify_line. destruct acc as [d l]. rewrite H.
  now destruct (startswith TIPO line).
Qed.

Lemma classify_line_tipo (acc : str * str) (line : str) :
  startswith TIPO line = true ->
  fst (classify_line ucd acc line) = strip (replace TIPO [] line).
Proof.
  intros H. unfold classify_line. destruct acc as [d l]. now rewrite H.
Qed.

Lemma classify_line_idioma (acc : str * str) (line : str) :
  startswith IDIOMA line = true ->
  snd (classify_line ucd acc line)
  = lower ucd (strip (replace IDIOMA [] line)).
Proof.
  intros H. unfold classify_line. destruct acc as [d l].
  destruct (startswith TIPO line) eqn:T.
  - apply tipo_not_idioma in T. congruence.
  - now rewrite H.
Qed.

Lemma fold_keeps_doc_type (lines : list str) (acc : str * str) :
  (forall l, In l lines -> startswith TIPO l = false) ->
  fst (fold_left (classify_line ucd) lines acc) = fst acc.
Proof.
  revert acc. induction lines as [|line lines IH]; intros acc H.
  - reflexivity.
  - simpl. rewrite IH by (intros l Hl; apply H; now right).
    apply classify_line_keeps_doc_type. apply H. now left.
Qed.

Lemma fold_keeps_language (lines : list str) (acc : str * str) :
  (forall l, In l lines -> startswith IDIOMA l = false) ->
  snd (fold_left (classify_line ucd) lines acc) = snd acc.
Proof.
  revert acc. induction lines as [|line lines IH]; intros acc H.
  - reflexivity.
  - simpl. rewrite IH by (intros l Hl; apply H; now right).
    apply classify_line_keeps_language. apply H. now left.
Qed.

(** C5, amended.  When the text passes the checks and the model
    answers, the node trims the answer, splits it into lines and
    returns the document type and the language read from these lines.
    For the three lines of the example they are "Contrato de
    arrendamiento" and "es"; when no line of the trimmed answer starts
    with [TIPO:] the document type is "desconocido", when none starts
    with [IDIOMA:] the language is "es"; and the last line that starts
    with a prefix decides its field. *)
Theorem classification_grammar (world : World) (state : AgentState)
    (content : str) :
  (forall k, ~ fails ucd k (get (raw_text state) [])) ->
  groq world GROQ_MODEL (3 # 10) CLASSIFY_SYSTEM_PROMPT
    (classify_human_message (get (raw_text state) [])) = Return content ->
  let lines := split_on NL (strip content) in
  exists d l,
    result (extract_and_classify_node ucd world state)
    = Return (set_error_message []
                (set_language l (set_doc_type d state)))
    /\ (content = lit "TIPO: Contrato de arrendamiento
CATEGORÍA: LEGAL
IDIOMA: es" ->
        d = lit "Contrato de arrendamiento" /\ l = lit "es")
    /\ ((forall line, In line lines -> startswith TIPO line = false) ->
        d = DESCONOCIDO)
    /\ ((forall line, In line lines -> startswith IDIOMA line = false) ->
        l = ES)
    /\ (forall before line after,
          lines = before ++ line :: after ->
          startswith TIPO line = true ->
          (forall x, In x after -> startswith TIPO x = false) ->
          d = strip (replace TIPO [] line))
    /\ (forall before line after,
          lines = before ++ line :: after ->
          startswith IDIOMA line = true ->
          (forall x, In x after -> startswith IDIOMA x = false) ->
          l = lower ucd (strip (replace IDIOMA [] line))).
Proof.
  intros P G lines.
  rewrite node_text_checks, (proj2 (text_checks_none ucd _) P).
  destruct (classify_with_model_calls ucd world state) as (st & E & R & _).
  rewrite E, (R content G). fold lines. clear E R st.
  destruct (parse_classification ucd lines) as [d l] eqn:C.
  assert (D : d = fst (parse_classification ucd lines)) by now rewrite C.
  assert (L : l = snd (parse_classification ucd lines)) by now rewrite C.
  exists d, l. split; [reflexivity|]. split.
  { intros ->. vm_compute in C. now injection C as <- <-. }
  split; [intros H; rewrite D; exact (fold_keeps_doc_type lines (_, _) H)|].
  split; [intros H; rewrite L; exact (fold_keeps_language lines (_, _) H)|].
  split.
  - intros before line after S T A. rewrite D, S.
    unfold parse_classification. rewrite fold_left_app. simpl.
    rewrite (fold_keeps_doc_type after _ A).
    now apply classify_line_tipo.
  - intros before line after S I A. rewrite L, S.
    unfold parse_classification. rewrite fold_left_app. simpl.
    rewrite (fold_keeps_language after _ A).
    now apply classify_line_idioma.
Qed.
End ClassificationGrammar.

Lemma classification_grammar_witness :
  exists d l,
    result (extract_and_classify_node latin1_only
              (answering (lit "TIPO: Multa
IDIOMA: EN
TIPO: Contrato
CATEGORÍA: LEGAL
"))
              (initial_state lease_text [] []))
    = Return (set_error_message []
                (set_language l
                   (set_doc_type d (initial_state lease_text [] []))))
    /\ d = lit "Contrato" /\ l = lit "en".
Proof.
  destruct (classification_grammar latin1_only
              (answering (lit "TIPO: Multa
IDIOMA: EN
TIPO: Contrato
CATEGORÍA: LEGAL
"))
              (initial_state lease_text [] [])
              (lit "TIPO: Multa
IDIOMA: EN
TIPO: Contrato
CATEGORÍA: LEGAL
"))
    as (d & l & R & _ & _ & _ & T & I).
  - apply text_checks_none. vm_compute. reflexivity.
  - reflexivity.
  - exists d, l. split; [exact R|]. split.
    + apply (T [lit "TIPO: Multa"; lit "IDIOMA: EN"] (lit "TIPO: Contrato")
               [lit "CATEGORÍA: LEGAL"]).
      * vm_compute. reflexivity.
      * reflexivity.
      * intros x [<-|[]]. reflexivity.
    + apply (I [lit "TIPO: Multa"] (lit "IDIOMA: EN")
               [lit "TIPO: Contrato"; lit "CATEGORÍA: LEGAL"]).
      * vm_compute. reflexivity.
      * reflexivity.
      * intros x [<-|[<-|[]]]; reflexivity.
Defined.

(** C5, the claim as stated fails: no line of the answer " TIPO: Multa"
    starts with [TIPO:], its only line starting with a space, yet the
    node returns the document type "Multa" and not "desconocido",
    because it trims the answer before it splits it into lines. *)
Lemma untrimmed_answer_is_classified :
  let content := lit " TIPO: Multa" in
  let state := initial_state lease_text [] [] in
  (forall line,
     In line (split_on NL content) -> startswith TIPO line = false)
  /\ (forall k, ~ fails latin1_only k lease_text)
  /\ result (extract_and_classify_node latin1_only (answering content)
               state)
     = Return (set_error_message []
                 (set_language ES (set_doc_type (lit "Multa") state)))
  /\ lit "Multa" <> DESCONOCIDO.
Proof.
  intros content state.
  split; [intros line [<-|[]]; reflexivity|].
  split; [apply text_checks_none; vm_compute; reflexivity|].
  split; [vm_compute; reflexivity|discriminate].
Qed.

(* ===================================================================== *)
(** ** The analysis grammar *)
(* ===================================================================== *)

Lemma last_app_nonempty (a t : str) (d e : char) :
  t <> [] -> last (a ++ t) d = last t e.
Proof.
  intros H. destruct (exists_last H) as (t' & x & ->).
  now rewrite app_assoc, !last_last.
Qed.

Lemma item_text_trimmed (set : str) (text : str) :
  item_text set text -> trimmed text /\ truthy text = true.
Proof.
  destruct text as [|c text]; [intros []|].
  intros (_ & H1 & H2). split; [now split|reflexivity].
Qed.

Lemma item_text_lstrip (set prefix text : str) :
  forallb (fun c => mem c set) prefix = true ->
  item_text set text ->
  lstrip_chars set (prefix ++ text) = text.
Proof.
  intros P H. unfold lstrip_chars. rewrite dropwhile_app_all by exact P.
  destruct text as [|c text]; [destruct H|].
  destruct H as (H & _). now apply dropwhile_head_false.
Qed.

Lemma ascii_digit_cases (c : char) :
  ascii_digit c = true ->
  (c = 48 \/ c = 49 \/ c = 50 \/ c = 51 \/ c = 52 \/ c = 53 \/ c = 54
   \/ c = 55 \/ c = 56 \/ c = 57)%N.
Proof.
  unfold ascii_digit, in_range. rewrite andb_true_iff, !N.leb_le. lia.
Qed.

Lemma ascii_digit_facts (c : char) :
  ascii_digit c = true ->
  mem c SUMMARY_STRIP = true /\ isspace c = false
  /\ forall rest, header_of (c :: rest) = None.
Proof.
  intros H. apply ascii_digit_cases in H.
  repeat (destruct H as [H|H]; [subst c; repeat split|]);
    subst c; repeat split.
Qed.

Section AnalysisGrammar.
Variable ucd : UnicodeData.

Lemma isdigit_ascii (c : char) : ascii_digit c = true -> isdigit ucd c = true.
Proof.
  intros H. unfold isdigit, latin1_digit. rewrite H.
  apply ascii_digit_cases in H.
  repeat (destruct H as [H|H]; [subst c; reflexivity|]).
  subst c; reflexivity.
Qed.

(** A header line sets the section and nothing else. *)
Lemma analyze_line_header (st : parse_state) (raw_line : str)
    (sec : section) :
  header_of (strip raw_line) = Some sec ->
  analyze_line ucd st raw_line
  = mkParse (Some sec) (explanation st) (risks st) (actions st).
Proof.
  unfold header_of, analyze_line.
  destruct (startswith RESUMEN (strip raw_line));
    [intros E; injection E as <-; reflexivity|].
  destruct (startswith RIESGOS (strip raw_line));
    [intros E; injection E as <-; reflexivity|].
  destruct (startswith PASOS (strip raw_line));
    [intros E; injection E as <-; reflexivity|discriminate].
Qed.

Lemma header_of_none (line : str) :
  header_of line = None ->
  startswith RESUMEN line = false /\ startswith RIESGOS line = false
  /\ startswith PASOS line = false.
Proof.
  unfold header_of.
  destruct (startswith RESUMEN line); [discriminate|].
  destruct (startswith RIESGOS line); [discriminate|].
  destruct (startswith PASOS line); [discriminate|]. now repeat split.
Qed.

Lemma analyze_line_blank (st : parse_state) (raw_line : str) :
  nonblank raw_line = false -> analyze_line ucd st raw_line = st.
Proof.
  unfold nonblank. intros H. apply truthy_false_iff in H.
  unfold analyze_line. rewrite H. simpl.
  now destruct (current_section st) as [[]|].
Qed.

Lemma analyze_line_before_sections (st : parse_state) (raw_line : str) :
  current_section st = None ->
  header_of (strip raw_line) = None ->
  analyze_line ucd st raw_line = st.
Proof.
  intros S H. apply header_of_none in H as (H1 & H2 & H3).
  unfold analyze_line. now rewrite H1, H2, H3, S.
Qed.

Lemma analyze_line_numbered (st : parse_state) (line text : str) :
  current_section st = Some resumen ->
  numbered_item line text ->
  analyze_line ucd st line
  = mkParse (Some resumen)
      (explanation st ++ (if truthy (explanation st) then [NL] else [])
       ++ bulleted text)
      (risks st) (actions st).
Proof.
  intros S (num & Hn & Hd & -> & Ht).
  destruct num as [|d num]; [congruence|].
  simpl in Hd. apply andb_true_iff in Hd as [Hd Hnum].
  destruct (ascii_digit_facts d Hd) as (Dm & Ds & Dh).
  destruct (item_text_trimmed _ _ Ht) as [Tt Tn].
  rewrite app_assoc.
  change (((d :: num) ++ [46%N; SPACE]) ++ text)
    with (d :: (num ++ [46%N; SPACE]) ++ text).
  assert (P : forallb (fun c => mem c SUMMARY_STRIP)
                (d :: num ++ [46%N; SPACE]) = true).
  { cbn [forallb]. rewrite Dm, forallb_app. cbn [andb].
    apply andb_true_iff. split; [|reflexivity].
    apply forallb_forall. intros x Hx.
    apply (proj1 (ascii_digit_facts x
             (proj1 (forallb_forall _ _) Hnum x Hx))). }
  assert (E : strip (d :: (num ++ [46%N; SPACE]) ++ text)
              = d :: (num ++ [46%N; SPACE]) ++ text).
  { apply strip_trimmed. unfold trimmed. split; [exact Ds|].
    change (d :: (num ++ [46%N; SPACE]) ++ text)
      with ((d :: num ++ [46%N; SPACE]) ++ text).
    destruct text as [|c text]; [destruct Ht|].
    rewrite (last_app_nonempty _ (c :: text) d c) by discriminate.
    exact (proj2 (proj2 Ht)). }
  unfold analyze_line. rewrite E.
  destruct (header_of_none _ (Dh ((num ++ [46%N; SPACE]) ++ text)))
    as (H1 & H2 & H3).
  rewrite H1, H2, H3, S. cbn [truthy andb].
  rewrite (isdigit_ascii d Hd), orb_true_r.
  change (d :: (num ++ [46%N; SPACE]) ++ text)
    with ((d :: num ++ [46%N; SPACE]) ++ text).
  rewrite (item_text_lstrip _ _ _ P Ht).
  rewrite (strip_trimmed _ Tt), Tn. reflexivity.
Qed.

Lemma bullet_line_facts (marker : char) (text : str) :
  (marker = 45%N \/ marker = 42%N) ->
  item_text BULLET_STRIP text ->
  strip (marker :: SPACE :: text) = marker :: SPACE :: text
  /\ header_of (marker :: SPACE :: text) = None
  /\ (startswith DASH (marker :: SPACE :: text)
      || startswith STAR (marker :: SPACE :: text)) = true
  /\ strip (lstrip_chars BULLET_STRIP (marker :: SPACE :: text)) = text
  /\ truthy text = true.
Proof.
  intros Hm Ht.
  destruct (item_text_trimmed _ _ Ht) as [Tt Tn].
  split; [|split; [|split; [|split]]].
  - apply strip_trimmed. unfold trimmed. split.
    + destruct Hm as [-> | ->]; reflexivity.
    + change (marker :: SPACE :: text) with ([marker; SPACE] ++ text).
      destruct text as [|c text]; [destruct Ht|].
      rewrite (last_app_nonempty _ (c :: text) marker c) by discriminate.
      exact (proj2 (proj2 Ht)).
  - destruct Hm as [-> | ->]; reflexivity.
  - destruct Hm as [-> | ->]; reflexivity.
  - change (marker :: SPACE :: text) with ([marker; SPACE] ++ text).
    rewrite item_text_lstrip; [now apply strip_trimmed| |exact Ht].
    destruct Hm as [-> | ->]; reflexivity.
  - exact Tn.
Qed.

Lemma analyze_line_risk (st : parse_state) (line text : str) :
  current_section st = Some riesgos ->
  bullet_item line text ->
  analyze_line ucd st line
  = mkParse (Some riesgos) (explanation st) (risks st ++ [text])
      (actions st).
Proof.
  intros S (m & Hm & -> & Ht).
  destruct (bullet_line_facts m text Hm Ht) as (E & H & B & C & T).
  apply header_of_none in H as (H1 & H2 & H3).
  unfold analyze_line. rewrite E, H1, H2, H3, S.
  cbn [truthy andb]. rewrite B, C, T. reflexivity.
Qed.

Lemma analyze_line_action (st : parse_state) (line text : str) :
  current_section st = Some acciones ->
  bullet_item line text ->
  analyze_line ucd st line
  = mkParse (Some acciones) (explanation st) (risks st)
      (actions st ++ [text]).
Proof.
  intros S (m & Hm & -> & Ht).
  destruct (bullet_line_facts m text Hm Ht) as (E & H & B & C & T).
  apply header_of_none in H as (H1 & H2 & H3).
  unfold analyze_line. rewrite E, H1, H2, H3, S.
  cbn [truthy andb]. rewrite B, C, T. reflexivity.
Qed.
End AnalysisGrammar.

Lemma join_cons (sep p : str) (ps : list str) :
  join sep (p :: ps) = p ++ List.concat (map (fun q => sep ++ q) ps).
Proof.
  revert p. induction ps as [|q ps IH]; intros p.
  - simpl. now rewrite app_nil_r.
  - change (join sep (p :: q :: ps)) with (p ++ sep ++ join sep (q :: ps)).
    rewrite IH. simpl. now rewrite <- !app_assoc.
Qed.

Lemma append_bullets_nonempty (e : str) (ts : list str) :
  truthy e = true ->
  append_bullets e ts
  = e ++ List.concat (map (fun t => [NL] ++ bulleted t) ts).
Proof.
  revert e. induction ts as [|t ts IH]; intros e H.
  - simpl. now rewrite app_nil_r.
  - unfold append_bullets in *. simpl fold_left. rewrite H.
    rewrite IH by (destruct e; [discriminate H|reflexivity]).
    simpl. now rewrite <- !app_assoc.
Qed.

Lemma append_bullets_join (ts : list str) :
  append_bullets [] ts = join [NL] (map bulleted ts).
Proof.
  destruct ts as [|t ts]; [reflexivity|].
  unfold append_bullets. simpl fold_left.
  fold (append_bullets (bulleted t) ts).
  rewrite append_bullets_nonempty by reflexivity.
  simpl map. rewrite join_cons, map_map. reflexivity.
Qed.

Section AnalysisSections.
Variable ucd : UnicodeData.

Lemma fold_skip_blank (lines : list str) (st : parse_state) :
  fold_left (analyze_line ucd) lines st
  = fold_left (analyze_line ucd) (filter nonblank lines) st.
Proof.
  revert st. induction lines as [|l lines IH]; intros st;
    [reflexivity|].
  simpl. destruct (nonblank l) eqn:B.
  - simpl. apply IH.
  - rewrite (analyze_line_blank ucd st l B). apply IH.
Qed.

Lemma fold_preamble (lines : list str) (st : parse_state) :
  current_section st = None ->
  Forall (fun l => header_of (strip l) = None) lines ->
  fold_left (analyze_line ucd) lines st = st.
Proof.
  intros S H. induction H as [|l lines Hl _ IH]; [reflexivity|].
  simpl. now rewrite (analyze_line_before_sections ucd st l S Hl).
Qed.

Lemma fold_summary (lines ts : list str) (st : parse_state) :
  current_section st = Some resumen ->
  Forall2 numbered_item lines ts ->
  fold_left (analyze_line ucd) lines st
  = mkParse (Some resumen) (append_bullets (explanation st) ts)
      (risks st) (actions st).
Proof.
  intros S H. revert st S.
  induction H as [|l t lines ts Hl _ IH]; intros st S.
  - destruct st; simpl in *; now subst.
  - simpl. rewrite (analyze_line_numbered ucd st l t S Hl).
    now rewrite IH.
Qed.

Lemma fold_risks (lines rs : list str) (st : parse_state) :
  current_section st = Some riesgos ->
  Forall2 bullet_item lines rs ->
  fold_left (analyze_line ucd) lines st
  = mkParse (Some riesgos) (explanation st) (risks st ++ rs)
      (actions st).
Proof.
  intros S H. revert st S.
  induction H as [|l t lines ts Hl _ IH]; intros st S.
  - destruct st; simpl in *; subst. now rewrite app_nil_r.
  - simpl. rewrite (analyze_line_risk ucd st l t S Hl).
    rewrite IH by reflexivity. simpl. now rewrite <- app_assoc.
Qed.

Lemma fold_actions (lines acts : list str) (st : parse_state) :
  current_section st = Some acciones ->
  Forall2 bullet_item lines acts ->
  fold_left (analyze_line ucd) lines st
  = mkParse (Some acciones) (explanation st) (risks st)
      (actions st ++ acts).
Proof.
  intros S H. revert st S.
  induction H as [|l t lines ts Hl _ IH]; intros st S.
  - destruct st; simpl in *; subst. now rewrite app_nil_r.
  - simpl. rewrite (analyze_line_action ucd st l t S Hl).
    rewrite IH by reflexivity. simpl. now rewrite <- app_assoc.
Qed.

(** The three sections, with any number of items; blank lines inside
    a section and lines before the first header are ignored. *)
Lemma parse_sections (preamble S R A : list str) (hS hR hA : str)
    (ts rs acts : list str) :
  Forall (fun l => header_of (strip l) = None) preamble ->
  header_of (strip hS) = Some resumen ->
  header_of (strip hR) = Some riesgos ->
  header_of (strip hA) = Some acciones ->
  Forall2 numbered_item (filter nonblank S) ts ->
  Forall2 bullet_item (filter nonblank R) rs ->
  Forall2 bullet_item (filter nonblank A) acts ->
  parse_lines ucd (preamble ++ hS :: S ++ hR :: R ++ hA :: A)
  = mkParse (Some acciones) (join [NL] (map bulleted ts)) rs acts.
Proof.
  intros Hp HS HR HA Fs Fr Fa. unfold parse_lines.
  rewrite fold_left_app, (fold_preamble preamble parse_start eq_refl Hp).
  simpl fold_left. rewrite (analyze_line_header ucd _ hS resumen HS).
  rewrite fold_left_app, (fold_skip_blank S).
  rewrite (fold_summary (filter nonblank S) ts)
    by first [reflexivity | assumption].
  simpl fold_left. rewrite (analyze_line_header ucd _ hR riesgos HR).
  rewrite fold_left_app, (fold_skip_blank R).
  rewrite (fold_risks (filter nonblank R) rs)
    by first [reflexivity | assumption].
  simpl fold_left. rewrite (analyze_line_header ucd _ hA acciones HA).
  rewrite (fold_skip_blank A).
  rewrite (fold_actions (filter nonblank A) acts)
    by first [reflexivity | assumption].
  simpl. now rewrite append_bullets_join.
Qed.

(** The answers on which the parser does what the prompt intends.  A
    line starting, once trimmed, with a header sets the current section
    and adds nothing to the explanation, the risks or the actions.  For
    an answer made of a summary section with 3 lines of the form
    number, dot, space, text, a risks section with 2 lines and an
    actions section with 1 line of the form dash or star, space, text,
    where no text begins with a character the clean-up strips, the
    explanation is the 3 texts, each after a bullet and a space, joined
    by newlines, and the risks and the actions are the 2 and the 1
    texts, in the order of the answer. *)
Theorem analysis_grammar_sections :
  (forall st raw_line sec,
     header_of (strip raw_line) = Some sec ->
     analyze_line ucd st raw_line
     = mkParse (Some sec) (explanation st) (risks st) (actions st))
  /\ (forall response_text preamble hS S hR R hA A t1 t2 t3 r1 r2 a1,
        split_on NL response_text
        = preamble ++ hS :: S ++ hR :: R ++ hA :: A ->
        Forall (fun l => header_of (strip l) = None) preamble ->
        header_of (strip hS) = Some resumen ->
        header_of (strip hR) = Some riesgos ->
        header_of (strip hA) = Some acciones ->
        Forall2 numbered_item (filter nonblank S) [t1; t2; t3] ->
        Forall2 bullet_item (filter nonblank R) [r1; r2] ->
        Forall2 bullet_item (filter nonblank A) [a1] ->
        parse_analysis ucd response_text
        = (join [NL] [bulleted t1; bulleted t2; bulleted t3],
           [r1; r2], [a1])).
Proof.
  split; [apply analyze_line_header|].
  intros text preamble hS S hR R hA A t1 t2 t3 r1 r2 a1
    E Hp HS HR HA Fs Fr Fa.
  unfold parse_analysis. rewrite E.
  rewrite (parse_sections preamble S R A hS hR hA
             [t1; t2; t3] [r1; r2] [a1] Hp HS HR HA Fs Fr Fa).
  reflexivity.
Qed.
End AnalysisSections.

Lemma analysis_grammar_sections_witness :
  parse_analysis latin1_only structured_answer
  = (join [NL]
       [bulleted (lit "El contrato dura un año");
        bulleted (lit "La renta es de 900 euros al mes");
        bulleted (lit "El depósito equivale a dos meses")],
     [lit "Penalización por retraso en el pago";
      lit "No hay prórroga automática"],
     [lit "Revisa las fechas del contrato"]).
Proof.
  apply (proj2 (analysis_grammar_sections latin1_only)
           structured_answer []
           (lit "RESUMEN:")
           [lit "1. El contrato dura un año";
            lit "2. La renta es de 900 euros al mes";
            lit "3. El depósito equivale a dos meses"; []]
           (lit "LETRA CHICA / RIESGOS:")
           [lit "- Penalización por retraso en el pago";
            lit "- No hay prórroga automática"; []]
           (lit "PRÓXIMOS PASOS:")
           [lit "- Revisa las fechas del contrato"]).
  - vm_compute. reflexivity.
  - constructor.
  - reflexivity.
  - reflexivity.
  - reflexivity.
  - vm_compute. repeat constructor.
    + numbered_item_by [49%N].
    + numbered_item_by [50%N].
    + numbered_item_by [51%N].
  - vm_compute. repeat constructor; bullet_item_by.
  - vm_compute. repeat constructor; bullet_item_by.
Defined.

(** C6.  The clean-up of a list item, [lstrip] with a set of
    characters, removes more than the list marker.  The answer below
    has 3 numbered lines, 2 bullet lines and 1 bullet line, every item
    text is non-empty and trimmed, yet the explanation the node returns
    has 2 lines, the third summary point being stripped to nothing and
    dropped, and the first risk has lost its two leading stars. *)
Lemma marker_like_text_is_stripped :
  let t1 := lit "Contrato de alquiler de vivienda" in
  let t2 := lit "La renta es de 900 euros al mes" in
  let t3 := lit "2024-2025" in
  let r1 := lit "**Penalización** por retraso en el pago" in
  let r2 := lit "No hay prórroga automática" in
  let a1 := lit "Revisa las fechas del contrato" in
  let state := initial_state lease_text (lit "user_42_ab12cd") [] in
  split_on NL marker_like_answer
  = [RESUMEN; lit "1. " ++ t1; lit "2. " ++ t2; lit "3. " ++ t3; [];
     RIESGOS; lit "- " ++ r1; lit "- " ++ r2; [];
     PASOS; lit "- " ++ a1]
  /\ plain_text t3 /\ plain_text r1
  /\ parse_analysis latin1_only marker_like_answer
     = (join [NL] [bulleted t1; bulleted t2],
        [lit "Penalización** por retraso en el pago"; r2], [a1])
  /\ parse_analysis latin1_only marker_like_answer
     <> (join [NL] [bulleted t1; bulleted t2; bulleted t3],
         [r1; r2], [a1])
  /\ exists st,
       result (simplify_and_analyze_node latin1_only
                 (answering marker_like_answer) state) = Return st
       /\ simplified_explanation st
          = Some (join [NL] [bulleted t1; bulleted t2])
       /\ identified_risks st
          = Some [lit "Penalización** por retraso en el pago"; r2]
       /\ action_items st = Some [a1].
Proof.
  intros t1 t2 t3 r1 r2 a1 state.
  assert (E : parse_analysis latin1_only marker_like_answer
              = (join [NL] [bulleted t1; bulleted t2],
                 [lit "Penalización** por retraso en el pago"; r2], [a1]))
    by (vm_compute; reflexivity).
  split; [vm_compute; reflexivity|].
  split; [split; [discriminate|vm_compute; now split]|].
  split; [split; [discriminate|vm_compute; now split]|].
  split; [exact E|].
  split.
  - rewrite E. intros H.
    apply (f_equal (fun p => List.length (fst (fst p)))) in H.
    vm_compute in H. discriminate H.
  - exists (analyzed latin1_only state marker_like_answer).
    split.
    + now rewrite (analyze_success latin1_only
                     (answering marker_like_answer) state
                     marker_like_answer eq_refl eq_refl).
    + repeat split; vm_compute; reflexivity.
Qed.

Local Open Scope string_scope.

Lemma analysis_runs_iff_no_error_witness :
  In (RunNode "simplify_and_analyze")
    (trace (ainvoke_graph
              (workflow latin1_only (answering structured_answer))
              (initial_state lease_text (lit "user_42_ab12cd") [])))
  /\ ~ In (RunNode "simplify_and_analyze")
         (trace (ainvoke_graph (workflow latin1_only offline)
                   (initial_state (lit "hola") [] []))).
Proof.
  split.
  - destruct (analysis_runs_iff_no_error latin1_only
                (answering structured_answer)
                (initial_state lease_text (lit "user_42_ab12cd") []))
      as (st1 & t1 & E & Hrun & _).
    apply Hrun. vm_compute in E. injection E as <- _. reflexivity.
  - destruct (analysis_runs_iff_no_error latin1_only offline
                (initial_state (lit "hola") [] []))
      as (st1 & t1 & E & Hrun & _).
    intros H. apply Hrun in H. vm_compute in E. injection E as <- _.
    vm_compute in H. discriminate H.
Defined.

Local Close Scope string_scope.

(* ===================================================================== *)
(** ** More on the string built-ins *)
(* ===================================================================== *)

Lemma dropwhile_decomp (p : char -> bool) (s : str) :
  exists a, s = a ++ dropwhile p s /\ forallb p a = true.
Proof.
  induction s as [|c s (a & E & F)]; [now exists []|].
  simpl. destruct (p c) eqn:P.
  - exists (c :: a). simpl. rewrite P, F. split; [now f_equal|reflexivity].
  - now exists [].
Qed.

Lemma dropwhile_head (p : char -> bool) (s : str) (c : char) (r : str) :
  dropwhile p s = c :: r -> p c = false.
Proof.
  induction s as [|x s IH]; [discriminate|].
  simpl. destruct (p x) eqn:P; [exact IH|].
  intros E. injection E as <- _. exact P.
Qed.

(** [s.strip()] has no whitespace at either end. *)
Lemma strip_is_trimmed (s : str) : trimmed (strip s).
Proof.
  unfold strip, rstrip.
  destruct (dropwhile_decomp isspace (rev (lstrip s))) as (a & E & _).
  destruct (dropwhile isspace (rev (lstrip s))) as [|x r] eqn:D.
  - exact I.
  - assert (Hx := dropwhile_head _ _ _ _ D).
    apply (f_equal (@rev char)) in E.
    rewrite rev_involutive, rev_app_distr in E.
    simpl rev in *.
    destruct (rev r ++ [x]) as [|c t] eqn:R.
    + destruct (rev r); discriminate R.
    + unfold trimmed. split.
      * simpl in E. unfold lstrip in E.
        exact (dropwhile_head _ _ _ _ E).
      * rewrite <- R, last_last. exact Hx.
Qed.

Lemma strip_idempotent (s : str) : strip (strip s) = strip s.
Proof. apply strip_trimmed, strip_is_trimmed. Qed.

Lemma firstn_cap (n : nat) (s : str) :
  (if n <? List.length s then firstn n s else s) = firstn n s.
Proof.
  destruct (n <? List.length s) eqn:B; [reflexivity|].
  apply Nat.ltb_ge in B. symmetry. now apply firstn_all2.
Qed.

(* ===================================================================== *)
(** ** Properties of [quality_check_node] *)
(* ===================================================================== *)

Lemma Qltb_trans_le (x : Q) :
  Qltb x (6 # 10) = false -> Qltb x (1 # 2) = false.
Proof.
  intros H. destruct (Qltb x (1 # 2)) eqn:B; [|reflexivity].
  apply Qltb_spec in B.
  assert (L : (x < 6 # 10)%Q).
  { apply (Qlt_trans _ (1 # 2)); [exact B|reflexivity]. }
  apply Qltb_spec in L. congruence.
Qed.

Lemma quality_check_text (state : AgentState) :
  (if truthy (get (raw_text state) []) then strip (get (raw_text state) [])
   else [])
  = strip (get (raw_text state) []).
Proof. now destruct (get (raw_text state) []). Qed.

(** X1.  [quality_check_node] sets [confidence_score] to 0.0 exactly
    when the trimmed text has fewer than 50 characters or less than 60
    percent of alphanumeric or whitespace characters; otherwise it sets
    it to the incoming score when that is positive, and to 1.0 when it
    is absent or not positive.  It keeps a [doc_type] that is present,
    and changes no other field. *)
Theorem quality_check_verdict (ucd : UnicodeData) (state : AgentState) :
  let text := strip (get (raw_text state) []) in
  let st := quality_check_node ucd state in
  (confidence_score st = Some 0%Q
   <-> List.length text < 50 \/ (alphanumeric_ratio ucd text < 6 # 10)%Q)
  /\ (exists c, confidence_score st = Some c
                /\ (c = 0%Q \/ (0 < c)%Q))
  /\ (~ (List.length text < 50
         \/ (alphanumeric_ratio ucd text < 6 # 10)%Q) ->
      (forall c,
         confidence_score state = Some c -> (0 < c)%Q ->
         confidence_score st = Some c)
      /\ (forall c,
            confidence_score state = Some c -> ~ (0 < c)%Q ->
            confidence_score st = Some 1%Q)
      /\ (confidence_score state = None ->
          confidence_score st = Some 1%Q))
  /\ (forall d, doc_type state = Some d -> doc_type st = Some d)
  /\ raw_text st = raw_text state
  /\ simplified_explanation st = simplified_explanation state
  /\ identified_risks st = identified_risks state
  /\ action_items st = action_items state
  /\ language st = language state
  /\ error_message st = error_message state
  /\ thread_id st = thread_id state
  /\ user_token st = user_token state.
Proof.
  intros text st. unfold st, quality_check_node.
  rewrite quality_check_text. fold text. unfold MIN_TEXT_LENGTH.
  rewrite truthy_length.
  destruct (negb (0 <? List.length text) || (List.length text <? 50))
    eqn:B1.
  - assert (L : List.length text < 50).
    { apply orb_true_iff in B1 as [B|B].
      - apply negb_true_iff, Nat.ltb_ge in B. lia.
      - now apply Nat.ltb_lt. }
    simpl. split; [split; [now left|reflexivity]|].
    split; [exists 0%Q; split; [reflexivity|now left]|].
    split; [intros N; exfalso; apply N; now left|].
    split; [intros d ->; reflexivity|]. repeat split.
  - apply orb_false_iff in B1 as [B0 B1].
    apply negb_false_iff in B0. apply Nat.ltb_ge in B1.
    rewrite B0. cbn [andb].
    destruct (Qltb (alphanumeric_ratio ucd text) (6 # 10)) eqn:B2.
    + apply Qltb_spec in B2. simpl.
      split; [split; [now right|reflexivity]|].
      split; [exists 0%Q; split; [reflexivity|now left]|].
      split; [intros N; exfalso; apply N; now right|].
      split; [intros d ->; reflexivity|]. repeat split.
    + assert (N2 : ~ (alphanumeric_ratio ucd text < 6 # 10)%Q).
      { rewrite <- Qltb_spec. congruence. }
      simpl.
      destruct (Qltb 0 (get (confidence_score state) 1%Q)) eqn:B3.
      * apply Qltb_spec in B3.
        split.
        { split; [|intros [H|H]; [lia|contradiction]].
          intros E. injection E as E. rewrite E in B3.
          discriminate B3. }
        split; [eexists; split; [reflexivity|now right]|].
        split.
        { intros _. split; [|split].
          - intros c E _. now rewrite E.
          - intros c E N. rewrite E in B3. contradiction.
          - intros E. now rewrite E. }
        split; [intros d E; exact E|]. repeat split.
      * split.
        { split; [discriminate|intros [H|H]; [lia|contradiction]]. }
        split; [exists 1%Q; split; [reflexivity|now right]|].
        split.
        { intros _. split; [|split]; try reflexivity.
          intros c E P. rewrite E in B3. apply Qltb_spec in P.
          cbn [get] in B3. congruence. }
        split; [intros d E; exact E|]. repeat split.
Qed.

(** X2.  [quality_check_node] is idempotent. *)
Theorem quality_check_idempotent (ucd : UnicodeData) (state : AgentState) :
  quality_check_node ucd (quality_check_node ucd state)
  = quality_check_node ucd state.
Proof.
  unfold quality_check_node at 2 3.
  rewrite quality_check_text.
  set (text := strip (get (raw_text state) [])).
  destruct (negb (truthy text) || (List.length text <? MIN_TEXT_LENGTH))
    eqn:B1.
  - unfold quality_check_node. simpl raw_text.
    rewrite quality_check_text. fold text. rewrite B1.
    destruct state as [a b c d e f g h i j]. reflexivity.
  - destruct ((0 <? List.length text)
              && Qltb (alphanumeric_ratio ucd text) (6 # 10)) eqn:B2.
    + unfold quality_check_node. simpl raw_text.
      rewrite quality_check_text. fold text. rewrite B1, B2.
      destruct state as [a b c d e f g h i j]. reflexivity.
    + unfold quality_check_node. simpl raw_text.
      rewrite quality_check_text. fold text. rewrite B1, B2.
      simpl confidence_score. cbn [get].
      destruct (Qltb 0 (get (confidence_score state) 1%Q)) eqn:B3.
      * rewrite B3. destruct state as [a b c d e f g h i j]. reflexivity.
      * destruct state as [a b c d e f g h i j]. reflexivity.
Qed.

(** X3.  A text to which [quality_check_node] gives a non-zero
    confidence passes the length check and the ratio check of
    [extract_and_classify_node]: that node does not return their
    messages for it. *)
Theorem quality_check_implies_gate_checks (ucd : UnicodeData)
    (world : World) (state : AgentState) :
  confidence_score (quality_check_node ucd state) <> Some 0%Q ->
  ~ fails ucd length_check (get (raw_text state) [])
  /\ ~ fails ucd ratio_check (get (raw_text state) [])
  /\ extract_and_classify_node ucd world state
     <> (Return (rejected state MSG_TOO_SHORT), [])
  /\ extract_and_classify_node ucd world state
     <> (Return (rejected state MSG_NOISE), []).
Proof.
  intros H.
  assert (N : ~ fails ucd length_check (get (raw_text state) [])
              /\ ~ fails ucd ratio_check (get (raw_text state) [])).
  { unfold quality_check_node in H. rewrite quality_check_text in H.
    unfold MIN_TEXT_LENGTH in H. rewrite truthy_length in H.
    simpl fails.
    set (text := strip (get (raw_text state) [])) in *.
    destruct (negb (0 <? List.length text) || (List.length text <? 50))
      eqn:B1; [exfalso; apply H; reflexivity|].
    apply orb_false_iff in B1 as [B0 B1].
    apply negb_false_iff in B0. apply Nat.ltb_ge in B1.
    rewrite B0 in H. cbn [andb] in H.
    destruct (Qltb (alphanumeric_ratio ucd text) (6 # 10)) eqn:B2;
      [exfalso; apply H; reflexivity|].
    apply Qltb_trans_le in B2. split; [lia|].
    rewrite <- Qltb_spec. congruence. }
  destruct N as [N1 N3]. split; [exact N1|]. split; [exact N3|].
  split; intros E.
  - apply (node_rejects_iff ucd world state length_check) in E.
    exact (N1 (proj1 E)).
  - apply (node_rejects_iff ucd world state ratio_check) in E.
    exact (N3 (proj1 E)).
Qed.

Lemma quality_check_implies_gate_checks_witness :
  ~ fails latin1_only length_check lease_text
  /\ ~ fails latin1_only ratio_check lease_text.
Proof.
  destruct (quality_check_implies_gate_checks latin1_only offline
              (initial_state lease_text [] [])) as (N1 & N3 & _).
  - vm_compute. discriminate.
  - split; [exact N1|exact N3].
Defined.

Lemma quality_check_verdict_witness :
  confidence_score
    (quality_check_node latin1_only (initial_state (lit "hola") [] []))
  = Some 0%Q
  /\ doc_type
       (quality_check_node latin1_only (initial_state (lit "hola") [] []))
     = Some []
  /\ confidence_score
       (quality_check_node latin1_only
          (set_confidence_score (3 # 4) (initial_state lease_text [] [])))
     = Some (3 # 4)
  /\ confidence_score
       (quality_check_node latin1_only
          (set_confidence_score 0 (initial_state lease_text [] [])))
     = Some 1%Q.
Proof.
  destruct (quality_check_verdict latin1_only
              (initial_state (lit "hola") [] [])) as (V & _ & _ & D & _).
  split; [apply V; left; vm_compute; lia|].
  split; [apply D; reflexivity|].
  assert (N : ~ (List.length (strip lease_text) < 50
                 \/ (alphanumeric_ratio latin1_only (strip lease_text)
                     < 6 # 10)%Q)).
  { intros [H|H]; vm_compute in H; [lia|discriminate H]. }
  split.
  - destruct (quality_check_verdict latin1_only
                (set_confidence_score (3 # 4)
                   (initial_state lease_text [] []))) as (_ & _ & K & _).
    destruct (K N) as (P & _ & _). apply P; reflexivity.
  - destruct (quality_check_verdict latin1_only
                (set_confidence_score 0
                   (initial_state lease_text [] []))) as (_ & _ & K & _).
    destruct (K N) as (_ & P & _). apply (P 0%Q); [reflexivity|].
    intros H. discriminate H.
Defined.

(* ===================================================================== *)
(** ** More properties of [extract_and_classify_node] *)
(* ===================================================================== *)

Lemma reason_message_nonblank (k : check) : strip (reason_message k) <> [].
Proof. destruct k; vm_compute; discriminate. Qed.

(** The three ways the classification node ends. *)
Lemma classify_outcome (ucd : UnicodeData) (world : World)
    (state : AgentState) :
  (exists k,
     first_failing ucd k (get (raw_text state) [])
     /\ extract_and_classify_node ucd world state
        = (Return (rejected state (reason_message k)), []))
  \/ (exists e,
        (forall k, ~ fails ucd k (get (raw_text state) []))
        /\ groq world GROQ_MODEL (3 # 10) CLASSIFY_SYSTEM_PROMPT
             (classify_human_message (get (raw_text state) []))
           = Raised e
        /\ extract_and_classify_node ucd world state
           = (Return (rejected state MSG_CLASSIFY_FAILED),
              [classify_call state]))
  \/ (exists content d l,
        (forall k, ~ fails ucd k (get (raw_text state) []))
        /\ groq world GROQ_MODEL (3 # 10) CLASSIFY_SYSTEM_PROMPT
             (classify_human_message (get (raw_text state) []))
           = Return content
        /\ parse_classification ucd (split_on NL (strip content)) = (d, l)
        /\ extract_and_classify_node ucd world state
           = (Return (set_error_message []
                        (set_language l (set_doc_type d state))),
              [classify_call state])).
Proof.
  rewrite node_text_checks.
  generalize (text_checks_cases ucd (get (raw_text state) [])).
  destruct (text_checks ucd (get (raw_text state) [])) as [k|]; intros H.
  - left. exists k. now split.
  - right.
    destruct (classify_with_model_calls ucd world state)
      as (st & E & HR & HE).
    destruct (groq world GROQ_MODEL (3 # 10) CLASSIFY_SYSTEM_PROMPT
                (classify_human_message (get (raw_text state) [])))
      as [content|e] eqn:G.
    + right.
      destruct (parse_classification ucd (split_on NL (strip content)))
        as [d l] eqn:P.
      exists content, d, l. repeat split; try assumption.
      rewrite E, (HR content eq_refl), P. reflexivity.
    + left. exists e. repeat split; try assumption.
      rewrite E, (HE e eq_refl). reflexivity.
Qed.

(** X4.  The classification node always returns a state.  Its
    [error_message] is blank exactly when no check fails and the model
    answered; the model is called once when no check fails and not at
    all when one does. *)
Theorem classify_error_iff_rejected_or_failed (ucd : UnicodeData)
    (world : World) (state : AgentState) :
  let raw := get (raw_text state) [] in
  let node := extract_and_classify_node ucd world state in
  exists st1,
    result node = Return st1
    /\ (strip (get (error_message st1) []) = []
        <-> (forall k, ~ fails ucd k raw)
            /\ exists content,
                 groq world GROQ_MODEL (3 # 10) CLASSIFY_SYSTEM_PROMPT
                   (classify_human_message raw) = Return content)
    /\ ((forall k, ~ fails ucd k raw) -> trace node = [classify_call state])
    /\ ((exists k, fails ucd k raw) -> trace node = []).
Proof.
  intros raw node. unfold node, raw.
  destruct (classify_outcome ucd world state)
    as [(k & F & E) | [(e & A & G & E) | (c & d & l & A & G & P & E)]];
    rewrite E; eexists; (split; [reflexivity|]).
  - split; [|split].
    + split.
      * intros H. exfalso. exact (reason_message_nonblank k H).
      * intros [A _]. exfalso. exact (A k (proj1 F)).
    + intros A. exfalso. exact (A k (proj1 F)).
    + reflexivity.
  - split; [|split].
    + split.
      * intros H. vm_compute in H. discriminate H.
      * intros [_ [c G']]. congruence.
    + reflexivity.
    + intros [k F]. exfalso. exact (A k F).
  - split; [|split].
    + split; [|reflexivity]. intros _. split; [exact A|now exists c].
    + reflexivity.
    + intros [k F]. exfalso. exact (A k F).
Qed.

Lemma classify_error_iff_rejected_or_failed_witness :
  trace (extract_and_classify_node latin1_only offline
           (initial_state (lit "hola") [] [])) = [].
Proof.
  destruct (classify_error_iff_rejected_or_failed latin1_only offline
              (initial_state (lit "hola") [] [])) as (st1 & _ & _ & _ & T).
  apply T. exists length_check. vm_compute. lia.
Defined.

(** X5.  Whatever happens, the classification node leaves [raw_text],
    [simplified_explanation], [identified_risks], [action_items],
    [thread_id] and [user_token] as they were, returns a state that has
    the keys [doc_type], [language] and [error_message], and changes
    [confidence_score] only to 0.0 and only together with a non-blank
    [error_message]. *)
Theorem classify_frame (ucd : UnicodeData) (world : World)
    (state : AgentState) :
  exists st1,
    result (extract_and_classify_node ucd world state) = Return st1
    /\ raw_text st1 = raw_text state
    /\ simplified_explanation st1 = simplified_explanation state
    /\ identified_risks st1 = identified_risks state
    /\ action_items st1 = action_items state
    /\ thread_id st1 = thread_id state
    /\ user_token st1 = user_token state
    /\ (exists d l e,
          doc_type st1 = Some d /\ language st1 = Some l
          /\ error_message st1 = Some e)
    /\ (confidence_score st1 = confidence_score state
        \/ (confidence_score st1 = Some 0%Q
            /\ strip (get (error_message st1) []) <> [])).
Proof.
  destruct (classify_outcome ucd world state)
    as [(k & F & E) | [(e & A & G & E) | (c & d & l & A & G & P & E)]];
    rewrite E; eexists; (split; [reflexivity|]);
    repeat (split; [reflexivity|]).
  - split; [now eexists _, _, _|].
    right. split; [reflexivity|apply reason_message_nonblank].
  - split; [now eexists _, _, _|].
    right. split; [reflexivity|]. vm_compute. discriminate.
  - split; [now eexists _, _, _|]. now left.
Qed.

(** X6.  The classification grammar reads only the lines that start
    with [TIPO:] or [IDIOMA:]: removing every other line, the
    [CATEGORÍA:] line among them, changes nothing. *)
Theorem classification_ignores_other_lines (ucd : UnicodeData)
    (lines : list str) :
  parse_classification ucd
    (filter (fun l => startswith TIPO l || startswith IDIOMA l) lines)
  = parse_classification ucd lines.
Proof.
  unfold parse_classification. generalize (DESCONOCIDO, ES).
  induction lines as [|l lines IH]; intros acc; [reflexivity|].
  cbn [filter fold_left].
  destruct (startswith TIPO l) eqn:T; cbn [orb fold_left].
  - apply IH.
  - destruct (startswith IDIOMA l) eqn:I; cbn [fold_left]; [apply IH|].
    rewrite IH. f_equal. unfold classify_line.
    destruct acc as [d g]. now rewrite T, I.
Qed.

(* ===================================================================== *)
(** ** More properties of [simplify_and_analyze_node] *)
(* ===================================================================== *)

Lemma parse_analysis_empty (ucd : UnicodeData) (text : str) :
  fst (fst (parse_analysis ucd text)) = [] <-> text = [].
Proof.
  unfold parse_analysis. cbn [fst].
  destruct (explanation (parse_lines ucd (split_on NL text)))
    as [|c e] eqn:E; cbn [truthy negb].
  - destruct text; simpl; split; congruence.
  - split; [discriminate|]. intros ->. discriminate E.
Qed.

(** X7.  After a successful call of the model the explanation returned
    is empty only when the answer of the model is blank. *)
Theorem explanation_empty_iff_blank_answer (ucd : UnicodeData)
    (world : World) (state : AgentState) (content : str) :
  strip (get (error_message state) []) = [] ->
  groq world GROQ_MODEL_LARGE (4 # 10) ANALYZE_SYSTEM_PROMPT
    (analyze_request state) = Return content ->
  exists st s,
    result (simplify_and_analyze_node ucd world state) = Return st
    /\ simplified_explanation st = Some s
    /\ (s = [] <-> strip content = []).
Proof.
  intros H G. rewrite (analyze_success ucd world state content H G).
  exists (analyzed ucd state content).
  exists (fst (fst (parse_analysis ucd (strip content)))).
  split; [reflexivity|]. split.
  - unfold analyzed.
    now destruct (parse_analysis ucd (strip content)) as [[s r] a].
  - apply parse_analysis_empty.
Qed.

Lemma explanation_empty_iff_blank_answer_witness :
  exists st s,
    result (simplify_and_analyze_node latin1_only
              (answering unstructured_answer) (state_with_error []))
    = Return st
    /\ simplified_explanation st = Some s /\ s <> [].
Proof.
  destruct (explanation_empty_iff_blank_answer latin1_only
              (answering unstructured_answer) (state_with_error [])
              unstructured_answer eq_refl eq_refl) as (st & s & R & E & I).
  exists st, s. split; [exact R|]. split; [exact E|].
  intros Hs. apply I in Hs. vm_compute in Hs. discriminate Hs.
Defined.

Lemma kept_item_strip (x : str) : truthy (strip x) = true -> kept_item (strip x).
Proof.
  intros H. split; [now apply truthy_true_iff|apply strip_idempotent].
Qed.

Lemma analyze_line_parsed_well (ucd : UnicodeData) (st : parse_state)
    (raw_line : str) :
  parsed_well st -> parsed_well (analyze_line ucd st raw_line).
Proof.
  intros (Hr & Ha & items & He & Hi). unfold analyze_line.
  destruct (startswith RESUMEN (strip raw_line));
    [split; [exact Hr|split; [exact Ha|now exists items]]|].
  destruct (startswith RIESGOS (strip raw_line));
    [split; [exact Hr|split; [exact Ha|now exists items]]|].
  destruct (startswith PASOS (strip raw_line));
    [split; [exact Hr|split; [exact Ha|now exists items]]|].
  assert (Same : parsed_well st)
    by (split; [exact Hr|split; [exact Ha|now exists items]]).
  destruct (current_section st) as [[| |]|]; [| | |exact Same].
  - destruct (truthy (strip raw_line) && _); [|exact Same].
    destruct (truthy (strip (lstrip_chars SUMMARY_STRIP (strip raw_line))))
      eqn:T; [|exact Same].
    split; [exact Hr|]. split; [exact Ha|].
    exists (items ++ [strip (lstrip_chars SUMMARY_STRIP (strip raw_line))]).
    cbn [explanation]. split.
    + unfold append_bullets. rewrite fold_left_app. cbn [fold_left].
      fold (append_bullets [] items). rewrite <- He. reflexivity.
    + apply Forall_app. split; [exact Hi|].
      constructor; [now apply kept_item_strip|constructor].
  - destruct (truthy (strip raw_line) && _); [|exact Same].
    destruct (truthy (strip (lstrip_chars BULLET_STRIP (strip raw_line))))
      eqn:T; [|exact Same].
    split; [|split; [exact Ha|now exists items]].
    cbn [risks]. apply Forall_app. split; [exact Hr|].
    constructor; [now apply kept_item_strip|constructor].
  - destruct (truthy (strip raw_line) && _); [|exact Same].
    destruct (truthy (strip (lstrip_chars BULLET_STRIP (strip raw_line))))
      eqn:T; [|exact Same].
    split; [exact Hr|]. split; [|now exists items].
    cbn [actions]. apply Forall_app. split; [exact Ha|].
    constructor; [now apply kept_item_strip|constructor].
Qed.

Lemma parse_lines_parsed_well (ucd : UnicodeData) (lines : list str) :
  parsed_well (parse_lines ucd lines).
Proof.
  unfold parse_lines.
  assert (H : parsed_well parse_start).
  { split; [constructor|]. split; [constructor|].
    exists []. split; [reflexivity|constructor]. }
  revert H. generalize parse_start.
  induction lines as [|l lines IH]; intros st H; [exact H|].
  simpl. apply IH. now apply analyze_line_parsed_well.
Qed.

(** X8.  After a successful call of the model every risk and every
    action returned is a non-empty trimmed text, and the explanation is
    either the first 500 characters of the trimmed answer or a
    non-empty sequence of non-empty trimmed texts, each after a bullet
    and a space, joined by newlines. *)
Theorem analysis_items_kept (ucd : UnicodeData) (world : World)
    (state : AgentState) (content : str) :
  strip (get (error_message state) []) = [] ->
  groq world GROQ_MODEL_LARGE (4 # 10) ANALYZE_SYSTEM_PROMPT
    (analyze_request state) = Return content ->
  exists st s rs acts,
    result (simplify_and_analyze_node ucd world state) = Return st
    /\ simplified_explanation st = Some s
    /\ identified_risks st = Some rs
    /\ action_items st = Some acts
    /\ Forall kept_item rs /\ Forall kept_item acts
    /\ (s = firstn 500 (strip content)
        \/ exists items,
             items <> [] /\ Forall kept_item items
             /\ s = join [NL] (map bulleted items)).
Proof.
  intros H G. rewrite (analyze_success ucd world state content H G).
  destruct (parse_lines_parsed_well ucd (split_on NL (strip content)))
    as (Hr & Ha & items & He & Hi).
  unfold analyzed, parse_analysis.
  do 4 eexists. split; [reflexivity|].
  cbn [simplified_explanation identified_risks action_items
       set_user_token set_action_items set_identified_risks
       set_simplified_explanation].
  repeat (split; [reflexivity|]).
  split; [exact Hr|]. split; [exact Ha|].
  destruct (explanation (parse_lines ucd (split_on NL (strip content))))
    as [|c e] eqn:E; cbn [truthy negb]; [now left|].
  right. exists items. split; [|split; [exact Hi|]].
  - intros ->. discriminate He.
  - now rewrite He, append_bullets_join.
Qed.

Lemma analysis_items_kept_witness :
  exists st rs,
    result (simplify_and_analyze_node latin1_only
              (answering structured_answer) (state_with_error []))
    = Return st
    /\ identified_risks st = Some rs /\ Forall kept_item rs.
Proof.
  destruct (analysis_items_kept latin1_only (answering structured_answer)
              (state_with_error []) structured_answer eq_refl eq_refl)
    as (st & s & rs & acts & R & _ & Er & _ & Fr & _).
  exists st, rs. split; [exact R|]. split; [exact Er|exact Fr].
Defined.

(** X9.  After a successful call of the model the state returned does
    not depend on Supabase: two worlds whose model gives the same
    answer return the same state, whatever their configuration, their
    client and the fate of the insertion.  That state is the incoming
    one with the three parsed fields, and with [user_token] present. *)
Theorem analysis_result_ignores_persistence (ucd : UnicodeData)
    (world world' : World) (state : AgentState) (content : str) :
  strip (get (error_message state) []) = [] ->
  groq world GROQ_MODEL_LARGE (4 # 10) ANALYZE_SYSTEM_PROMPT
    (analyze_request state) = Return content ->
  groq world' GROQ_MODEL_LARGE (4 # 10) ANALYZE_SYSTEM_PROMPT
    (analyze_request state) = Return content ->
  result (simplify_and_analyze_node ucd world state)
  = result (simplify_and_analyze_node ucd world' state)
  /\ exists st,
       result (simplify_and_analyze_node ucd world state) = Return st
       /\ raw_text st = raw_text state /\ doc_type st = doc_type state
       /\ confidence_score st = confidence_score state
       /\ language st = language state
       /\ error_message st = error_message state
       /\ thread_id st = thread_id state
       /\ user_token st = Some (get (user_token state) []).
Proof.
  intros H G G'.
  rewrite (analyze_success ucd world state content H G).
  rewrite (analyze_success ucd world' state content H G').
  split; [reflexivity|]. exists (analyzed ucd state content).
  split; [reflexivity|]. unfold analyzed.
  destruct (parse_analysis ucd (strip content)) as [[s r] a].
  repeat split.
Qed.

Lemma analysis_result_ignores_persistence_witness :
  result (simplify_and_analyze_node latin1_only
            (answering structured_answer) (state_with_error []))
  = result (simplify_and_analyze_node latin1_only
              (Build_World (fun _ _ _ _ => Return structured_answer)
                 false (Raised (CollaboratorError []))
                 (fun _ _ => Raised (CollaboratorError [])))
              (state_with_error [])).
Proof.
  apply (analysis_result_ignores_persistence latin1_only
           (answering structured_answer)
           (Build_World (fun _ _ _ _ => Return structured_answer)
              false (Raised (CollaboratorError []))
              (fun _ _ => Raised (CollaboratorError [])))
           (state_with_error []) structured_answer); reflexivity.
Defined.

(** What the insertion block leaves in the trace when a client is
    available and the thread id gives a user id. *)
Lemma persist_with_user_id (ucd : UnicodeData) (world : World)
    (state : AgentState) (content : str) (u : char) (user : str) :
  supabase_configured world = true ->
  create_client world = Return tt ->
  user_id_from_thread (get (thread_id state) []) = Some (u :: user) ->
  filter is_insert (trace (guarded_persist ucd world state content))
  = [Insert (client_for state)
       (row_for ucd state content (Some (u :: user)))].
Proof.
  intros C1 C2 U. unfold guarded_persist, row_for, client_for.
  destruct (parse_analysis ucd (strip content)) as [[s r] a].
  unfold persist, get_authenticated_supabase_client, get_supabase_client.
  rewrite C1, C2, U, firstn_cap.
  destruct (truthy (get (user_token state) []));
    cbn [negb try_except bind emit lift ret raise trace snd fst app
         no_user_id];
    match goal with
    | |- context [insert_execute world ?c ?row] =>
        destruct (insert_execute world c row) as [[]|e]
    end; reflexivity.
Qed.

(** The insertion block calls no model, runs no node and inserts at
    most one row. *)
Lemma persist_events (ucd : UnicodeData) (world : World)
    (state : AgentState) (content : str) :
  filter is_model_call (trace (guarded_persist ucd world state content))
  = []
  /\ List.length
       (filter is_insert (trace (guarded_persist ucd world state content)))
     <= 1.
Proof.
  unfold guarded_persist.
  destruct (parse_analysis ucd (strip content)) as [[s r] a].
  unfold persist, get_authenticated_supabase_client, get_supabase_client.
  destruct (supabase_configured world), (create_client world) as [[]|e],
    (truthy (get (user_token state) [])),
    (no_user_id (user_id_from_thread (get (thread_id state) [])));
    cbn [negb try_except bind emit lift ret raise trace snd fst app];
    try (split; [reflexivity|simpl; lia]);
    match goal with
    | |- context [insert_execute world ?c ?row] =>
        destruct (insert_execute world c row) as [[]|e']
    end; (split; [reflexivity|simpl; lia]).
Qed.

(** X10.  When the model has answered, a Supabase client is available
    and the thread id gives a non-empty user id, the node inserts
    exactly one row, through the client authenticated with the token of
    the state when it has one: the row carries that user id, the thread
    id, the parsed explanation, risks and actions, and at most the
    first 1000 characters of [raw_text], while the state returned keeps
    [raw_text] whole. *)
Theorem one_row_inserted (ucd : UnicodeData) (world : World)
    (state : AgentState) (content : str) (u : char) (user : str) :
  strip (get (error_message state) []) = [] ->
  groq world GROQ_MODEL_LARGE (4 # 10) ANALYZE_SYSTEM_PROMPT
    (analyze_request state) = Return content ->
  supabase_configured world = true ->
  create_client world = Return tt ->
  user_id_from_thread (get (thread_id state) []) = Some (u :: user) ->
  let node := simplify_and_analyze_node ucd world state in
  let row := row_for ucd state content (Some (u :: user)) in
  filter is_insert (trace node) = [Insert (client_for state) row]
  /\ row_user_id row = Some (u :: user)
  /\ row_thread_id row = get (thread_id state) []
  /\ (forall text, row_raw_text row = Some text ->
        text = firstn 1000 (get (raw_text state) [])
        /\ List.length text <= 1000)
  /\ (exists st,
        result node = Return st
        /\ raw_text st = raw_text state
        /\ simplified_explanation st
           = Some (row_simplified_explanation row)
        /\ identified_risks st = Some (row_identified_risks row)
        /\ action_items st = Some (row_action_items row)).
Proof.
  intros H G C1 C2 U node row. unfold node, row.
  rewrite (analyze_success ucd world state content H G).
  split.
  - unfold trace at 1. cbn [snd filter is_insert].
    apply (persist_with_user_id ucd world state content u user C1 C2 U).
  - unfold row_for, analyzed.
    destruct (parse_analysis ucd (strip content)) as [[s r] a].
    cbn [row_user_id row_thread_id row_raw_text
         row_simplified_explanation row_identified_risks row_action_items].
    split; [reflexivity|]. split; [reflexivity|]. split.
    + intros text E.
      destruct (truthy (get (raw_text state) [])); [|discriminate E].
      assert (Et : text = firstn 1000 (get (raw_text state) []))
        by congruence.
      split; [exact Et|rewrite Et; apply firstn_le_length].
    + eexists. split; [reflexivity|]. repeat split.
Qed.

Lemma one_row_inserted_witness :
  filter is_insert
    (trace (simplify_and_analyze_node latin1_only
              (answering structured_answer) (state_with_error [])))
  = [Insert (AuthenticatedClient (lit "token"))
       (row_for latin1_only (state_with_error []) structured_answer
          (Some (lit "42")))].
Proof.
  apply (one_row_inserted latin1_only (answering structured_answer)
           (state_with_error []) structured_answer 52%N [50%N]);
    reflexivity.
Defined.

(* ===================================================================== *)
(** ** More properties of the workflow *)
(* ===================================================================== *)

Lemma analyze_events (ucd : UnicodeData) (world : World)
    (state : AgentState) :
  exists st,
    result (simplify_and_analyze_node ucd world state) = Return st
    /\ List.length
         (filter is_model_call
            (trace (simplify_and_analyze_node ucd world state))) <= 1
    /\ List.length
         (filter is_insert
            (trace (simplify_and_analyze_node ucd world state))) <= 1.
Proof.
  destruct (strip (get (error_message state) [])) as [|c e] eqn:G.
  - destruct (groq world GROQ_MODEL_LARGE (4 # 10) ANALYZE_SYSTEM_PROMPT
                (analyze_request state)) as [content|e] eqn:A.
    + rewrite (analyze_success ucd world state content G A).
      destruct (persist_events ucd world state content) as [P1 P2].
      eexists. split; [reflexivity|]. unfold trace at 1 3.
      cbn [snd filter is_model_call is_insert]. rewrite P1.
      split; [simpl; lia|exact P2].
    + rewrite (analyze_model_failure ucd world state e G A).
      eexists. split; [reflexivity|]. split; simpl; lia.
  - rewrite (analyze_guard ucd world state) by (rewrite G; discriminate).
    eexists. split; [reflexivity|]. split; simpl; lia.
Qed.

Lemma classify_merge (ucd : UnicodeData) (world : World)
    (state : AgentState) :
  exists st1 t1,
    extract_and_classify_node ucd world state = (Return st1, t1)
    /\ merge state st1 = st1
    /\ (t1 = [] \/ t1 = [classify_call state]).
Proof.
  destruct (classify_outcome ucd world state)
    as [(k & F & E) | [(e & A & G & E) | (c & d & l & A & G & P & E)]];
    rewrite E; do 2 eexists; (split; [reflexivity|]).
  - split; [apply merge_rejected|now left].
  - split; [apply merge_rejected|now right].
  - split; [apply merge_classified|now right].
Qed.

Local Open Scope string_scope.

(** X11.  A run of the workflow always returns a state: no node
    raises, no route is missing and the recursion limit is not reached.
    It starts with the classification node, calls the model at most
    twice and inserts at most one row. *)
Theorem workflow_run_returns (ucd : UnicodeData) (world : World)
    (state : AgentState) :
  let run := ainvoke_graph (workflow ucd world) state in
  (exists st, result run = Return st)
  /\ (exists rest, trace run = RunNode "extract_and_classify" :: rest)
  /\ List.length (filter is_model_call (trace run)) <= 2
  /\ List.length (filter is_insert (trace run)) <= 1.
Proof.
  intros run. unfold run, workflow. rewrite two_stage_run.
  destruct (classify_merge ucd world state) as (st1 & t1 & E & Hm & Ht).
  rewrite E. cbn zeta. rewrite Hm.
  assert (C1 : List.length (filter is_model_call t1) <= 1
               /\ filter is_insert t1 = []).
  { destruct Ht as [-> | ->]; split; simpl; try reflexivity; lia. }
  destruct C1 as [C1 C2].
  destruct (truthy (strip (get (error_message st1) []))).
  - split; [now eexists|]. split; [now eexists|].
    unfold trace. cbn [snd filter is_model_call is_insert].
    rewrite C2. split; simpl; lia.
  - destruct (analyze_events ucd world st1) as (st2 & R & M & I).
    destruct (simplify_and_analyze_node ucd world st1) as [[u2|e] t2];
      [|discriminate R].
    split; [now eexists|]. split; [now eexists|].
    unfold trace in *. cbn [snd] in *.
    cbn [filter is_model_call is_insert].
    rewrite !filter_app. cbn [filter is_model_call is_insert].
    rewrite !length_app, C2. simpl. lia.
Qed.

(** X12.  When a check rejects the text the run of the workflow
    consists of the classification node alone, with no call of the
    model or of Supabase, and ends with the rejection; the analysis
    node runs exactly when no check fails and the model answered the
    classification. *)
Theorem workflow_stops_on_rejection (ucd : UnicodeData) (world : World)
    (state : AgentState) :
  let raw := get (raw_text state) [] in
  let run := ainvoke_graph (workflow ucd world) state in
  (forall k,
     first_failing ucd k raw ->
     run = (Return (rejected state (reason_message k)),
            [RunNode "extract_and_classify"]))
  /\ (In (RunNode "simplify_and_analyze") (trace run)
      <-> (forall k, ~ fails ucd k raw)
          /\ exists content,
               groq world GROQ_MODEL (3 # 10) CLASSIFY_SYSTEM_PROMPT
                 (classify_human_message raw) = Return content).
Proof.
  intros raw run. unfold run, raw, workflow. rewrite two_stage_run.
  split.
  - intros k F.
    rewrite (proj2 (node_rejects_iff ucd world state k) F).
    cbn zeta. rewrite merge_rejected.
    destruct (truthy (strip (get (error_message
                (rejected state (reason_message k))) []))) eqn:T;
      [reflexivity|].
    apply truthy_false_iff in T.
    exfalso. exact (reason_message_nonblank k T).
  - destruct (classify_outcome ucd world state)
      as [(k & F & E) | [(e & A & G & E) | (c & d & l & A & G & P & E)]];
      rewrite E; cbn zeta.
    + rewrite merge_rejected.
      destruct (truthy (strip (get (error_message
                  (rejected state (reason_message k))) []))) eqn:T.
      * split.
        -- intros [H|[]]. discriminate H.
        -- intros [A _]. exfalso. exact (A k (proj1 F)).
      * apply truthy_false_iff in T.
        exfalso. exact (reason_message_nonblank k T).
    + rewrite merge_rejected.
      change (truthy (strip (get (error_message
                (rejected state MSG_CLASSIFY_FAILED)) []))) with true.
      split.
      * intros [H|[H|[]]]; discriminate H.
      * intros [_ [c G']]. congruence.
    + rewrite merge_classified.
      change (truthy (strip (get (error_message
                (set_error_message []
                   (set_language l (set_doc_type d state)))) [])))
        with false.
      split; [intros _; split; [exact A|now exists c]|].
      intros _.
      destruct (simplify_and_analyze_node ucd world _) as [[u2|e] t2];
        unfold trace; cbn [snd]; right; right; now left.
Qed.

Lemma workflow_stops_on_rejection_witness :
  ainvoke_graph (workflow latin1_only offline)
    (initial_state (lit "hola") [] [])
  = (Return (rejected (initial_state (lit "hola") [] []) MSG_TOO_SHORT),
     [RunNode "extract_and_classify"]).
Proof.
  apply (proj1 (workflow_stops_on_rejection latin1_only offline
                  (initial_state (lit "hola") [] [])) length_check).
  split; [vm_compute; lia|]. intros k'; destruct k'; simpl; lia.
Defined.

Local Close Scope string_scope.

(* ===================================================================== *)
(** ** Properties of [thread_id_with_user] *)
(* ===================================================================== *)

Lemma startswith_app (p r : str) : startswith p (p ++ r) = true.
Proof. apply startswith_prefix. now exists r. Qed.

Lemma split_on_hd_app (sep : char) (a r : str) :
  exists ws,
    split_on sep (a ++ sep :: r) = hd [] (split_on sep a) :: ws.
Proof.
  induction a as [|c a (ws & IH)].
  - simpl. rewrite N.eqb_refl. now eexists.
  - simpl. destruct (c =? sep)%N; [now eexists|].
    rewrite IH. destruct (split_on_cons sep a) as (w & ws' & E).
    rewrite E. now eexists.
Qed.

Lemma split_on_no_sep (sep : char) (a : str) :
  mem sep a = false -> split_on sep a = [a].
Proof.
  unfold mem. induction a as [|c a IH]; [reflexivity|].
  simpl. intros H. apply orb_false_iff in H as [H1 H2].
  rewrite N.eqb_sym, H1, (IH H2). reflexivity.
Qed.

Lemma thread_id_with_user_shape (user_id fresh : str)
    (thread : option str) :
  exists rest,
    thread_id_with_user user_id fresh thread
    = USER_PREFIX ++ user_id ++ [UNDERSCORE] ++ rest.
Proof.
  unfold thread_id_with_user.
  destruct (negb (truthy (get thread []))); [now eexists|].
  destruct (startswith (USER_PREFIX ++ user_id ++ [UNDERSCORE])
              (get thread [])) eqn:S.
  - apply startswith_prefix in S. destruct S as [r S].
    exists r. rewrite S at 1. now rewrite <- !app_assoc.
  - destruct (startswith USER_PREFIX (get thread [])); [|now eexists].
    destruct (3 <=? List.length (split_on UNDERSCORE (get thread [])));
      now eexists.
Qed.

(** The user id the analysis node reads in a thread id that starts with
    the prefix, a user id and an underscore. *)
Lemma user_id_of_shape (user_id rest : str) :
  user_id_from_thread (USER_PREFIX ++ user_id ++ [UNDERSCORE] ++ rest)
  = Some (hd [] (split_on UNDERSCORE user_id)).
Proof.
  unfold user_id_from_thread. rewrite startswith_app.
  destruct (split_on_hd_app UNDERSCORE user_id rest) as (ws & E).
  unfold USER_PREFIX. cbn -[Nat.leb split_on].
  change (117 :: 115 :: 101 :: 114 :: 95
          :: user_id ++ UNDERSCORE :: rest)%N
    with ([117; 115; 101; 114]%N
          ++ UNDERSCORE :: (user_id ++ UNDERSCORE :: rest)).
  destruct (split_on_hd_app UNDERSCORE [117; 115; 101; 114]%N
              (user_id ++ UNDERSCORE :: rest)) as (ws' & E').
  assert (E2 : split_on UNDERSCORE
                 ([117; 115; 101; 114]%N
                  ++ UNDERSCORE :: (user_id ++ UNDERSCORE :: rest))
               = [117; 115; 101; 114]%N
                 :: split_on UNDERSCORE (user_id ++ UNDERSCORE :: rest))
    by reflexivity.
  rewrite E2, E. reflexivity.
Qed.

(** X13.  The thread id the endpoint uses always starts with "user_",
    the user id and an underscore, whatever thread id was sent; and it
    is stable: sent back, it is used as it is. *)
Theorem thread_id_carries_user (user_id fresh fresh' : str)
    (thread : option str) :
  let used := thread_id_with_user user_id fresh thread in
  startswith (USER_PREFIX ++ user_id ++ [UNDERSCORE]) used = true
  /\ thread_id_with_user user_id fresh' (Some used) = used.
Proof.
  intros used. unfold used.
  destruct (thread_id_with_user_shape user_id fresh thread) as [rest E].
  assert (S : startswith (USER_PREFIX ++ user_id ++ [UNDERSCORE])
                (thread_id_with_user user_id fresh thread) = true).
  { rewrite E. apply startswith_prefix. exists rest.
    now rewrite <- !app_assoc. }
  split; [exact S|].
  unfold thread_id_with_user at 1. cbn [get]. rewrite S.
  rewrite E at 1. reflexivity.
Qed.

(** X14.  From the thread id the endpoint uses, the analysis node reads
    back the part of the user id before its first underscore: the user
    id itself when it has no underscore. *)
Theorem user_id_round_trip (user_id fresh : str) (thread : option str) :
  let used := thread_id_with_user user_id fresh thread in
  user_id_from_thread used = Some (hd [] (split_on UNDERSCORE user_id))
  /\ (mem UNDERSCORE user_id = false ->
      user_id_from_thread used = Some user_id).
Proof.
  intros used. unfold used.
  destruct (thread_id_with_user_shape user_id fresh thread) as [rest E].
  rewrite E, user_id_of_shape. split; [reflexivity|].
  intros H. now rewrite (split_on_no_sep _ _ H).
Qed.

Lemma user_id_round_trip_witness :
  user_id_from_thread
    (thread_id_with_user (lit "8f3c-21") (lit "ab12cd34ef56")
       (Some (lit "user_otro_77aa")))
  = Some (lit "8f3c-21").
Proof.
  apply (user_id_round_trip (lit "8f3c-21") (lit "ab12cd34ef56")
           (Some (lit "user_otro_77aa"))).
  reflexivity.
Defined.

(** X15.  For the state the endpoint builds for a user whose id is not
    empty and has no underscore, once the model has answered and a
    Supabase client is available, the analysis node inserts exactly one
    row, and its [user_id] is the id of that user. *)
Theorem row_stored_under_user (ucd : UnicodeData) (world : World)
    (text token fresh content : str) (thread : option str)
    (u : char) (user : str) :
  mem UNDERSCORE (u :: user) = false ->
  let state :=
    initial_state text (thread_id_with_user (u :: user) fresh thread)
      token in
  groq world GROQ_MODEL_LARGE (4 # 10) ANALYZE_SYSTEM_PROMPT
    (analyze_request state) = Return content ->
  supabase_configured world = true ->
  create_client world = Return tt ->
  exists row,
    filter is_insert (trace (simplify_and_analyze_node ucd world state))
    = [Insert (client_for state) row]
    /\ row_user_id row = Some (u :: user)
    /\ row_thread_id row = thread_id_with_user (u :: user) fresh thread.
Proof.
  intros Hu state G C1 C2.
  assert (U : user_id_from_thread (get (thread_id state) [])
              = Some (u :: user)).
  { unfold state. cbn [thread_id initial_state get].
    destruct (thread_id_with_user_shape (u :: user) fresh thread)
      as [rest E].
    now rewrite E, user_id_of_shape, (split_on_no_sep _ _ Hu). }
  exists (row_for ucd state content (Some (u :: user))).
  rewrite (analyze_success ucd world state content eq_refl G).
  split.
  - unfold trace at 1. cbn [snd filter is_insert].
    apply (persist_with_user_id ucd world state content u user C1 C2 U).
  - unfold row_for.
    destruct (parse_analysis ucd (strip content)) as [[s r] a].
    split; reflexivity.
Qed.

Lemma row_stored_under_user_witness :
  exists row,
    filter is_insert
      (trace (simplify_and_analyze_node latin1_only
                (answering structured_answer)
                (initial_state lease_text
                   (thread_id_with_user (lit "8f3c-21")
                      (lit "ab12cd34ef56") None)
                   (lit "token"))))
    = [Insert (AuthenticatedClient (lit "token")) row]
    /\ row_user_id row = Some (lit "8f3c-21").
Proof.
  destruct (row_stored_under_user latin1_only
              (answering structured_answer) lease_text (lit "token")
              (lit "ab12cd34ef56") structured_answer None 56%N
              (lit "f3c-21") eq_refl eq_refl eq_refl eq_refl)
    as (row & T & U & _).
  exists row. split; [exact T|exact U].
Defined.

(* ===================================================================== *)
(** ** Properties of [extract_text_from_image] and [get_current_user] *)
(* ===================================================================== *)

(** The ways the OCR service ends. *)
Lemma ocr_outcomes (file : Upload) :
  (forall text,
     extract_text_from_image file = Done text ->
     text <> [] /\ strip text = text)
  /\ (forall code detail,
        extract_text_from_image file = HTTPException code detail ->
        code = 400 \/ code = 500)
  /\ (forall e, extract_text_from_image file <> Uncaught e)
  /\ (forall e,
        file_read file = Return tt -> image_open file = Raised e ->
        extract_text_from_image file
        = HTTPException 400 (OCR_INVALID_IMAGE ++ exn_str e)).
Proof.
  unfold extract_text_from_image.
  destruct (file_read file) as [[]|e0]; cbn [of_outcome api_bind].
  2:{ repeat split; intros; try discriminate.
      injection H as <- _. now right. }
  destruct (image_open file) as [is_rgb|e1]; cbn [api_bind].
  2:{ split; [intros; discriminate|]. split.
      - intros code detail H. injection H as <- _. now left.
      - split; [intros; discriminate|].
        intros e _ E. injection E as <-. reflexivity. }
  assert (P : forall r : api unit,
            (r = Done tt \/ exists e, r = Uncaught e) ->
            (forall text,
               reraise_as 500 OCR_ERROR
                 (api_bind r (fun _ =>
                    api_bind (of_outcome (image_to_string file))
                      (fun text =>
                         if negb (truthy (strip text))
                         then HTTPException 400 OCR_NO_TEXT
                         else Done (strip text)))) = Done text ->
               text <> [] /\ strip text = text)
            /\ (forall code detail,
                  reraise_as 500 OCR_ERROR
                    (api_bind r (fun _ =>
                       api_bind (of_outcome (image_to_string file))
                         (fun text =>
                            if negb (truthy (strip text))
                            then HTTPException 400 OCR_NO_TEXT
                            else Done (strip text))))
                  = HTTPException code detail ->
                  code = 400 \/ code = 500)
            /\ (forall e,
                  reraise_as 500 OCR_ERROR
                    (api_bind r (fun _ =>
                       api_bind (of_outcome (image_to_string file))
                         (fun text =>
                            if negb (truthy (strip text))
                            then HTTPException 400 OCR_NO_TEXT
                            else Done (strip text))))
                  <> Uncaught e)).
  { intros r [-> | [e ->]]; cbn [api_bind reraise_as].
    - destruct (image_to_string file) as [text|e];
        cbn [of_outcome api_bind reraise_as].
      + destruct (truthy (strip text)) eqn:T; cbn [negb reraise_as].
        * split; [|split; intros; discriminate].
          intros t E. injection E as <-.
          split; [now apply truthy_true_iff|apply strip_idempotent].
        * split; [intros; discriminate|]. split; [|intros; discriminate].
          intros code detail E. injection E as <- _. now left.
      + split; [intros; discriminate|]. split; [|intros; discriminate].
        intros code detail E. injection E as <- _. now right.
    - split; [intros; discriminate|]. split; [|intros; discriminate].
      intros code detail E. injection E as <- _. now right. }
  assert (Q : (if negb is_rgb then of_outcome (image_convert file)
               else Done tt) = Done tt
              \/ exists e, (if negb is_rgb
                            then of_outcome (image_convert file)
                            else Done tt) = Uncaught e).
  { destruct is_rgb; [now left|]. cbn [negb].
    destruct (image_convert file) as [[]|e]; [now left|right; now exists e]. }
  destruct (P _ Q) as (P1 & P2 & P3).
  split; [exact P1|]. split; [exact P2|]. split; [exact P3|].
  intros; discriminate.
Qed.

(** X16.  The OCR service returns only non-empty, trimmed text, so the
    trimming of the classification node leaves it as it is; it fails
    only with an [HTTPException] of status 400 or 500, with 400 when
    the file is not an image, and lets no other exception escape. *)
Theorem ocr_returns_trimmed_text (file : Upload) :
  (forall text,
     extract_text_from_image file = Done text ->
     text <> [] /\ strip text = text)
  /\ (forall code detail,
        extract_text_from_image file = HTTPException code detail ->
        code = 400 \/ code = 500)
  /\ (forall e, extract_text_from_image file <> Uncaught e)
  /\ (forall e,
        file_read file = Return tt -> image_open file = Raised e ->
        extract_text_from_image file
        = HTTPException 400 (OCR_INVALID_IMAGE ++ exn_str e)).
Proof. exact (ocr_outcomes file). Qed.

Lemma ocr_returns_trimmed_text_witness :
  extract_text_from_image
    (Build_Upload (Return tt) (Raised (CollaboratorError (lit "png")))
       (Return tt) (Return []))
  = HTTPException 400 (OCR_INVALID_IMAGE ++ lit "png").
Proof.
  exact (proj2 (proj2 (proj2 (ocr_returns_trimmed_text
           (Build_Upload (Return tt)
              (Raised (CollaboratorError (lit "png")))
              (Return tt) (Return [])))))
           (CollaboratorError (lit "png")) eq_refl eq_refl).
Defined.

(** X17.  [get_current_user] returns only a non-empty user id, the one
    Supabase Auth gave for the token.  Without Supabase configuration
    it fails with status 503; every other [HTTPException] it raises has
    status 401, and only a failure of [create_client] escapes as
    another exception. *)
Theorem current_user_is_never_empty (world : World) (auth : Auth)
    (token : str) :
  (forall user_id,
     get_current_user world auth token = Done user_id ->
     user_id <> [] /\ auth token = Return (Some (Some user_id)))
  /\ (supabase_configured world = false ->
      get_current_user world auth token
      = HTTPException 503 AUTH_UNAVAILABLE)
  /\ (forall code detail,
        get_current_user world auth token = HTTPException code detail ->
        (code = 503 /\ supabase_configured world = false) \/ code = 401)
  /\ (forall e,
        get_current_user world auth token = Uncaught e ->
        create_client world = Raised e).
Proof.
  unfold get_current_user, get_supabase_client.
  destruct (supabase_configured world);
    cbn [negb result fst bind emit ret lift of_outcome api_bind].
  2:{ split; [intros; discriminate|]. split; [reflexivity|].
      split; [|intros; discriminate].
      intros code detail E. injection E as <- _. now left. }
  destruct (create_client world) as [[]|e0];
    cbn [negb result fst bind emit ret lift of_outcome api_bind].
  2:{ split; [intros; discriminate|]. split; [discriminate|].
      split; [intros; discriminate|].
      intros e E. injection E as <-. reflexivity. }
  split; [|split; [discriminate|split]].
  - intros user_id.
    destruct (auth token) as [[[[|c u]|]|]|e];
      cbn [of_outcome api_bind reraise_as no_user_id get];
      intros E; try discriminate E.
    injection E as <-. split; [discriminate|reflexivity].
  - intros code detail.
    destruct (auth token) as [[[[|c u]|]|]|e];
      cbn [of_outcome api_bind reraise_as no_user_id get];
      intros E; try discriminate E; injection E as <- _; now right.
  - intros e.
    destruct (auth token) as [[[[|c u]|]|]|e'];
      cbn [of_outcome api_bind reraise_as no_user_id get];
      intros E; discriminate E.
Qed.

Lemma current_user_is_never_empty_witness :
  get_current_user offline (fun _ => Return None) (lit "token")
  = HTTPException 503 AUTH_UNAVAILABLE.
Proof.
  apply (proj1 (proj2 (current_user_is_never_empty offline
                         (fun _ => Return None) (lit "token")))).
  reflexivity.
Defined.

(* ===================================================================== *)
(** ** Properties of [analyze_document] *)
(* ===================================================================== *)

(** The loop from [retry_count], with enough steps left. *)
Lemma retry_loop_spec (ucd : UnicodeData)
    (invoke : nat -> AgentState -> outcome AgentState)
    (state : AgentState) (steps : nat) :
  forall retry_count r n,
    retry_count < MAX_RETRIES ->
    MAX_RETRIES - retry_count <= steps ->
    ainvoke_with_retries ucd invoke steps retry_count state = (r, n) ->
    1 <= n /\ retry_count + n <= MAX_RETRIES
    /\ r = invoke (retry_count + n - 1) state
    /\ forall j,
         retry_count <= j < retry_count + n - 1 ->
         exists e,
           invoke j state = Raised e
           /\ contains PREPARED_STATEMENT (lower ucd (exn_str e)) = true
           /\ contains ALREADY_EXISTS (lower ucd (exn_str e)) = true.
Proof.
  unfold MAX_RETRIES.
  induction steps as [|steps IH]; intros rc r n Hrc Hs; [lia|].
  cbn [ainvoke_with_retries]. unfold MAX_RETRIES.
  replace (rc <? 3) with true by (symmetry; apply Nat.ltb_lt; lia).
  destruct (invoke rc state) as [final|e] eqn:I.
  - intros E. injection E as <- <-.
    replace (rc + 1 - 1) with rc by lia.
    repeat split; try lia. now symmetry.
  - destruct (contains PREPARED_STATEMENT (lower ucd (exn_str e))) eqn:C1;
      cbn [andb].
    2:{ intros E. injection E as <- <-.
        replace (rc + 1 - 1) with rc by lia.
        repeat split; try lia. now symmetry. }
    destruct (contains ALREADY_EXISTS (lower ucd (exn_str e))) eqn:C2;
      cbn [andb].
    2:{ intros E. injection E as <- <-.
        replace (rc + 1 - 1) with rc by lia.
        repeat split; try lia. now symmetry. }
    destruct (rc <? 3 - 1) eqn:B.
    2:{ intros E. injection E as <- <-.
        replace (rc + 1 - 1) with rc by lia.
        repeat split; try lia. now symmetry. }
    apply Nat.ltb_lt in B.
    destruct (ainvoke_with_retries ucd invoke steps (S rc) state)
      as [r' n'] eqn:R.
    intros E. injection E as <- <-.
    destruct (IH (S rc) r' n') as (N1 & N2 & N3 & N4);
      [lia|lia|exact R|].
    split; [lia|]. split; [lia|]. split.
    + replace (rc + S n' - 1) with (S rc + n' - 1) by lia. exact N3.
    + intros j Hj. destruct (Nat.eq_dec j rc) as [->|Hne].
      * exists e. now repeat split.
      * apply N4. lia.
Qed.

(** X18.  The retry loop invokes the graph at least once and at most 3
    times, and ends with the outcome of its last invocation; every
    earlier invocation raised an error whose lower-cased text contains
    both "prepared statement" and "already exists". *)
Theorem retries_bounded (ucd : UnicodeData)
    (invoke : nat -> AgentState -> outcome AgentState)
    (state : AgentState) :
  let run := ainvoke_with_retries ucd invoke (S MAX_RETRIES) 0 state in
  1 <= snd run <= MAX_RETRIES
  /\ fst run = invoke (snd run - 1) state
  /\ forall j,
       j < snd run - 1 ->
       exists e,
         invoke j state = Raised e
         /\ contains PREPARED_STATEMENT (lower ucd (exn_str e)) = true
         /\ contains ALREADY_EXISTS (lower ucd (exn_str e)) = true.
Proof.
  intros run. unfold run.
  destruct (ainvoke_with_retries ucd invoke (S MAX_RETRIES) 0 state)
    as [r n] eqn:R.
  destruct (retry_loop_spec ucd invoke state (S MAX_RETRIES) 0 r n)
    as (N1 & N2 & N3 & N4); [unfold MAX_RETRIES; lia ..|exact R|].
  cbn [fst snd]. split; [lia|]. split; [exact N3|].
  intros j Hj. apply N4. lia.
Qed.

Lemma first_invocation_returns (ucd : UnicodeData)
    (invoke : nat -> AgentState -> outcome AgentState)
    (state final : AgentState) (steps : nat) :
  invoke 0 state = Return final ->
  ainvoke_with_retries ucd invoke (S steps) 0 state = (Return final, 1).
Proof. intros H. cbn -[lower contains]. now rewrite H. Qed.

Lemma analyze_document_done (ucd : UnicodeData)
    (invoke : nat -> AgentState -> outcome AgentState) (image : Upload)
    (thread : option str) (user_id token fresh text : str)
    (final : AgentState) :
  extract_text_from_image image = Done text ->
  invoke 0
    (initial_state text (thread_id_with_user user_id fresh thread) token)
  = Return final ->
  analyze_document ucd invoke true image thread user_id token fresh
  = (Done (response_of (thread_id_with_user user_id fresh thread) final),
     1).
Proof.
  intros O I. unfold analyze_document. cbn [negb]. rewrite O.
  rewrite (first_invocation_returns ucd invoke _ final _ I).
  reflexivity.
Qed.

(** X19.  The endpoint lets no exception escape other than an
    [HTTPException]: 503 when the graph is not ready, in which case
    neither OCR nor the graph is used, the 400 or 500 of the OCR
    service, or 500.  It invokes the graph at most 3 times. *)
Theorem analyze_document_statuses (ucd : UnicodeData)
    (invoke : nat -> AgentState -> outcome AgentState)
    (graph_ready : bool) (image : Upload) (thread : option str)
    (user_id token fresh : str) :
  let answer :=
    analyze_document ucd invoke graph_ready image thread user_id token
      fresh in
  (forall e, fst answer <> Uncaught e)
  /\ (forall code detail,
        fst answer = HTTPException code detail ->
        code = 503 \/ code = 400 \/ code = 500)
  /\ (graph_ready = false ->
      answer = (HTTPException 503 GRAPH_NOT_READY, 0))
  /\ snd answer <= MAX_RETRIES.
Proof.
  intros answer. unfold answer, analyze_document.
  destruct graph_ready; cbn [negb].
  2:{ split; [discriminate|]. split; [|split; [reflexivity|simpl; lia]].
      intros code detail E. injection E as <- _. now left. }
  destruct (ocr_outcomes image) as (_ & O2 & O3 & _).
  destruct (extract_text_from_image image) as [text|code detail|e].
  - destruct (ainvoke_with_retries ucd invoke (S MAX_RETRIES) 0 _)
      as [r n] eqn:R.
    destruct (retry_loop_spec ucd invoke
                (initial_state text
                   (thread_id_with_user user_id fresh thread) token)
                (S MAX_RETRIES) 0 r n)
      as (_ & B & _); [unfold MAX_RETRIES; lia ..|exact R|].
    destruct r as [final|e];
      cbn [fst snd of_outcome api_bind reraise_as] in *.
    + split; [discriminate|]. split; [discriminate|].
      split; [discriminate|lia].
    + split; [discriminate|]. split; [|split; [discriminate|lia]].
      intros c d E. injection E as <- _. now right; right.
  - cbn [fst snd]. split; [discriminate|].
    split; [|split; [discriminate|lia]].
    intros c d E. injection E as <- _.
    destruct (O2 code detail eq_refl) as [-> | ->];
      [right; now left|right; now right].
  - exfalso. exact (O3 e eq_refl).
Qed.

Local Open Scope string_scope.

Lemma rejected_run (ucd : UnicodeData) (world : World)
    (state : AgentState) (k : check) :
  first_failing ucd k (get (raw_text state) []) ->
  ainvoke_graph (workflow ucd world) state
  = (Return (rejected state (reason_message k)),
     [RunNode "extract_and_classify"]).
Proof.
  intros F. unfold workflow. rewrite two_stage_run.
  rewrite (proj2 (node_rejects_iff ucd world state k) F).
  cbn zeta. rewrite merge_rejected.
  destruct (truthy (strip (get (error_message
              (rejected state (reason_message k))) []))) eqn:T;
    [reflexivity|].
  apply truthy_false_iff in T.
  exfalso. exact (reason_message_nonblank k T).
Qed.

Lemma merge_analysis_failed (state : AgentState) :
  merge state (analysis_failed state) = analysis_failed state.
Proof.
  destruct state as [a b c d e f g h i j].
  destruct a, b, c, d, e, f, g, h, i, j; reflexivity.
Qed.

(** The run in which the classification succeeds and the model of the
    analysis fails. *)
Lemma analysis_failed_run (ucd : UnicodeData) (world : World)
    (state : AgentState) (content d l : str) (e : exn) :
  (forall k, ~ fails ucd k (get (raw_text state) [])) ->
  groq world GROQ_MODEL (3 # 10) CLASSIFY_SYSTEM_PROMPT
    (classify_human_message (get (raw_text state) [])) = Return content ->
  parse_classification ucd (split_on NL (strip content)) = (d, l) ->
  groq world GROQ_MODEL_LARGE (4 # 10) ANALYZE_SYSTEM_PROMPT
    (analyze_request
       (set_error_message [] (set_language l (set_doc_type d state))))
  = Raised e ->
  result (ainvoke_graph (workflow ucd world) state)
  = Return (analysis_failed
              (set_error_message []
                 (set_language l (set_doc_type d state)))).
Proof.
  intros A G P G2. unfold workflow. rewrite two_stage_run.
  destruct (classify_outcome ucd world state)
    as [(k & F & E) | [(e' & _ & G' & E) | (c & d' & l' & _ & G' & P' & E)]].
  - exfalso. exact (A k (proj1 F)).
  - congruence.
  - assert (c = content) by congruence. subst c.
    assert (d' = d /\ l' = l) as [-> ->] by (split; congruence).
    rewrite E. cbn zeta. rewrite merge_classified.
    change (truthy (strip (get (error_message
              (set_error_message []
                 (set_language l (set_doc_type d state)))) [])))
      with false.
    cbv iota.
    rewrite (analyze_model_failure ucd world
               (set_error_message []
                  (set_language l (set_doc_type d state))) e eq_refl G2).
    now rewrite merge_analysis_failed.
Qed.

Local Close Scope string_scope.

(** X20.  When a check rejects the text read from the image, and the
    compiled graph behaves as the workflow, the endpoint answers, after
    one invocation of the graph and without an HTTP error, the error
    flag, the message of the first failing check, and blank analysis
    fields with confidence 0.0. *)
Theorem analyze_document_rejection (ucd : UnicodeData) (world : World)
    (invoke : nat -> AgentState -> outcome AgentState) (image : Upload)
    (thread : option str) (user_id token fresh text : str) (k : check) :
  let used := thread_id_with_user user_id fresh thread in
  let state := initial_state text used token in
  extract_text_from_image image = Done text ->
  first_failing ucd k text ->
  invoke 0 state = result (ainvoke_graph (workflow ucd world) state) ->
  analyze_document ucd invoke true image thread user_id token fresh
  = (Done (mkResponse used true (Some (reason_message k)) None
             [] [] [] [] 0%Q ES), 1).
Proof.
  intros used state O F I.
  rewrite (rejected_run ucd world state k F) in I.
  rewrite (analyze_document_done ucd invoke image thread user_id token
             fresh text _ O I).
  unfold response_of, rejected. cbn [error_message get
    set_confidence_score set_language set_doc_type set_error_message].
  rewrite guard_strip.
  destruct (truthy (strip (reason_message k))) eqn:T; [reflexivity|].
  apply truthy_false_iff in T.
  exfalso. exact (reason_message_nonblank k T).
Qed.

Lemma analyze_document_rejection_witness :
  analyze_document latin1_only
    (fun _ st => result (ainvoke_graph (workflow latin1_only offline) st))
    true
    (Build_Upload (Return tt) (Return true) (Return tt)
       (Return (lit " hola ")))
    None (lit "8f3c-21") (lit "token") (lit "ab12cd34ef56")
  = (Done (mkResponse
             (thread_id_with_user (lit "8f3c-21") (lit "ab12cd34ef56")
                None)
             true (Some MSG_TOO_SHORT) None [] [] [] [] 0%Q ES), 1).
Proof.
  apply (analyze_document_rejection latin1_only offline
           (fun _ st =>
              result (ainvoke_graph (workflow latin1_only offline) st))
           (Build_Upload (Return tt) (Return true) (Return tt)
              (Return (lit " hola ")))
           None (lit "8f3c-21") (lit "token") (lit "ab12cd34ef56")
           (lit "hola") length_check).
  - reflexivity.
  - split; [vm_compute; lia|]. intros k'; destruct k'; simpl; lia.
  - reflexivity.
Defined.

(** X21.  When the text passes the checks, the classification succeeds
    and the model of the analysis fails, the endpoint answers without
    the error flag: the document type and the language of the
    classification, the generic error text as explanation, the two
    fallback sentences, and confidence 0.0. *)
Theorem analyze_document_analysis_failure (ucd : UnicodeData)
    (world : World) (invoke : nat -> AgentState -> outcome AgentState)
    (image : Upload) (thread : option str)
    (user_id token fresh text content d l : str) (e : exn) :
  let used := thread_id_with_user user_id fresh thread in
  let state := initial_state text used token in
  extract_text_from_image image = Done text ->
  (forall k, ~ fails ucd k text) ->
  groq world GROQ_MODEL (3 # 10) CLASSIFY_SYSTEM_PROMPT
    (classify_human_message text) = Return content ->
  parse_classification ucd (split_on NL (strip content)) = (d, l) ->
  groq world GROQ_MODEL_LARGE (4 # 10) ANALYZE_SYSTEM_PROMPT
    (analyze_request
       (set_error_message [] (set_language l (set_doc_type d state))))
  = Raised e ->
  invoke 0 state = result (ainvoke_graph (workflow ucd world) state) ->
  analyze_document ucd invoke true image thread user_id token fresh
  = (Done (mkResponse used false None (Some text) d MSG_ANALYSIS_FAILED
             [RISK_FALLBACK] [ACTION_FALLBACK] 0%Q l), 1).
Proof.
  intros used state O A G P G2 I.
  rewrite (analysis_failed_run ucd world state content d l e A G P G2)
    in I.
  rewrite (analyze_document_done ucd invoke image thread user_id token
             fresh text _ O I).
  reflexivity.
Qed.

Lemma analyze_document_analysis_failure_witness :
  let world :=
    Build_World
      (fun model _ _ _ =>
         if String.eqb model GROQ_MODEL
         then Return (lit "TIPO: Contrato")
         else Raised (CollaboratorError []))
      false (Return tt) (fun _ _ => Return tt) in
  analyze_document latin1_only
    (fun _ st => result (ainvoke_graph (workflow latin1_only world) st))
    true
    (Build_Upload (Return tt) (Return true) (Return tt)
       (Return lease_text))
    None (lit "8f3c-21") (lit "token") (lit "ab12cd34ef56")
  = (Done (mkResponse
             (thread_id_with_user (lit "8f3c-21") (lit "ab12cd34ef56")
                None)
             false None (Some lease_text) (lit "Contrato")
             MSG_ANALYSIS_FAILED [RISK_FALLBACK] [ACTION_FALLBACK]
             0%Q ES), 1).
Proof.
  intros world.
  apply (analyze_document_analysis_failure latin1_only world
           (fun _ st =>
              result (ainvoke_graph (workflow latin1_only world) st))
           (Build_Upload (Return tt) (Return true) (Return tt)
              (Return lease_text))
           None (lit "8f3c-21") (lit "token") (lit "ab12cd34ef56")
           lease_text (lit "TIPO: Contrato") (lit "Contrato") ES
           (CollaboratorError [])).
  - reflexivity.
  - apply text_checks_none. vm_compute. reflexivity.
  - reflexivity.
  - reflexivity.
  - reflexivity.
  - reflexivity.
Defined.

(* ===================================================================== *)
(** ** Properties of [api/main.py] *)
(* ===================================================================== *)

(** X22.  [get_thread_state] never answers 404: for a thread without
    values the [HTTPException] it raises is caught by its own handler
    and becomes a 500; its only statuses are 503 and 500. *)
Theorem thread_state_never_404 (graph_ready : bool)
    (aget_state : str -> outcome StateSnapshot)
    (http_str : nat -> str -> str) (thread : str) :
  let answer := get_thread_state graph_ready aget_state http_str thread in
  status_of answer <> Some 404
  /\ (forall code detail,
        answer = HTTPException code detail -> code = 503 \/ code = 500)
  /\ (forall e, answer <> Uncaught e)
  /\ (forall snapshot,
        graph_ready = true ->
        aget_state thread = Return snapshot ->
        values snapshot = None ->
        answer
        = HTTPException 500
            (THREAD_STATE_ERROR ++ http_str 404 THREAD_NOT_FOUND)).
Proof.
  intros answer. unfold answer, get_thread_state.
  destruct graph_ready; cbn [negb].
  - destruct (aget_state thread) as [snapshot|e].
    + destruct (values snapshot) as [state|] eqn:V.
      * repeat split; try discriminate. intros s _ E.
        injection E as <-. congruence.
      * split; [discriminate|]. split.
        -- intros c d E. injection E as <- _. now right.
        -- split; [discriminate|]. reflexivity.
    + split; [discriminate|]. split.
      * intros c d E. injection E as <- _. now right.
      * split; discriminate.
  - split; [discriminate|]. split.
    + intros c d E. injection E as <- _. now left.
    + split; discriminate.
Qed.

Lemma thread_state_never_404_witness :
  get_thread_state true
    (fun _ => Return (Build_StateSnapshot None [])) (fun _ d => d)
    (lit "user_1_x")
  = HTTPException 500 (THREAD_STATE_ERROR ++ THREAD_NOT_FOUND).
Proof.
  exact (proj2 (proj2 (proj2 (thread_state_never_404 true
           (fun _ => Return (Build_StateSnapshot None [])) (fun _ d => d)
           (lit "user_1_x"))))
           (Build_StateSnapshot None []) eq_refl eq_refl eq_refl).
Defined.






(** X24.  When a check rejects the text and the compiled graph behaves
    as the workflow, [process_document] answers as for a success, with
    every analysis field blank and confidence 0.0: the response has no
    place for the message of the check. *)
Theorem process_document_hides_rejection (ucd : UnicodeData)
    (world : World) (invoke : AgentState -> outcome AgentState)
    (text_hash : Z) (raw : str) (thread : option str) (k : check) :
  let used := process_thread_id text_hash thread in
  first_failing ucd k raw ->
  invoke (process_initial_state raw used)
  = result (ainvoke_graph (workflow ucd world)
              (process_initial_state raw used)) ->
  process_document true invoke text_hash raw thread
  = Done (mkDocumentResponse [] [] [] [] 0%Q ES used).
Proof.
  intros used F I. unfold process_document. cbn [negb]. fold used.
  rewrite I, (rejected_run ucd world (process_initial_state raw used) k F).
  reflexivity.
Qed.

Lemma process_document_hides_rejection_witness :
  process_document true
    (fun st => result (ainvoke_graph (workflow latin1_only offline) st))
    7%Z (lit "hola") (Some (lit "sesion"))
  = Done (mkDocumentResponse [] [] [] [] 0%Q ES (lit "sesion")).
Proof.
  apply (process_document_hides_rejection latin1_only offline
           (fun st =>
              result (ainvoke_graph (workflow latin1_only offline) st))
           7%Z (lit "hola") (Some (lit "sesion")) length_check).
  - split; [vm_compute; lia|]. intros k'; destruct k'; simpl; lia.
  - reflexivity.
Defined.

(* ===================================================================== *)
(** ** The checkpointer *)
(* ===================================================================== *)

Lemma replace_skip (old new a r : str) :
  replace_from old new (List.length a) (a ++ r) = replace_from old new 0 r.
Proof.
  induction a as [|c a IH]; [reflexivity|].
  destruct r; simpl; exact IH.
Qed.

Lemma contains_cons (p : str) (c : char) (s : str) :
  contains p (c :: s) = startswith p (c :: s) || contains p s.
Proof. reflexivity. Qed.

Lemma contains_app_r (p a s : str) :
  contains p s = true -> contains p (a ++ s) = true.
Proof.
  intros H. induction a as [|c a IH]; [exact H|].
  simpl app. rewrite contains_cons, IH. apply orb_true_r.
Qed.

Section ReplaceOccurrences.
Variables (c0 : char) (o n : str).
Hypothesis old_head_once : mem c0 o = false.
Hypothesis new_head_once : mem c0 n = false.

Lemma replace_cases (s : str) :
  s = []
  \/ (exists r,
        s = (c0 :: o) ++ r
        /\ replace (c0 :: o) (c0 :: n) s
           = (c0 :: n) ++ replace (c0 :: o) (c0 :: n) r)
  \/ (exists c s',
        s = c :: s' /\ startswith (c0 :: o) s = false
        /\ replace (c0 :: o) (c0 :: n) s
           = c :: replace (c0 :: o) (c0 :: n) s').
Proof.
  destruct s as [|c s']; [now left|right].
  destruct (startswith (c0 :: o) (c :: s')) eqn:E.
  - left. destruct (proj1 (startswith_prefix _ _) E) as [r Er].
    exists r. split; [exact Er|].
    unfold replace. rewrite Er at 1.
    cbn [app replace_from].
    assert (E' : startswith (c0 :: o) (c0 :: o ++ r) = true)
      by (apply (startswith_app (c0 :: o) r)).
    rewrite E'.
    replace (List.length (c0 :: o) - 1) with (List.length o)
      by (simpl; lia).
    now rewrite replace_skip.
  - right. exists c, s'. split; [reflexivity|]. split; [reflexivity|].
    unfold replace. cbn [replace_from]. now rewrite E.
Qed.

Lemma contains_skip (p' a t : str) :
  mem c0 a = false ->
  contains (c0 :: p') (a ++ t) = contains (c0 :: p') t.
Proof.
  unfold mem. induction a as [|x a IH]; [reflexivity|].
  cbn [existsb]. intros H. apply orb_false_iff in H as [H1 H2].
  simpl app. rewrite contains_cons. cbn [startswith].
  rewrite H1. cbn [andb orb]. exact (IH H2).
Qed.

(** A pattern without [c0] that starts the result starts the input. *)
Lemma startswith_replace (q s : str) :
  mem c0 q = false ->
  startswith q (replace (c0 :: o) (c0 :: n) s) = true ->
  startswith q s = true.
Proof.
  unfold mem. revert s. induction q as [|a q IH]; intros s M H;
    [reflexivity|].
  cbn [existsb] in M. apply orb_false_iff in M as [M1 M2].
  destruct (replace_cases s) as [->|[(r & -> & E)|(c & s' & -> & _ & E)]].
  - discriminate H.
  - rewrite E in H. cbn [app startswith] in H.
    rewrite N.eqb_sym, M1 in H. discriminate H.
  - rewrite E in H. cbn [startswith] in H |- *.
    apply andb_true_iff in H as [H1 H2].
    rewrite H1. exact (IH s' M2 H2).
Qed.

(** An occurrence in the result of a pattern that starts with [c0],
    has it nowhere else and does not start [c0 :: n], is one of the
    input. *)
Lemma contains_replace (p' : str) :
  mem c0 p' = false ->
  (forall t, startswith p' (n ++ t) = false) ->
  forall s, contains (c0 :: p') (replace (c0 :: o) (c0 :: n) s) = true ->
            contains (c0 :: p') s = true.
Proof.
  intros M D s.
  remember (List.length s) as k eqn:K. revert s K.
  induction k as [k IH] using lt_wf_ind. intros s K H.
  destruct (replace_cases s) as [->|[(r & -> & E)|(c & s' & -> & _ & E)]].
  - exact H.
  - rewrite E in H. simpl app in H.
    rewrite contains_cons in H. cbn [startswith] in H.
    rewrite D, andb_false_r in H. cbn [orb] in H.
    rewrite (contains_skip p' n _ new_head_once) in H.
    apply contains_app_r.
    apply (IH (List.length r)); [|reflexivity|exact H].
    subst k. rewrite length_app. simpl. lia.
  - rewrite E in H. rewrite contains_cons in H |- *.
    apply orb_true_iff in H as [H|H]; apply orb_true_iff.
    + left. cbn [startswith] in H |- *.
      apply andb_true_iff in H as [H1 H2]. rewrite H1.
      exact (startswith_replace p' s' M H2).
    + right. apply (IH (List.length s')); [|reflexivity|exact H].
      subst k. simpl. lia.
Qed.

(** When [c0 :: n] does not start with [c0 :: o], the result has no
    occurrence of [c0 :: o]. *)
Lemma replace_removes :
  (forall t, startswith o (n ++ t) = false) ->
  forall s, contains (c0 :: o) (replace (c0 :: o) (c0 :: n) s) = false.
Proof.
  intros D s.
  remember (List.length s) as k eqn:K. revert s K.
  induction k as [k IH] using lt_wf_ind. intros s K.
  destruct (replace_cases s) as [->|[(r & -> & E)|(c & s' & -> & N & E)]].
  - reflexivity.
  - rewrite E. simpl app.
    rewrite contains_cons. cbn [startswith].
    rewrite D, andb_false_r. cbn [orb].
    rewrite (contains_skip o n _ new_head_once).
    apply (IH (List.length r)); [|reflexivity].
    subst k. rewrite length_app. simpl. lia.
  - rewrite E, contains_cons.
    rewrite (IH (List.length s')); [|subst k; simpl; lia|reflexivity].
    rewrite orb_false_r.
    destruct (startswith (c0 :: o) (c :: replace (c0 :: o) (c0 :: n) s')) eqn:S;
      [|reflexivity].
    cbn [startswith] in S, N.
    apply andb_true_iff in S as [S1 S2].
    rewrite S1, (startswith_replace o s' old_head_once S2) in N.
    discriminate N.
Qed.
End ReplaceOccurrences.

(** X25.  The connection string the checkpointer is opened with never
    names port 6543 before a [/] or a [?], whatever the configured
    string is. *)
Theorem session_pooler_url_avoids_6543 (db_url : str) :
  contains PORT_6543_PATH (session_pooler_url db_url) = false
  /\ contains PORT_6543_QUERY (session_pooler_url db_url) = false.
Proof.
  unfold session_pooler_url.
  destruct (contains PORT_6543_PATH db_url
            || contains PORT_6543_QUERY db_url) eqn:E.
  - split.
    + destruct (contains PORT_6543_PATH
                  (replace PORT_6543_QUERY PORT_5432_QUERY
                     (replace PORT_6543_PATH PORT_5432_PATH db_url)))
        eqn:C; [|reflexivity].
      apply (contains_replace 58%N (tl PORT_6543_QUERY)
               (tl PORT_5432_QUERY) eq_refl (tl PORT_6543_PATH) eq_refl
               (fun t => eq_refl)) in C.
      exact (eq_trans (eq_sym C)
               (replace_removes 58%N (tl PORT_6543_PATH)
                  (tl PORT_5432_PATH) eq_refl eq_refl (fun t => eq_refl)
                  db_url)).
    + exact (replace_removes 58%N (tl PORT_6543_QUERY)
               (tl PORT_5432_QUERY) eq_refl eq_refl (fun t => eq_refl)
               _).
  - apply orb_false_iff in E. exact E.
Qed.

Lemma reachable_inv (ucd : UnicodeData) (g : Globals) :
  reachable ucd g ->
  (checkpointer g = None -> setup_done g = false)
  /\ (forall saver, checkpointer g = Some saver ->
        checkpointer_cm g = Some saver /\ setup_done g = true).
Proof.
  induction 1 as [|pg g R [IH1 IH2]|g R [IH1 IH2]].
  - split; [reflexivity|discriminate].
  - unfold get_checkpointer.
    destruct (negb (truthy (get (supabase_db_url pg) []))
              || negb (saver_available pg)); [exact (conj IH1 IH2)|].
    destruct (checkpointer g) as [saver|] eqn:C.
    + cbn [fst snd]. rewrite C. exact (conj IH1 IH2).
    + destruct (aenter pg _) as [[]|e].
      * rewrite (IH1 eq_refl). destruct (setup_tables ucd pg) as [r t].
        cbn. split; [discriminate|]. intros saver E. now inversion E.
      * cbn. split; [intros _; now apply IH1|discriminate].
  - unfold cleanup_checkpointer.
    destruct (checkpointer_cm g) eqn:C.
    + cbn. split; [reflexivity|discriminate].
    + cbn [fst]. rewrite C. exact (conj IH1 IH2).
Qed.

(** X26.  Once [__aenter__] has returned, the checkpointer is kept even
    when the call then raises because [setup()] failed: the next call
    returns it at once, so the tables are not set up again before a
    cleanup. *)
Theorem failed_setup_not_retried (ucd : UnicodeData) (pg pg' : Postgres)
    (g : Globals) (url : str) :
  supabase_db_url pg = Some url -> url <> [] ->
  saver_available pg = true ->
  checkpointer g = None ->
  aenter pg (session_pooler_url url) = Return tt ->
  truthy (get (supabase_db_url pg') []) = true ->
  saver_available pg' = true ->
  let g' := snd (fst (get_checkpointer ucd pg g)) in
  g' = mkGlobals (Some (session_pooler_url url))
         (Some (session_pooler_url url)) true
  /\ get_checkpointer ucd pg' g'
     = (Return (Some (session_pooler_url url)), g', []).
Proof.
  intros U N A C E U' A' g'.
  assert (G : g' = mkGlobals (Some (session_pooler_url url))
                     (Some (session_pooler_url url)) true).
  { unfold g', get_checkpointer.
    rewrite U, A, C. cbn [get negb orb].
    rewrite (proj2 (truthy_true_iff url) N). cbn [negb].
    rewrite E. destruct (setup_done g); [reflexivity|].
    now destruct (setup_tables ucd pg). }
  split; [exact G|].
  rewrite G. unfold get_checkpointer. rewrite U', A'. reflexivity.
Qed.

Lemma failed_setup_not_retried_witness :
  let pg := failing_setup (CollaboratorError (lit "connection refused")) in
  let url := lit "postgresql://u:p@db.example:5432/postgres" in
  fst (fst (get_checkpointer latin1_only pg no_checkpointer))
  = Raised (CollaboratorError (lit "connection refused"))
  /\ get_checkpointer latin1_only pg
       (snd (fst (get_checkpointer latin1_only pg no_checkpointer)))
     = (Return (Some url), mkGlobals (Some url) (Some url) true, []).
Proof.
  split; [reflexivity|].
  destruct (failed_setup_not_retried latin1_only
              (failing_setup (CollaboratorError (lit "connection refused")))
              (failing_setup (CollaboratorError (lit "connection refused")))
              no_checkpointer
              (lit "postgresql://u:p@db.example:6543/postgres")
              eq_refl ltac:(discriminate) eq_refl eq_refl eq_refl
              eq_refl eq_refl) as [G R].
  rewrite R, G. reflexivity.
Defined.

(** X27.  In every state the two functions can reach,
    [cleanup_checkpointer] leaves the three module variables as they
    were at import, also when no checkpointer was ever entered. *)
Theorem cleanup_restores_start (ucd : UnicodeData) (g : Globals) :
  reachable ucd g ->
  fst (cleanup_checkpointer g) = no_checkpointer.
Proof.
  intros R. destruct (reachable_inv ucd g R) as [I1 I2].
  unfold cleanup_checkpointer.
  destruct g as [c cm sd]. cbn in *.
  destruct cm; [reflexivity|]. cbn.
  destruct c as [saver|].
  - destruct (I2 saver eq_refl) as [E _]. discriminate E.
  - now rewrite (I1 eq_refl).
Qed.

Lemma cleanup_restores_start_witness :
  fst (cleanup_checkpointer
         (snd (fst (get_checkpointer latin1_only
                      (failing_setup (ValueError (lit "duplicate key")))
                      no_checkpointer))))
  = no_checkpointer.
Proof.
  apply (cleanup_restores_start latin1_only).
  apply reach_get. apply reach_start.
Defined.

(** X28.  In every reachable state without a checkpointer, a call that
    enters a new one also calls [setup()]: the [_setup_done] flag never
    suppresses the set-up of a new checkpointer. *)
Theorem new_checkpointer_is_set_up (ucd : UnicodeData) (pg : Postgres)
    (g : Globals) (url : str) :
  reachable ucd g ->
  supabase_db_url pg = Some url -> url <> [] ->
  saver_available pg = true ->
  checkpointer g = None ->
  aenter pg (session_pooler_url url) = Return tt ->
  exists t,
    snd (get_checkpointer ucd pg g)
    = Enter (session_pooler_url url) :: Setup :: t.
Proof.
  intros R U N A C E.
  destruct (reachable_inv ucd g R) as [I1 _].
  unfold get_checkpointer.
  rewrite U, A, C. cbn [get negb orb].
  rewrite (proj2 (truthy_true_iff url) N). cbn [negb].
  rewrite E, (I1 C).
  unfold setup_tables.
  destruct (setup pg 0) as [[]|e]; [now exists []|].
  destruct (contains PREPARED_STATEMENT _ && contains ALREADY_EXISTS _).
  - destruct (count_tables pg) as [result|ev].
    + cbv zeta. destruct (4 <=? get result 0).
      * destruct (disconnect pg); cbn; eauto.
      * destruct (setup pg 1); [destruct (disconnect pg)|]; cbn; eauto.
    + cbn; eauto.
  - destruct (contains ALREADY_EXISTS _ || contains DUPLICATE _);
      cbn; eauto.
Qed.

Lemma new_checkpointer_is_set_up_witness :
  exists t,
    snd (get_checkpointer latin1_only
           (failing_setup (ValueError (lit "duplicate key")))
           (fst (cleanup_checkpointer
                   (snd (fst (get_checkpointer latin1_only
                      (failing_setup (ValueError (lit "duplicate key")))
                      no_checkpointer))))))
    = Enter (session_pooler_url
               (lit "postgresql://u:p@db.example:6543/postgres"))
        :: Setup :: t.
Proof.
  apply (new_checkpointer_is_set_up latin1_only
           (failing_setup (ValueError (lit "duplicate key"))) _
           (lit "postgresql://u:p@db.example:6543/postgres")).
  - apply reach_cleanup. apply reach_get. apply reach_start.
  - reflexivity.
  - discriminate.
  - reflexivity.
  - reflexivity.
  - reflexivity.
Defined.

(** X29.  One call of [get_checkpointer] calls [setup()] at most three
    times, and an exception it raises is the one of [__aenter__] or of
    one of these [setup()] calls: a failure while the tables are
    counted never escapes. *)
Theorem get_checkpointer_failures (ucd : UnicodeData) (pg : Postgres)
    (g : Globals) :
  setup_calls (snd (get_checkpointer ucd pg g)) <= 3
  /\ forall e,
       fst (fst (get_checkpointer ucd pg g)) = Raised e ->
       aenter pg (session_pooler_url (get (supabase_db_url pg) []))
       = Raised e
       \/ exists k, k < 3 /\ setup pg k = Raised e.
Proof.
  assert (S : setup_calls (snd (setup_tables ucd pg)) <= 3
              /\ forall e, fst (setup_tables ucd pg) = Raised e ->
                   exists k, k < 3 /\ setup pg k = Raised e).
  { unfold setup_tables.
    destruct (setup pg 0) as [[]|e0] eqn:S0;
      [split; [cbn; lia|discriminate]|].
    destruct (contains PREPARED_STATEMENT _ && contains ALREADY_EXISTS _).
    - destruct (count_tables pg) as [result|ev].
      + cbv zeta. destruct (4 <=? get result 0).
        * destruct (disconnect pg) as [[]|ed];
            (split; [cbn; lia|cbn [fst]; intros e H]);
            [discriminate|exists 1; split; [lia|exact H]].
        * destruct (setup pg 1) as [[]|e1]; [destruct (disconnect pg) as [[]|ed]|];
            (split; [cbn; lia|cbn [fst]; intros e H]);
            [discriminate|exists 2; split; [lia|exact H]
            |exists 2; split; [lia|exact H]].
      + split; [cbn; lia|cbn [fst]; intros e H].
        exists 1; split; [lia|exact H].
    - destruct (contains ALREADY_EXISTS _ || contains DUPLICATE _);
        (split; [cbn; lia|cbn [fst]; intros e H]); [discriminate|].
      exists 0. split; [lia|]. rewrite S0. exact H. }
  destruct S as [S1 S2].
  unfold get_checkpointer.
  destruct (negb (truthy (get (supabase_db_url pg) []))
            || negb (saver_available pg));
    [split; [cbn; lia|discriminate]|].
  destruct (checkpointer g); [split; [cbn; lia|discriminate]|].
  destruct (aenter pg _) as [[]|e0] eqn:A.
  - destruct (setup_done g); [split; [cbn; lia|discriminate]|].
    destruct (setup_tables ucd pg) as [r t]. cbn [fst snd] in *.
    split; [exact S1|].
    intros e H. right. apply S2.
    destruct r as [u|er]; [discriminate|congruence].
  - split; [cbn; lia|]. cbn [fst]. intros e H. left. congruence.
Qed.

(** [decimal] on a few numbers, as [str] gives them. *)
Example decimal_examples :
  decimal 0 = lit "0" /\ decimal 7 = lit "7" /\ decimal 10 = lit "10"
  /\ decimal 905 = lit "905" /\ decimal 4321 = lit "4321".
Proof. vm_compute. repeat split. Qed.

(* ===================================================================== *)
(** ** The history endpoint *)
(* ===================================================================== *)

(** X30.  When the user has [rows] in [user_analyses] and both queries
    answer from them, the range being inclusive as in PostgREST,
    [get_history] returns the [limit] rows after the first [offset]
    ones, or fewer when fewer are left, and the number of all rows;
    [has_more] is true exactly when rows are left after the page. *)
Theorem history_page_and_has_more (Row : Type) (world : World)
    (table : Table Row) (rows : list Row) (user_id : str)
    (limit offset : nat) :
  supabase_configured world = true ->
  create_client world = Return tt ->
  1 <= limit ->
  (forall a b,
     (0 <= a <= b)%Z ->
     select_range table user_id a b
     = Return (Some (firstn (Z.to_nat (b - a + 1))
                       (skipn (Z.to_nat a) rows)))) ->
  count_exact table user_id
  = Return (Some (Some (List.length rows))) ->
  exists r,
    get_history world table user_id limit offset = Done r
    /\ analyses r = firstn limit (skipn offset rows)
    /\ total r = List.length rows
    /\ (has_more r = true
        <-> offset + List.length (analyses r) < List.length rows)
    /\ (has_more r = false -> analyses r = skipn offset rows).
Proof.
  intros C K L R T.
  assert (P : select_range table user_id (Z.of_nat offset)
                (Z.of_nat offset + Z.of_nat limit - 1)%Z
              = Return (Some (firstn limit (skipn offset rows)))).
  { rewrite R by lia. do 3 f_equal; [|now rewrite Nat2Z.id]. lia. }
  exists (mkHistory user_id (firstn limit (skipn offset rows))
            (List.length rows) limit offset
            (offset + limit <? List.length rows)).
  split.
  { unfold get_history, get_supabase_client.
    rewrite C, K. cbn. rewrite P, T. reflexivity. }
  cbn [analyses total has_more].
  assert (S : List.length (skipn offset rows)
              = List.length rows - offset) by apply length_skipn.
  split; [reflexivity|]. split; [reflexivity|]. split.
  - rewrite length_firstn, S, Nat.ltb_lt. lia.
  - intros H. apply Nat.ltb_ge in H.
    apply firstn_all2. rewrite S. lia.
Qed.

Lemma history_page_and_has_more_witness :
  exists r,
    get_history (answering (lit "x")) (table_of [5; 4; 3; 2; 1])
      (lit "ana") 2 1 = Done r
    /\ analyses r = [4; 3]
    /\ total r = 5
    /\ (has_more r = true
        <-> 1 + List.length (analyses r) < 5)
    /\ (has_more r = false -> analyses r = [4; 3; 2; 1]).
Proof.
  apply (history_page_and_has_more nat (answering (lit "x"))
           (table_of [5; 4; 3; 2; 1]) [5; 4; 3; 2; 1] (lit "ana") 2 1).
  - reflexivity.
  - reflexivity.
  - lia.
  - intros a b _. reflexivity.
  - reflexivity.
Defined.
